(** * Cicero template grammar compiler: a shallow embedding

    This development embeds, function by function, the grammar compiler of
    [packages/cicero-core/src/parsermanager.js] (class [ParserManager]) and
    the classes [TemplateInstance] and [Script] of cicero-core, and states
    the properties of the template specification over them.

    Layout: the JavaScript values the code handles ([JS]), the schema
    objects and the template AST it reads ([Concerto], [Tdl]), its
    exceptions ([Exn]), the classes ([ParserManager], [TemplateInstance],
    [Script]), what the generated rules rely on from the parsing engine
    ([Nearley]), the notions of the statements ([Notions], [Observed],
    [InstanceCalls]), a model and templates to run the code on
    ([Examples]); then the properties.

    Conventions.
    - A JavaScript string is a Rocq [string]; one [ascii] stands for one
      code unit, so [String.length] is the JavaScript [length].
    - A thrown exception is a value of type [exn]; a function that can
      throw returns its exception next to the state it leaves behind,
      because JavaScript keeps every mutation made before the [throw].
    - The template AST is mutated in place by [adjustListBlock]; a function
      that compiles a template returns the template as it leaves it.
    - Objects of other packages (Concerto class declarations, the nearley
      engine, format parsers, markdown transformers, the uuid generator,
      the crypto digest) are consumed through the methods the code calls
      on them, which are the variables of the sections below. *)

From Stdlib Require Import String Ascii List Bool Arith ZArith Lia.
From Stdlib Require Import DecimalString.
From Stdlib Require DecimalPos DecimalZ Sorted.
Import ListNotations.

#[local] Set Warnings "-register-all".

Local Open Scope string_scope.
Local Open Scope list_scope.

(** String concatenation, the [+] of JavaScript on strings. *)
Local Infix "+:+" := String.append (at level 60, right associativity).

(** ** JavaScript strings and primitive values *)

Module JS.

(** The three characters the compiler treats specially. *)
Definition dquote : ascii := ascii_of_nat 34.
Definition newline : ascii := ascii_of_nat 10.
Definition backslash : ascii := ascii_of_nat 92.

(** [`"${s}"`] *)
Definition quoted (s : string) : string :=
  String dquote (s +:+ String dquote "").

(** Decimal rendering of a number inside a template literal. *)
Definition showZ (z : Z) : string := NilZero.string_of_int (Z.to_int z).
Definition showNat (n : nat) : string := showZ (Z.of_nat n).

(** [s.replace(/c/gm, r)] for a one-character pattern [c]. *)
Fixpoint replaceAll (c : ascii) (r : string) (s : string) : string :=
  match s with
  | "" => ""
  | String a s' =>
      if Ascii.eqb a c then r +:+ replaceAll c r s'
      else String a (replaceAll c r s')
  end.

(** Primitive values, as far as the option objects of the code carry
    them (numbers are restricted to integers). *)
Inductive prim :=
| PUndefined
| PNull
| PBool (b : bool)
| PNum (z : Z)
| PStr (s : string).

(** ToBoolean *)
Definition truthy (p : prim) : bool :=
  match p with
  | PUndefined | PNull => false
  | PBool b => b
  | PNum z => negb (Z.eqb z 0)
  | PStr s => negb (String.eqb s "")
  end.

(** ToString, as used by [+] with a string operand. *)
Definition toString (p : prim) : string :=
  match p with
  | PUndefined => "undefined"
  | PNull => "null"
  | PBool true => "true"
  | PBool false => "false"
  | PNum z => showZ z
  | PStr s => s
  end.

(** Strict equality with a string literal. *)
Definition isStr (lit : string) (p : prim) : bool :=
  match p with
  | PStr s => String.eqb s lit
  | _ => false
  end.

(** Values handed to the semantic actions of generated rules. *)
Inductive value :=
| VUndefined
| VNull
| VBool (b : bool)
| VStr (s : string)
| VObj (id : nat)
| VArr (items : list value).

(** [v[i]]: an element of an array or a character of a string,
    [undefined] past the end, a [TypeError] on [null] and [undefined]
    (reported as [None]). *)
Definition index (v : value) (i : nat) : option value :=
  match v with
  | VArr items => Some (nth i items VUndefined)
  | VStr s =>
      Some (match String.get i s with
            | Some c => VStr (String c "")
            | None => VUndefined
            end)
  | VNull | VUndefined => None
  | VBool _ | VObj _ => Some VUndefined
  end.

(** [v !== null] *)
Definition notNull (v : value) : bool :=
  match v with
  | VNull => false
  | _ => true
  end.

(** [v === lit] for a string literal [lit]. *)
Definition equalsString (v : value) (lit : string) : bool :=
  match v with
  | VStr s => String.eqb s lit
  | _ => false
  end.

(** [[x].concat(y)]: an array argument is spread one level, any other
    value is appended as a single element. *)
Definition concat1 (x y : value) : value :=
  match y with
  | VArr items => VArr (x :: items)
  | _ => VArr [x; y]
  end.

End JS.

(** ** The Concerto schema objects the compiler reads *)

Module Concerto.

(** A property declaration: [getName], [getType],
    [getFullyQualifiedTypeName], [isArray], [isOptional], and whether it
    is an instance of [RelationshipDeclaration]. *)
Record Property := mkProperty {
  getName : string;
  getType : string;
  getFullyQualifiedTypeName : string;
  isArray : bool;
  isOptional : bool;
  isRelationship : bool
}.

(** A class declaration: [getFullyQualifiedName],
    [getIdentifierFieldName] (null when the class has no identifier) and
    [getProperties]. *)
Record ClassDeclaration := mkClassDeclaration {
  getFullyQualifiedName : string;
  getIdentifierFieldName : option string;
  getProperties : list Property
}.

(** [getProperty(name)]: the declared property of that name, if any. *)
Definition getProperty (c : ClassDeclaration) (name : string) : option Property :=
  find (fun p => String.eqb (getName p) name) (getProperties c).

End Concerto.

(** ** The annotated-template AST produced by the template grammar *)

Module Tdl.

(** A lexer token: its text and its position in the template source. *)
Record token := mkToken {
  tvalue : string;
  line : nat;
  col : nat
}.

(** One node of the AST, tagged by its [type] string.  Nested templates
    are given by their [data] array, whose entries may be null (a
    missing optional last chunk).  [Other] stands for a node whose tag
    is none of the twelve the compiler knows. *)
Inductive element :=
| Chunk (value : string)
| LastChunk (value : string)
| Binding (fieldName : token) (format : option token)
| FormattedBinding (fieldName : token) (format : token)
| IfBinding (fieldName : token) (stringIf : token)
| IfElseBinding (fieldName : token) (stringIf : token) (stringElse : token)
| ClauseBinding (fieldName : token) (template : list (option element))
| WithBinding (fieldName : token) (template : list (option element))
| UListBinding (fieldName : token) (template : list (option element))
| OListBinding (fieldName : token) (template : list (option element))
| JoinBinding (fieldName : token) (separator : string)
              (template : list (option element))
| Expr (value : string)
| Other (type : string) (fieldName : option token) (value : option string).

Definition ast := list (option element).

(** [element.type] *)
Definition typeOf (e : element) : string :=
  match e with
  | Chunk _ => "Chunk"
  | LastChunk _ => "LastChunk"
  | Binding _ _ => "Binding"
  | FormattedBinding _ _ => "FormattedBinding"
  | IfBinding _ _ => "IfBinding"
  | IfElseBinding _ _ _ => "IfElseBinding"
  | ClauseBinding _ _ => "ClauseBinding"
  | WithBinding _ _ => "WithBinding"
  | UListBinding _ _ => "UListBinding"
  | OListBinding _ _ => "OListBinding"
  | JoinBinding _ _ _ => "JoinBinding"
  | Expr _ => "Expr"
  | Other t _ _ => t
  end.

(** [element.fieldName] *)
Definition fieldNameOf (e : element) : option token :=
  match e with
  | Binding f _ | FormattedBinding f _ | IfBinding f _
  | IfElseBinding f _ _ | ClauseBinding f _ | WithBinding f _
  | UListBinding f _ | OListBinding f _ | JoinBinding f _ _ => Some f
  | Other _ f _ => f
  | Chunk _ | LastChunk _ | Expr _ => None
  end.

(** [element.value] *)
Definition valueOf (e : element) : option string :=
  match e with
  | Chunk v | LastChunk v | Expr v => Some v
  | Other _ _ v => v
  | _ => None
  end.

(** [element.format] *)
Definition formatOf (e : element) : option token :=
  match e with
  | Binding _ f => f
  | FormattedBinding _ f => Some f
  | _ => None
  end.

(** [element.template.data] *)
Definition templateOf (e : element) : option ast :=
  match e with
  | ClauseBinding _ t | WithBinding _ t | UListBinding _ t
  | OListBinding _ t | JoinBinding _ _ t => Some t
  | _ => None
  end.

(** The element with its nested template replaced (the template object
    is shared, so a mutation of it is seen through the element). *)
Definition withTemplate (e : element) (t : ast) : element :=
  match e with
  | ClauseBinding f _ => ClauseBinding f t
  | WithBinding f _ => WithBinding f t
  | UListBinding f _ => UListBinding f t
  | OListBinding f _ => OListBinding f t
  | JoinBinding f s _ => JoinBinding f s t
  | _ => e
  end.

(** The nine tags [findFirstBinding] accepts. *)
Definition isBinding (e : element) : bool :=
  match e with
  | Binding _ _ | FormattedBinding _ _ | IfBinding _ _
  | IfElseBinding _ _ _ | UListBinding _ _ | OListBinding _ _
  | JoinBinding _ _ _ | ClauseBinding _ _ | WithBinding _ _ => true
  | _ => false
  end.

Definition isListBinding (e : element) : bool :=
  match e with
  | UListBinding _ _ | OListBinding _ _ | JoinBinding _ _ _ => true
  | _ => false
  end.

(** Nesting depth of templates, the measure the recursive compiler
    descends on. *)
Fixpoint depth (e : element) : nat :=
  let depthAst :=
    fix depthAst (l : list (option element)) : nat :=
      match l with
      | [] => 0
      | None :: l' => depthAst l'
      | Some x :: l' => Nat.max (depth x) (depthAst l')
      end in
  match e with
  | ClauseBinding _ t | WithBinding _ t | UListBinding _ t
  | OListBinding _ t | JoinBinding _ _ t => S (depthAst t)
  | _ => 0
  end.

Fixpoint depthAst (l : ast) : nat :=
  match l with
  | [] => 0
  | None :: l' => depthAst l'
  | Some x :: l' => Nat.max (depth x) (depthAst l')
  end.

End Tdl.

(** ** Exceptions *)

Module Exn.

(** The [fileLocation] object of a [TemplateException].  The code stores
    the end column under the key [endColumn]. *)
Record FileLocation := mkFileLocation {
  startLine : nat;
  startColumn : nat;
  endLine : nat;
  endColumn : nat
}.

(** What a call can throw: a [TemplateException] of cicero-core (the
    structural error of the specification), given by the arguments the
    code passes to its constructor; a plain [Error]; the [TypeError] of a
    property read on [undefined]; an exception raised inside another
    package; and the marker of an exhausted budget of nested calls, which
    the compiler below never produces (see
    [CompilerFacts.buildGrammarRules_total]). *)
Inductive exn :=
| TemplateException (message : string) (fileLocation : FileLocation)
                    (fileName : string) (component : string)
| Error (message : string)
| TypeError (message : string)
| External (package : string) (message : string)
| Exhausted.

End Exn.

(** ** [ParserManager]: the grammar compiler *)

Module ParserManager.

Import JS Concerto Tdl Exn.

(** An entry of [parts.textRules]: the container rule of one level. *)
Record TextRules := mkTextRules {
  tr_prefix : string;
  tr_symbols : list string;
  tr_class : string;
  tr_identifier : option string;
  tr_properties : list string
}.

(** An entry of [parts.modelRules]. *)
Record ModelRule := mkModelRule {
  mr_prefix : string;
  mr_symbols : list string
}.

(** The accumulator [parts]; [grammars] is kept as the list of its keys. *)
Record Parts := mkParts {
  textRules : list TextRules;
  modelRules : list ModelRule;
  grammars : list string
}.

(** What a compilation reads and writes besides the AST: [parts], the
    [ergoExpression] flag of the manager, and how many identifiers the
    uuid generator has handed out. *)
Record State := mkState {
  parts : Parts;
  ergoExpression : bool;
  uuids : nat
}.

Definition pushTextRules (t : TextRules) (s : State) : State :=
  let p := parts s in
  mkState (mkParts (textRules p ++ [t]) (modelRules p) (grammars p))
          (ergoExpression s) (uuids s).

Definition pushModelRule (r : ModelRule) (s : State) : State :=
  let p := parts s in
  mkState (mkParts (textRules p) (modelRules p ++ [r]) (grammars p))
          (ergoExpression s) (uuids s).

Definition setGrammars (g : list string) (s : State) : State :=
  let p := parts s in
  mkState (mkParts (textRules p) (modelRules p) g)
          (ergoExpression s) (uuids s).

Definition setErgoExpression (b : bool) (s : State) : State :=
  mkState (parts s) b (uuids s).

Definition takeUuid (s : State) : State :=
  mkState (parts s) (ergoExpression s) (S (uuids s)).

(** The three format parsers of cicero-core. *)
Inductive FormatParser :=
| DateTimeFormatParser
| AmountFormatParser
| MonetaryAmountFormatParser.

(** A rule returned by [buildFormatRules]. *)
Record FormatRule := mkFormatRule {
  fr_name : string;
  fr_tokens : string;
  fr_action : string
}.

(** *** Functions that read nothing but their arguments *)

(** [cleanChunk(input)] *)
Definition cleanChunk (input : string) : string :=
  let text := replaceAll newline (String backslash "n") input in
  let text := replaceAll dquote (String backslash (String dquote "")) text in
  quoted text.

(** [findFirstBinding(propertyName, elements)], with the loop counter [n]
    made explicit: the index of the first binding node whose field name is
    [propertyName], or -1. *)
Fixpoint findFirstBindingFrom (n : Z) (propertyName : string) (elements : ast) : Z :=
  match elements with
  | [] => (-1)%Z
  | element :: rest =>
      match element with
      | Some e =>
          if isBinding e then
            match fieldNameOf e with
            | Some f =>
                if String.eqb (tvalue f) propertyName then n
                else findFirstBindingFrom (n + 1) propertyName rest
            | None => findFirstBindingFrom (n + 1) propertyName rest
            end
          else findFirstBindingFrom (n + 1) propertyName rest
      | None => findFirstBindingFrom (n + 1) propertyName rest
      end
  end.

Definition findFirstBinding (propertyName : string) (elements : ast) : Z :=
  findFirstBindingFrom 0 propertyName elements.

(** [adjustListBlock(x, separator)]: the first entry of the template must
    be a text chunk, and gets the separator prepended in place. *)
Definition adjustListBlock (x : ast) (separator : string) : exn + ast :=
  match x with
  | Some (Chunk v) :: rest => inr (Some (Chunk (separator +:+ v)) :: rest)
  | _ => inl (Error "List block in template should contain text")
  end.

(** [_throwTemplateExceptionForElement(message, element)]: the exception
    it throws.  Reading [element.fieldName.col] of a node without a field
    name is a [TypeError]. *)
Definition _throwTemplateExceptionForElement (message : string) (element : element) : exn :=
  match fieldNameOf element with
  | None => TypeError "Cannot read properties of undefined (reading 'col')"
  | Some fieldName =>
      let fileName := "text/grammar.tem.md" in
      let column := col fieldName in
      let line := line fieldName in
      let token :=
        match valueOf element with
        | Some v => if String.eqb v "" then " " else v
        | None => " "
        end in
      let endColumn := column + String.length token in
      TemplateException message (mkFileLocation line column line endColumn)
                        fileName "cicero-core"
  end.

(** [getProperty(templateModel, element)] *)
Definition getProperty (templateModel : ClassDeclaration) (element : element)
  : exn + Property :=
  match fieldNameOf element with
  | None => inl (TypeError "Cannot read properties of undefined (reading 'value')")
  | Some fieldName =>
      let propertyName := tvalue fieldName in
      match Concerto.getProperty templateModel propertyName with
      | None =>
          inl (_throwTemplateExceptionForElement
                 ("Template references a property '" +:+ propertyName
                  +:+ "' that is not declared in the template model '"
                  +:+ getFullyQualifiedName templateModel +:+ "'")
                 element)
      | Some property => inr property
      end
  end.

(** The test of the first loop of [buildGrammarRules]: empty chunks and
    missing optional last chunks get no rule. *)
Definition hasRule (element : option element) : bool :=
  match element with
  | None => false
  | Some (Chunk v) => negb (String.eqb v "")
  | Some _ => true
  end.

(** [textRules.symbols]: the names [prefix + index] of the kept nodes. *)
Fixpoint symbolsFrom (index : nat) (prefix : string) (data : ast) : list string :=
  match data with
  | [] => []
  | element :: rest =>
      if hasRule element
      then (prefix +:+ showNat index) :: symbolsFrom (S index) prefix rest
      else symbolsFrom (S index) prefix rest
  end.

(** [textRules.properties]: one entry per property of the model that has
    a binding, in the order of [getProperties()]. *)
Fixpoint propertiesFrom (index : nat) (count : nat) (prefix : string)
    (data : ast) (properties : list Property) : list string :=
  match properties with
  | [] => []
  | property :: rest =>
      let sep := if Nat.ltb index (count - 1) then "," else "" in
      let bindingIndex := findFirstBinding (getName property) data in
      if Z.eqb bindingIndex (-1)
      then propertiesFrom (S index) count prefix data rest
      else (getName property +:+ " : " +:+ prefix +:+ showZ bindingIndex +:+ sep)
             :: propertiesFrom (S index) count prefix data rest
  end.

(** *** The recursive compiler *)

(** What a call leaves behind: the AST as mutated so far, the state, and
    the exception if it threw. *)
Record Outcome := mkOutcome {
  o_ast : ast;
  o_state : State;
  o_thrown : option exn
}.

(** The same for the compilation of one node. *)
Record NodeOutcome := mkNodeOutcome {
  n_element : element;
  n_state : State;
  n_thrown : option exn
}.

Section Compiler.

(** The [n]-th identifier returned by [uuid.v4()]. *)
Variable uuid_v4 : nat -> string.

(** [template.getIntrospector().getClassDeclaration(name)], which throws
    when the name is not a declared class. *)
Variable getClassDeclaration : string -> exn + ClassDeclaration.

(** [formatParser.addGrammars(grammars)], on the keys of [grammars]. *)
Variable addGrammars : FormatParser -> list string -> list string.

(** [formatParser.buildFormatRules(format)] *)
Variable buildFormatRules : FormatParser -> string -> exn + list FormatRule.

(** The [textRules] object [buildGrammarRules] pushes for one level; [s]
    is the state on entry. *)
Definition containerRule (data : ast) (templateModel : ClassDeclaration)
    (prefix : string) (s : State) : TextRules :=
  mkTextRules
    prefix
    (symbolsFrom 0 prefix data)
    (getFullyQualifiedName templateModel)
    (match getIdentifierFieldName templateModel with
     | Some identifier =>
         Some (identifier +:+ " : " +:+ quoted (uuid_v4 (uuids s)))
     | None => None
     end)
    (propertiesFrom 0 (List.length (getProperties templateModel)) prefix data
                    (getProperties templateModel)).

(** The state after the container rule is pushed: a model with an
    identifier has drawn one uuid. *)
Definition enterLevel (data : ast) (templateModel : ClassDeclaration)
    (prefix : string) (s : State) : State :=
  let s' := pushTextRules (containerRule data templateModel prefix s) s in
  match getIdentifierFieldName templateModel with
  | Some _ => takeUuid s'
  | None => s'
  end.

(** The semantic actions the compiler writes into rules. *)
Definition idAction : string := "{% id %}".

Definition ifAction : string := "{% (d) => {return d[0] !== null;}%}".

Definition ifElseAction (stringIf : string) : string :=
  "{% (d) => {return d[0][0] === " +:+ quoted stringIf +:+ ";}%}".

Definition listAction (propertyName : string) : string :=
  String newline
    ("{%" +:+ String newline
       ("  ([ " +:+ propertyName +:+ "First, " +:+ propertyName +:+ " ]) => {"
        +:+ String newline
          ("    return [" +:+ propertyName +:+ "First].concat("
           +:+ propertyName +:+ ");" +:+ String newline
             ("}" +:+ String newline "%}")))).

(** The [formatRules.forEach] loop of [handleBinding]: every rule renames
    [type], and is pushed unless a model rule of its name exists. *)
Fixpoint pushFormatRules (propertyName format : string) (formatRules : list FormatRule)
    (type : string) (s : State) : string * State :=
  match formatRules with
  | [] => (type, s)
  | formatRule :: rest =>
      let ruleExists :=
        existsb (fun rule => String.eqb (mr_prefix rule) (fr_name formatRule))
                (modelRules (parts s)) in
      let s' :=
        if ruleExists then s
        else pushModelRule
               (mkModelRule (fr_name formatRule)
                  [fr_tokens formatRule +:+ " " +:+ fr_action formatRule
                   +:+ " # " +:+ propertyName +:+ " as " +:+ format])
               s in
      pushFormatRules propertyName format rest (fr_name formatRule) s'
  end.

(** The end of [handleBinding]: the cardinality suffix and the rule of the
    node. [firstType] is null except for a list binding. *)
Definition suffixOf (property : Property) : string :=
  let suffix := ":" in
  let suffix := if isArray property then suffix +:+ "*" else suffix in
  let suffix := if isOptional property then suffix +:+ "?" else suffix in
  if String.eqb suffix ":" then "" else suffix.

Definition bindingRule (inputRule : string) (element : element)
    (property : Property) (propertyName : string)
    (firstType : option string) (type action : string) : ModelRule :=
  let suffix := suffixOf property in
  if isListBinding element then
    mkModelRule inputRule
      [match firstType with Some t => t | None => "null" end
       +:+ " " +:+ type +:+ suffix +:+ " " +:+ action +:+ " # " +:+ propertyName]
  else
    mkModelRule inputRule
      [type +:+ suffix +:+ " " +:+ action +:+ " # " +:+ propertyName].

(** The node with the rule [handleBinding] pushes for it at its end. *)
Definition finishBinding (inputRule : string) (element : element)
    (property : Property) (propertyName : string) (mutated : Tdl.element)
    (firstType : option string) (type action : string) (s : State) : NodeOutcome :=
  mkNodeOutcome mutated
    (pushModelRule
       (bindingRule inputRule element property propertyName firstType type action) s)
    None.

(** The format parser and the format of a formatted binding or of a
    [DateTime] property. *)
Definition chooseFormat (element : element) (property : Property)
  : exn + (FormatParser * string) :=
  if String.eqb (getType property) "DateTime" then
    inr (DateTimeFormatParser,
         match formatOf element with
         | Some format => tvalue format
         | None => quoted "MM/DD/YYYY"
         end)
  else if String.eqb (getType property) "Double" then
    match formatOf element with
    | Some format => inr (AmountFormatParser, tvalue format)
    | None => inl (TypeError "Cannot read properties of undefined (reading 'value')")
    end
  else if String.eqb (getType property) "MonetaryAmount" then
    match formatOf element with
    | Some format => inr (MonetaryAmountFormatParser, tvalue format)
    | None => inl (TypeError "Cannot read properties of undefined (reading 'value')")
    end
  else
    inl (_throwTemplateExceptionForElement
           ("Formatted types are not currently supported for "
            +:+ getType property +:+ " properties.") element).

(** The branch of [handleBinding] for a [FormattedBinding] and for a
    [DateTime] property. *)
Definition handleFormatted (inputRule : string) (element : element)
    (property : Property) (propertyName : string) (s : State) : NodeOutcome :=
  match chooseFormat element property with
  | inl e => mkNodeOutcome element s (Some e)
  | inr (formatParser, format) =>
      let s1 := setGrammars (addGrammars formatParser (grammars (parts s))) s in
      match buildFormatRules formatParser format with
      | inl e => mkNodeOutcome element s1 (Some e)
      | inr formatRules =>
          let '(type, s2) :=
            pushFormatRules propertyName format formatRules (getType property) s1 in
          finishBinding inputRule element property propertyName element
                        None type idAction s2
      end
  end.

(** The branch for a [ClauseBinding] and a [WithBinding]. *)
Definition handleNested
    (build : ast -> ClassDeclaration -> string -> State -> Outcome)
    (inputRule : string) (element : element) (fieldName : token)
    (property : Property) (propertyName : string) (s : State) : NodeOutcome :=
  match templateOf element with
  | None =>
      mkNodeOutcome element s
        (Some (TypeError "Cannot read properties of undefined (reading 'data')"))
  | Some nestedTemplate =>
      match getClassDeclaration (getFullyQualifiedTypeName property) with
      | inl e => mkNodeOutcome element s (Some e)
      | inr nestedTemplateModel =>
          let o := build nestedTemplate nestedTemplateModel propertyName s in
          let mutated := withTemplate element (o_ast o) in
          match o_thrown o with
          | Some e => mkNodeOutcome mutated (o_state o) (Some e)
          | None =>
              finishBinding inputRule element property propertyName mutated
                            None (tvalue fieldName) idAction (o_state o)
          end
      end
  end.

(** What separates the items of a list. *)
Definition listSeparator (element : element) : string :=
  match element with
  | JoinBinding _ separator _ => separator
  | UListBinding _ _ => "-  "
  | _ => "1. "
  end.

(** The template of the first item of a list, and the template of every
    other item, which is adjusted from the template the first pass left. *)
Definition firstNestedTemplate (element : element) (template : ast) : exn + ast :=
  if String.eqb (typeOf element) "JoinBinding" then inr template
  else adjustListBlock template (listSeparator element).

Definition restNestedTemplate (element : element) (template : ast) : exn + ast :=
  if String.eqb (typeOf element) "JoinBinding"
  then adjustListBlock template (listSeparator element)
  else adjustListBlock template (String newline "").

(** The branch for a [UListBinding], an [OListBinding] and a
    [JoinBinding]. *)
Definition handleList
    (build : ast -> ClassDeclaration -> string -> State -> Outcome)
    (inputRule : string) (element : element) (fieldName : token)
    (property : Property) (propertyName : string) (s : State) : NodeOutcome :=
  match templateOf element with
  | None =>
      mkNodeOutcome element s
        (Some (TypeError "Cannot read properties of undefined (reading 'data')"))
  | Some template =>
      match getClassDeclaration (getFullyQualifiedTypeName property) with
      | inl e => mkNodeOutcome element s (Some e)
      | inr nestedTemplateModel =>
          match firstNestedTemplate element template with
          | inl e => mkNodeOutcome element s (Some e)
          | inr first =>
              let o1 := build first nestedTemplateModel (propertyName +:+ "First") s in
              match o_thrown o1 with
              | Some e =>
                  mkNodeOutcome (withTemplate element (o_ast o1)) (o_state o1) (Some e)
              | None =>
                  let firstType := tvalue fieldName +:+ "First" in
                  match restNestedTemplate element (o_ast o1) with
                  | inl e =>
                      mkNodeOutcome (withTemplate element (o_ast o1)) (o_state o1)
                                    (Some e)
                  | inr rest =>
                      let o2 := build rest nestedTemplateModel propertyName
                                      (o_state o1) in
                      let mutated := withTemplate element (o_ast o2) in
                      match o_thrown o2 with
                      | Some e => mkNodeOutcome mutated (o_state o2) (Some e)
                      | None =>
                          finishBinding inputRule element property propertyName
                                        mutated (Some firstType) (tvalue fieldName)
                                        (listAction propertyName) (o_state o2)
                      end
                  end
              end
          end
      end
  end.

(** [handleBinding(templateModel, parts, inputRule, element)], over the
    function [build] it calls for a nested template. *)
Definition handleBinding
    (build : ast -> ClassDeclaration -> string -> State -> Outcome)
    (templateModel : ClassDeclaration) (inputRule : string)
    (element : element) (s : State) : NodeOutcome :=
  match fieldNameOf element with
  | None =>
      mkNodeOutcome element s
        (Some (TypeError "Cannot read properties of undefined (reading 'value')"))
  | Some fieldName =>
      let propertyName := tvalue fieldName in
      match getProperty templateModel element with
      | inl e => mkNodeOutcome element s (Some e)
      | inr property =>
          if String.eqb (typeOf element) "FormattedBinding"
             || String.eqb (getType property) "DateTime" then
            handleFormatted inputRule element property propertyName s
          else if String.eqb (typeOf element) "ClauseBinding"
                  || String.eqb (typeOf element) "WithBinding" then
            handleNested build inputRule element fieldName property propertyName s
          else if isListBinding element then
            handleList build inputRule element fieldName property propertyName s
          else
            let type :=
              if isRelationship property then "String" else getType property in
            finishBinding inputRule element property propertyName element
                          None type idAction s
      end
  end.

(** The body of the [switch] of [buildGrammarRules] for the node
    [element] stored under the name [rule]. *)
Definition compileNode
    (build : ast -> ClassDeclaration -> string -> State -> Outcome)
    (templateModel : ClassDeclaration) (rule : string)
    (element : element) (s : State) : NodeOutcome :=
  let throw := fun e => mkNodeOutcome element s (Some e) in
  let push := fun symbol =>
    mkNodeOutcome element (pushModelRule (mkModelRule rule [symbol]) s) None in
  match element with
  | Chunk value | LastChunk value => push (cleanChunk value)
  | IfBinding fieldName stringIf =>
      match getProperty templateModel element with
      | inl e => throw e
      | inr property =>
          if negb (String.eqb (getType property) "Boolean") then
            throw (_throwTemplateExceptionForElement
                     ("An if block can only be used with a boolean property. Property "
                      +:+ tvalue fieldName +:+ " has type " +:+ getType property)
                     element)
          else
            push (quoted (tvalue stringIf) +:+ ":? " +:+ ifAction
                  +:+ " # " +:+ tvalue fieldName)
      end
  | IfElseBinding fieldName stringIf stringElse =>
      match getProperty templateModel element with
      | inl e => throw e
      | inr property =>
          if negb (String.eqb (getType property) "Boolean") then
            throw (_throwTemplateExceptionForElement
                     ("An if block can only be used with a boolean property. Property "
                      +:+ tvalue fieldName +:+ " has type " +:+ getType property)
                     element)
          else
            push ("(" +:+ quoted (tvalue stringIf) +:+ "|"
                  +:+ quoted (tvalue stringElse) +:+ ") "
                  +:+ ifElseAction (tvalue stringIf)
                  +:+ " # " +:+ tvalue fieldName)
      end
  | FormattedBinding _ _ | Binding _ _ | ClauseBinding _ _ | WithBinding _ _
  | UListBinding _ _ | OListBinding _ _ | JoinBinding _ _ _ =>
      handleBinding build templateModel rule element s
  | Expr _ =>
      mkNodeOutcome element
        (pushModelRule (mkModelRule rule ["Any"]) (setErgoExpression true s)) None
  | Other type _ _ =>
      throw (_throwTemplateExceptionForElement ("Unrecognized type " +:+ type) element)
  end.

(** The loop over [rules]: the kept nodes in the order of [ast.data], each
    under its name [prefix + index]; the first exception ends it. *)
Fixpoint compileRules (node : string -> element -> State -> NodeOutcome)
    (index : nat) (prefix : string) (data : ast) (s : State) : Outcome :=
  match data with
  | [] => mkOutcome [] s None
  | None :: rest =>
      let o := compileRules node (S index) prefix rest s in
      mkOutcome (None :: o_ast o) (o_state o) (o_thrown o)
  | Some element :: rest =>
      if hasRule (Some element) then
        let n := node (prefix +:+ showNat index) element s in
        match n_thrown n with
        | Some e => mkOutcome (Some (n_element n) :: rest) (n_state n) (Some e)
        | None =>
            let o := compileRules node (S index) prefix rest (n_state n) in
            mkOutcome (Some (n_element n) :: o_ast o) (o_state o) (o_thrown o)
        end
      else
        let o := compileRules node (S index) prefix rest s in
        mkOutcome (Some element :: o_ast o) (o_state o) (o_thrown o)
  end.

(** [buildGrammarRules(ast, templateModel, prefix, parts)], with a budget
    of nested calls. *)
Fixpoint buildGrammarRulesWithin (budget : nat) (ast : ast)
    (templateModel : ClassDeclaration) (prefix : string) (s : State) : Outcome :=
  match budget with
  | O => mkOutcome ast s (Some Exhausted)
  | S budget' =>
      compileRules (compileNode (buildGrammarRulesWithin budget') templateModel)
                   0 prefix ast (enterLevel ast templateModel prefix s)
  end.

(** [buildGrammarRules(ast, templateModel, prefix, parts)]: templates nest
    [depthAst ast] deep, and every level costs one nested call. *)
Definition buildGrammarRules (ast : ast) (templateModel : ClassDeclaration)
    (prefix : string) (s : State) : Outcome :=
  buildGrammarRulesWithin (S (depthAst ast)) ast templateModel prefix s.

End Compiler.

(** *** The semantic actions of the generated rules *)

(** The four actions the compiler writes, with the text it writes for
    each ([source]) and what that JavaScript function returns on the array
    [d] the engine passes to it ([run]; [None] is a [TypeError]).  The
    literal of [IfElse] is spliced into the text as it stands, so the
    reading is the one of a literal free of quotes and backslashes. *)
Inductive Action :=
| Id
| IfPresent
| IfElse (stringIf : string)
| ListConcat (propertyName : string).

Definition source (a : Action) : string :=
  match a with
  | Id => idAction
  | IfPresent => ifAction
  | IfElse stringIf => ifElseAction stringIf
  | ListConcat propertyName => listAction propertyName
  end.

Definition run (a : Action) (d : list value) : option value :=
  match a with
  | Id => Some (nth 0 d VUndefined)
  | IfPresent => Some (VBool (notNull (nth 0 d VUndefined)))
  | IfElse stringIf =>
      match index (nth 0 d VUndefined) 0 with
      | Some v => Some (VBool (equalsString v stringIf))
      | None => None
      end
  | ListConcat _ => Some (concat1 (nth 0 d VUndefined) (nth 1 d VUndefined))
  end.

(** *** The manager object *)

Section Manager.

(** The compiled grammar object and the grammar AST of the engine. *)
Variable Compiled : Type.
Variable GrammarAst : Type.
Variable GrammarInfo : Type.

(** Externals of [compileGrammar]: feeding a source text to a parser of
    the nearley grammar language and reading its [results], nearley's
    [compile] and [generate], and the [eval] of the generated module. *)
Variable feedNearley : string -> exn + list GrammarAst.
Variable compile : option GrammarAst -> exn + GrammarInfo.
Variable generate : GrammarInfo -> string.
Variable evalModule : string -> exn + Compiled.

(** Externals of [buildGrammar]: the markdown round trip the manager is
    asked for (invoked as a method, and defined outside this class),
    feeding a text to a parser of the template grammar [tdl.js] and
    reading its [results], the model of the template, the rules the
    [GrammarVisitor] collects from the model manager, and the rendering of
    [template.ne] by nunjucks. *)
Variable roundtripMarkdown : string -> exn + string.
Variable feedTemplateGrammar : string -> exn + list ast.
Variable getTemplateModel : ClassDeclaration.
Variable visitModelManager : exn + list ModelRule.
Variable render : Parts -> exn + string.

Variable uuid_v4 : nat -> string.
Variable getClassDeclaration : string -> exn + ClassDeclaration.
Variable addGrammars : FormatParser -> list string -> list string.
Variable buildFormatRules : FormatParser -> string -> exn + list FormatRule.

(** The fields of a [ParserManager], together with the two generators its
    methods draw from: the uuid generator and the allocator of parser
    objects, whose counter is the identity of the next [new nearley.Parser]. *)
Record Manager := mkManager {
  grammar : option string;
  grammarAst : option Compiled;
  templatizedGrammar : option string;
  templateAst : option ast;
  m_ergoExpression : bool;
  m_uuids : nat;
  m_allocated : nat
}.

(** A parser object: its identity and the compiled grammar it was
    constructed from. *)
Record Parser := mkParser {
  p_identity : nat;
  p_grammar : Compiled
}.

(** [constructor(template)] *)
Definition newManager (uuids allocated : nat) : Manager :=
  mkManager None None None None false uuids allocated.

Definition allocate (m : Manager) : Manager :=
  mkManager (grammar m) (grammarAst m) (templatizedGrammar m) (templateAst m)
            (m_ergoExpression m) (m_uuids m) (S (m_allocated m)).

(** [getParser()] *)
Definition getParser (m : Manager) : (exn + Parser) * Manager :=
  match grammarAst m with
  | None =>
      (inl (Error "Must call setGrammar or buildGrammar before calling getParser"), m)
  | Some g => (inr (mkParser (m_allocated m) g), allocate m)
  end.

(** [getTemplateAst()] *)
Definition getTemplateAst (m : Manager) : exn + option ast :=
  match grammarAst m with
  | None =>
      inl (Error "Must call setGrammar or buildGrammar before calling getTemplateAst")
  | Some _ => inr (templateAst m)
  end.

(** [compileGrammar(sourceCode)]: the [catch] logs and throws again. *)
Definition compileGrammar (sourceCode : string) : exn + Compiled :=
  match feedNearley sourceCode with
  | inl e => inl e
  | inr results =>
      match compile (nth_error results 0) with
      | inl e => inl e
      | inr grammarInfoObject => evalModule (generate grammarInfoObject)
      end
  end.

(** [setGrammar(grammar)]; [compileGrammar] constructs one parser. *)
Definition setGrammar (text : string) (m : Manager) : option exn * Manager :=
  let m := allocate m in
  match compileGrammar text with
  | inl e => (Some e, m)
  | inr g =>
      (None,
       mkManager (Some text) (Some g) (templatizedGrammar m) (templateAst m)
                 (m_ergoExpression m) (m_uuids m) (m_allocated m))
  end.

(** [buildGrammar(templatizedGrammar)] *)
Definition buildGrammar (text : string) (m : Manager) : option exn * Manager :=
  let m := mkManager (grammar m) (grammarAst m) (templatizedGrammar m)
                     (templateAst m) false (m_uuids m) (m_allocated m) in
  match roundtripMarkdown text with
  | inl e => (Some e, m)
  | inr text =>
      let m := allocate m in
      match feedTemplateGrammar text with
      | inl e => (Some e, m)
      | inr results =>
          if negb (Nat.eqb (List.length results) 1) then
            (Some (Error "Ambiguous parse!"), m)
          else
            match nth_error results 0 with
            | None => (Some (TypeError "Cannot read properties of undefined (reading 'data')"), m)
            | Some ast =>
                let o := buildGrammarRules uuid_v4 getClassDeclaration addGrammars
                           buildFormatRules ast getTemplateModel "rule"
                           (mkState (mkParts [] [] ["base"])
                                    (m_ergoExpression m) (m_uuids m)) in
                let m := mkManager (grammar m) (grammarAst m) (templatizedGrammar m)
                                   (Some (o_ast o))
                                   (ergoExpression (o_state o))
                                   (uuids (o_state o)) (m_allocated m) in
                match o_thrown o with
                | Some e => (Some e, m)
                | None =>
                    match visitModelManager with
                    | inl e => (Some e, m)
                    | inr rules =>
                        let p := parts (o_state o) in
                        let p := mkParts (textRules p) (modelRules p ++ rules)
                                         (grammars p) in
                        match render p with
                        | inl e => (Some e, m)
                        | inr combined =>
                            let '(thrown, m) := setGrammar combined m in
                            match thrown with
                            | Some e => (Some e, m)
                            | None =>
                                (None,
                                 mkManager (grammar m) (grammarAst m) (Some text)
                                           (templateAst m) (m_ergoExpression m)
                                           (m_uuids m) (m_allocated m))
                            end
                        end
                    end
                end
            end
      end
  end.

(** The calls a client can make on a manager, and what one call returns. *)
Inductive Call :=
| CallSetGrammar (text : string)
| CallBuildGrammar (text : string)
| CallGetParser
| CallGetTemplateAst
| CallGetGrammar
| CallGetTemplatizedGrammar.

Inductive Return :=
| Threw (e : exn)
| Done
| GotParser (p : Parser)
| GotAst (a : option ast)
| GotText (t : option string).

Definition perform (c : Call) (m : Manager) : Return * Manager :=
  match c with
  | CallSetGrammar text =>
      match setGrammar text m with
      | (Some e, m') => (Threw e, m')
      | (None, m') => (Done, m')
      end
  | CallBuildGrammar text =>
      match buildGrammar text m with
      | (Some e, m') => (Threw e, m')
      | (None, m') => (Done, m')
      end
  | CallGetParser =>
      match getParser m with
      | (inl e, m') => (Threw e, m')
      | (inr p, m') => (GotParser p, m')
      end
  | CallGetTemplateAst =>
      match getTemplateAst m with
      | inl e => (Threw e, m)
      | inr a => (GotAst a, m)
      end
  | CallGetGrammar => (GotText (grammar m), m)
  | CallGetTemplatizedGrammar => (GotText (templatizedGrammar m), m)
  end.

(** A history of calls with what each returned, oldest first. *)
Fixpoint performAll (calls : list Call) (m : Manager) : list (Call * Return) * Manager :=
  match calls with
  | [] => ([], m)
  | c :: rest =>
      let '(r, m') := perform c m in
      let '(history, m'') := performAll rest m' in
      ((c, r) :: history, m'')
  end.

(** Whether a call of the history is a [setGrammar] or [buildGrammar]
    that returned normally. *)
Definition builtBy (entry : Call * Return) : bool :=
  match entry with
  | (CallSetGrammar _, Done) | (CallBuildGrammar _, Done) => true
  | _ => false
  end.

(** The parsers a history handed out. *)
Fixpoint parsersOf (history : list (Call * Return)) : list Parser :=
  match history with
  | [] => []
  | (_, GotParser p) :: rest => p :: parsersOf rest
  | _ :: rest => parsersOf rest
  end.

End Manager.

End ParserManager.

(** ** The nearley engine, as far as the generated rules rely on it *)

Module Nearley.

Import JS.

(** The character an escape sequence of a string literal stands for. *)
Definition unescape (c : ascii) : option ascii :=
  if Ascii.eqb c dquote then Some dquote
  else if Ascii.eqb c backslash then Some backslash
  else if Ascii.eqb c "/" then Some "/"%char
  else if Ascii.eqb c "b" then Some (ascii_of_nat 8)
  else if Ascii.eqb c "f" then Some (ascii_of_nat 12)
  else if Ascii.eqb c "n" then Some newline
  else if Ascii.eqb c "r" then Some (ascii_of_nat 13)
  else if Ascii.eqb c "t" then Some (ascii_of_nat 9)
  else None.

(** Reading the inside of a string literal of a grammar source up to its
    closing quote, which must end the text: an escape gives its character,
    a control character cannot stand unescaped, any other character stands
    for itself.  (Sequences of the form backslash-u are not read.) *)
Fixpoint readBody (s : string) : option string :=
  match s with
  | "" => None
  | String c rest =>
      if Ascii.eqb c dquote then
        match rest with
        | "" => Some ""
        | _ => None
        end
      else if Ascii.eqb c backslash then
        match rest with
        | "" => None
        | String e rest' =>
            match unescape e, readBody rest' with
            | Some a, Some text => Some (String a text)
            | _, _ => None
            end
        end
      else if Nat.ltb (nat_of_ascii c) 32 then None
      else
        match readBody rest with
        | Some text => Some (String c text)
        | None => None
        end
  end.

(** Reading a quoted literal back into the text it denotes. *)
Definition readLiteral (s : string) : option string :=
  match s with
  | String c rest => if Ascii.eqb c dquote then readBody rest else None
  | "" => None
  end.

(** What the engine passes to the action of a rule [literal:?], where
    [literal] is the quoted literal as the grammar source has it: the text
    the literal denotes when it was present in the input, [null] when it
    was not.  A text that is no string literal makes no such rule. *)
Definition optionalLiteral (literal : string) (present : bool) : option (list value) :=
  match readLiteral literal with
  | Some text => Some [if present then VStr text else VNull]
  | None => None
  end.

(** What it passes to the action of a rule [(literalIf|literalElse)],
    both given as the grammar source has them, when the first or the
    second alternative matched: the values of the group, in an array. *)
Definition choice (literalIf literalElse : string) (first : bool)
  : option (list value) :=
  match readLiteral literalIf, readLiteral literalElse with
  | Some textIf, Some textElse =>
      Some [VArr [VStr (if first then textIf else textElse)]]
  | _, _ => None
  end.

(** What it passes to the action of a rule [first rest:*]: the value of
    the first symbol, then the array of the values of the repetition. *)
Definition firstThenMany (first : value) (rest : list value) : list value :=
  [first; VArr rest].

End Nearley.

(** ** [TemplateInstance]: data, drafting and identity *)

Module TemplateInstance.

Import JS Exn.

(** The [options] object of [draft]. *)
Record Options := mkOptions {
  format : prim;
  unquoteVariables : prim
}.

Section Instance.

(** A plain data object, a validated Concerto resource, a parsed
    CiceroMark document, a Slate document, the parser manager of the
    template. *)
Variable Data : Type.
Variable Resource : Type.
Variable CiceroMark : Type.
Variable Slate : Type.
Variable ParserManager : Type.

(** What [draft] and [formatCiceroMark] return: a string (markdown or
    HTML), the CiceroMark document itself, or a Slate document. *)
Inductive Output :=
| Text (s : string)
| Document (d : CiceroMark)
| SlateDocument (d : Slate).

(** The template of the instance: its identifier, the fully qualified
    name of its model, the template type of its metadata, its serializer
    and its parser manager. *)
Variable templateIdentifier : string.
Variable templateModelName : string.
Variable templateType : Z.
Variable parserManager : ParserManager.
Variable fromJSON : Data -> exn + Resource.
Variable validate : Resource -> option exn.

(** [data.$class], [JSON.stringify(data)] and the hexadecimal digest of
    [crypto.createHash('sha256')]. *)
Variable classOf : Data -> prim.
Variable stringify : Data -> string.
Variable sha256Hex : string -> string.

(** The markdown transformers. *)
Variable fromMarkdownCicero : string -> exn + CiceroMark.
Variable dataFromCiceroMark :
  option string -> CiceroMark -> ParserManager -> string -> exn + Data.
Variable draftCiceroMark : option Data -> ParserManager -> string -> exn + CiceroMark.
Variable unquote : CiceroMark -> exn + CiceroMark.
Variable toCiceroMarkUnwrapped : CiceroMark -> exn + CiceroMark.
Variable toMarkdownCicero : CiceroMark -> exn + string.
Variable toHtml : CiceroMark -> exn + string.
Variable slateFromCiceroMark : CiceroMark -> exn + Slate.

(** The fields [data] and [concertoData] of an instance. *)
Record Instance := mkInstance {
  data : option Data;
  concertoData : option Resource
}.

(** [constructor(template)] *)
Definition newInstance : Instance := mkInstance None None.

(** [setData(data)] *)
Definition setData (d : Data) (i : Instance) : option exn * Instance :=
  if negb (isStr templateModelName (classOf d)) then
    (Some (Error ("Invalid data, must be a valid instance of the template model "
                  +:+ templateModelName +:+ " but got: " +:+ stringify d +:+ " ")),
     i)
  else
    match fromJSON d with
    | inl e => (Some e, i)
    | inr resource =>
        match validate resource with
        | Some e => (Some e, i)
        | None => (None, mkInstance (Some d) (Some resource))
        end
    end.

(** [getData()] *)
Definition getData (i : Instance) : option Data := data i.

Definition templateKind : string :=
  if negb (Z.eqb templateType 0) then "clause" else "contract".

(** [parse(input, currentTime, fileName)] *)
Definition parse (input : string) (fileName : option string) (i : Instance)
  : option exn * Instance :=
  match fromMarkdownCicero input with
  | inl e => (Some e, i)
  | inr inputCiceroMark =>
      match dataFromCiceroMark fileName inputCiceroMark parserManager templateKind with
      | inl e => (Some e, i)
      | inr d => setData d i
      end
  end.

(** [options && options.unquoteVariables] *)
Definition wantsUnquote (options : option Options) : bool :=
  match options with
  | Some o => truthy (unquoteVariables o)
  | None => false
  end.

Definition unquoteIf (options : option Options) (ciceroMarkParsed : CiceroMark)
  : exn + CiceroMark :=
  if wantsUnquote options then unquote ciceroMarkParsed else inr ciceroMarkParsed.

(** [formatCiceroMark(ciceroMarkParsed, options)] *)
Definition formatCiceroMark (ciceroMarkParsed : CiceroMark) (options : option Options)
  : exn + Output :=
  let format := match options with Some o => format o | None => PNull end in
  if negb (truthy format) then
    match unquoteIf options ciceroMarkParsed with
    | inl e => inl e
    | inr ciceroMarkParsed =>
        match toCiceroMarkUnwrapped ciceroMarkParsed with
        | inl e => inl e
        | inr ciceroMark =>
            match toMarkdownCicero ciceroMark with
            | inl e => inl e
            | inr text => inr (Text text)
            end
        end
    end
  else if isStr "ciceromark_parsed" format then
    inr (Document ciceroMarkParsed)
  else if isStr "html" format then
    match unquoteIf options ciceroMarkParsed with
    | inl e => inl e
    | inr ciceroMarkParsed =>
        match toHtml ciceroMarkParsed with
        | inl e => inl e
        | inr text => inr (Text text)
        end
    end
  else if isStr "slate" format then
    match unquoteIf options ciceroMarkParsed with
    | inl e => inl e
    | inr ciceroMarkParsed =>
        match slateFromCiceroMark ciceroMarkParsed with
        | inl e => inl e
        | inr d => inr (SlateDocument d)
        end
    end
  else
    inl (Error ("Unsupported format: " +:+ toString format)).

(** [draft(options, currentTime)]; a rejected promise is an exception. *)
Definition draft (options : option Options) (i : Instance) : exn + Output :=
  match concertoData i with
  | None =>
      inl (Error "Data has not been set. Call setData or parse before calling this method.")
  | Some _ =>
      match draftCiceroMark (getData i) parserManager templateKind with
      | inl e => inl e
      | inr ciceroMark => formatCiceroMark ciceroMark options
      end
  end.

(** [getIdentifier()] *)
Definition getIdentifier (i : Instance) : string :=
  let hash :=
    match data i with
    | Some textToHash => "-" +:+ sha256Hex (stringify textToHash)
    | None => ""
    end in
  templateIdentifier +:+ hash.

(** A history of [setData] calls. *)
Fixpoint setAll (ds : list Data) (i : Instance) : list (option exn) * Instance :=
  match ds with
  | [] => ([], i)
  | d :: rest =>
      let '(r, i') := setData d i in
      let '(rs, i'') := setAll rest i' in
      (r :: rs, i'')
  end.

End Instance.

End TemplateInstance.

(** ** [Script]: an executable script of a template *)

Module Script.

Import JS Exn.

Section Script.

(** The model manager of the script, and the function declarations and
    tokens the class has fields for. *)
Variable ModelManager : Type.
Variable FunctionDeclaration : Type.
Variable Token : Type.

(** The fields of a [Script]; [contractName] is null when it is not
    known. *)
Record Script := mkScript {
  modelManager : ModelManager;
  identifier : string;
  contractName : option string;
  language : string;
  contents : prim;
  functions : list FunctionDeclaration;
  tokens : list Token
}.

(** [constructor(modelManager, identifier, language, contents,
    contractName)]: the fields are assigned, then falsy contents are
    refused. *)
Definition newScript (modelManager : ModelManager) (identifier language : string)
    (contents : prim) (contractName : option string) : exn + Script :=
  let this :=
    mkScript modelManager identifier contractName language contents [] [] in
  if negb (truthy contents) then inl (Error "Empty script contents")
  else inr this.

Definition getIdentifier (s : Script) : string := identifier s.

Definition getContractName (s : Script) : option string := contractName s.

Definition getLanguage (s : Script) : string := language s.

Definition getContents (s : Script) : prim := contents s.

Definition getFunctionDeclarations (s : Script) : list FunctionDeclaration :=
  functions s.

Definition getTokens (s : Script) : list Token := tokens s.

End Script.

End Script.

(** * Notions used in the statements *)

Module Notions.

Import JS Concerto Tdl Exn ParserManager Nearley.

(** A character the escaping of [cleanChunk] accounts for: anything but a
    backslash and the control characters other than the line feed. *)
Definition plain (c : ascii) : bool :=
  negb (Ascii.eqb c backslash)
  && (Ascii.eqb c newline || negb (Nat.ltb (nat_of_ascii c) 32)).

Fixpoint allPlain (s : string) : bool :=
  match s with
  | "" => true
  | String c rest => plain c && allPlain rest
  end.

(** The two replacements of [cleanChunk], fused into one pass. *)
Fixpoint escaped (s : string) : string :=
  match s with
  | "" => ""
  | String c rest =>
      if Ascii.eqb c newline then String backslash (String "n" (escaped rest))
      else if Ascii.eqb c dquote then String backslash (String dquote (escaped rest))
      else String c (escaped rest)
  end.


(** The node is a binding whose field name is [propertyName]. *)
Definition bindsTo (propertyName : string) (e : element) : bool :=
  isBinding e &&
  match fieldNameOf e with
  | Some f => String.eqb (tvalue f) propertyName
  | None => false
  end.

(** [e] is the node at index [i] of [data], it binds [propertyName], and
    no node before it does. *)
Definition FirstBindingAt (propertyName : string) (data : ast) (i : nat)
    (e : element) : Prop :=
  nth_error data i = Some (Some e)
  /\ bindsTo propertyName e = true
  /\ forall j e', j < i -> nth_error data j = Some (Some e') ->
                  bindsTo propertyName e' = false.

(** No node of [data] binds [propertyName]. *)
Definition Unbound (propertyName : string) (data : ast) : Prop :=
  forall e, In (Some e) data -> bindsTo propertyName e = false.

(** The type of [buildGrammarRules]. *)
Definition Build := ast -> ClassDeclaration -> string -> State -> Outcome.

(** [b] leaves the nesting of every template as it found it. *)
Definition KeepsDepth (b : Build) : Prop :=
  forall a m p s, depthAst (o_ast (b a m p s)) = depthAst a.

(** [b1] and [b2] return the same on every template of depth at most [d]. *)
Definition Agree (d : nat) (b1 b2 : Build) : Prop :=
  forall a m p s, depthAst a <= d -> b1 a m p s = b2 a m p s.

(** The mutated template and the exception of [b] are the same whatever
    the prefix and the state it is called with. *)
Definition Pure (b : Build) : Prop :=
  forall a m p p' s s',
    o_ast (b a m p s) = o_ast (b a m p' s')
    /\ o_thrown (b a m p s) = o_thrown (b a m p' s').

(** [s'] has the rules of [s], followed by more. *)
Definition Grows (s s' : State) : Prop :=
  (exists more, textRules (parts s') = textRules (parts s) ++ more)
  /\ (exists more, modelRules (parts s') = modelRules (parts s) ++ more).

(** [b] only appends rules. *)
Definition Appends (b : Build) : Prop :=
  forall a m p s, Grows s (o_state (b a m p s)).

(** The entry of [textRules.properties] for the property at position [k]
    of the model, bound to the node at index [i]. *)
Definition propertyEntry (prefix : string) (count : nat)
    (b : nat * Property * nat) : string :=
  let '(k, property, i) := b in
  getName property +:+ " : " +:+ prefix +:+ showNat i
  +:+ (if Nat.ltb k (count - 1) then "," else "").

(** The properties that have a binding, each with its position in the
    model and the index of the node [findFirstBinding] returns for it. *)
Fixpoint boundFrom (index : nat) (data : ast) (properties : list Property)
  : list (nat * Property * nat) :=
  match properties with
  | [] => []
  | property :: rest =>
      let bindingIndex := findFirstBinding (getName property) data in
      if Z.eqb bindingIndex (-1) then boundFrom (S index) data rest
      else (index, property, Z.to_nat bindingIndex) :: boundFrom (S index) data rest
  end.

(** The node [b] occurs in the template [data] of model [model], at the
    top or inside nested templates, and [enclosing] is the model of the
    level it occurs at.  The compiler descends into the template of a
    clause, with or list binding whose property is declared, is no
    [DateTime], and has a class as its type. *)
Inductive Occurs (getClassDeclaration : string -> exn + ClassDeclaration)
  : ClassDeclaration -> ast -> element -> ClassDeclaration -> Prop :=
| OccursHere (model : ClassDeclaration) (data : ast) (b : element) :
    In (Some b) data ->
    Occurs getClassDeclaration model data b model
| OccursNested (model : ClassDeclaration) (data : ast) (e : element)
    (f : token) (property : Property) (nested : ClassDeclaration)
    (template : ast) (b : element) (enclosing : ClassDeclaration) :
    In (Some e) data ->
    templateOf e = Some template ->
    fieldNameOf e = Some f ->
    Concerto.getProperty model (tvalue f) = Some property ->
    getType property <> "DateTime" ->
    getClassDeclaration (getFullyQualifiedTypeName property) = inr nested ->
    Occurs getClassDeclaration nested template b enclosing ->
    Occurs getClassDeclaration model data b enclosing.

(** The node [b] is the first node the compilation of the template
    [data] of model [model] does not get past, and [enclosing] is the
    model of the level it stands at: the nodes before it at its level
    compile, and so do the nodes before every block the compiler has
    entered to reach it; such a block is the template of a clause, with or
    list binding whose property is declared, is no [DateTime] and has a
    class as its type, and the block of a list starts as
    [adjustListBlock] wants it.  [Compiles] says that a run of nodes
    compiles for a model. *)
Inductive FirstToFail (getClassDeclaration : string -> exn + ClassDeclaration)
    (Compiles : ast -> ClassDeclaration -> Prop)
  : ClassDeclaration -> ast -> element -> ClassDeclaration -> Prop :=
| FirstHere (model : ClassDeclaration) (pre post : ast) (b : element) :
    Compiles pre model ->
    FirstToFail getClassDeclaration Compiles model (pre ++ Some b :: post) b model
| FirstNested (model : ClassDeclaration) (pre post : ast) (e : element)
    (f : token) (property : Property) (nested : ClassDeclaration)
    (template : ast) (b : element) (enclosing : ClassDeclaration) :
    Compiles pre model ->
    templateOf e = Some template ->
    fieldNameOf e = Some f ->
    Concerto.getProperty model (tvalue f) = Some property ->
    getType property <> "DateTime" ->
    getClassDeclaration (getFullyQualifiedTypeName property) = inr nested ->
    (isListBinding e = true ->
     exists first, firstNestedTemplate e template = inr first) ->
    FirstToFail getClassDeclaration Compiles nested template b enclosing ->
    FirstToFail getClassDeclaration Compiles model (pre ++ Some e :: post) b enclosing.

(** The exception for a binding to a property the model does not
    declare. *)
Definition undeclaredProperty (enclosing : ClassDeclaration) (fieldName : token) : exn :=
  TemplateException
    ("Template references a property '" +:+ tvalue fieldName
     +:+ "' that is not declared in the template model '"
     +:+ getFullyQualifiedName enclosing +:+ "'")
    (mkFileLocation (line fieldName) (col fieldName)
                    (line fieldName) (col fieldName + 1))
    "text/grammar.tem.md" "cicero-core".

(** The exception for a conditional on a property that is no Boolean. *)
Definition notBoolean (fieldName : token) (property : Property) : exn :=
  TemplateException
    ("An if block can only be used with a boolean property. Property "
     +:+ tvalue fieldName +:+ " has type " +:+ getType property)
    (mkFileLocation (line fieldName) (col fieldName)
                    (line fieldName) (col fieldName + 1))
    "text/grammar.tem.md" "cicero-core".

(** The manager holds the compiled form of the grammar text it holds. *)
Definition Built {Compiled : Type} (compileGrammar : string -> exn + Compiled)
    (m : Manager Compiled) : Prop :=
  exists text g,
    grammar Compiled m = Some text
    /\ grammarAst Compiled m = Some g
    /\ compileGrammar text = inr g.

(** What the calls made so far guarantee: no grammar before the first
    successful [setGrammar] or [buildGrammar], the compiled form of the
    current grammar text after it, and parsers of distinct identities, all
    allocated before the next object. *)
Definition Sound {Compiled : Type} (compileGrammar : string -> exn + Compiled)
    (built : bool) (issued : list (Parser Compiled)) (m : Manager Compiled) : Prop :=
  (built = false -> grammarAst Compiled m = None)
  /\ (built = true -> Built compileGrammar m)
  /\ (forall p, In p issued -> p_identity Compiled p < m_allocated Compiled m)
  /\ NoDup (map (p_identity Compiled) issued).

(** Sequencing of two steps that can throw. *)
Definition andThen {A B : Type} (step : exn + A) (next : A -> exn + B) : exn + B :=
  match step with
  | inl e => inl e
  | inr a => next a
  end.

End Notions.

(** ** What the further statements observe of the code *)

Module Observed.

Import JS Concerto Tdl Exn ParserManager.

(** How often a character occurs in a text. *)
Fixpoint occurrences (c : ascii) (s : string) : nat :=
  match s with
  | "" => 0
  | String a rest => (if Ascii.eqb a c then 1 else 0) + occurrences c rest
  end.

(** Every double quote of the text stands right after a backslash;
    [previous] is the character before the text. *)
Fixpoint quotesFollowBackslash (previous : ascii) (s : string) : bool :=
  match s with
  | "" => true
  | String c rest =>
      (negb (Ascii.eqb c dquote) || Ascii.eqb previous backslash)
      && quotesFollowBackslash c rest
  end.

(** The indices of the nodes of [data] that get a rule, counted from
    [index]. *)
Fixpoint keptFrom (index : nat) (data : ast) : list nat :=
  match data with
  | [] => []
  | element :: rest =>
      if hasRule element then index :: keptFrom (S index) rest
      else keptFrom (S index) rest
  end.

(** How many model rules have the prefix [name]. *)
Definition countRules (name : string) (rules : list ModelRule) : nat :=
  List.length (filter (fun rule => String.eqb (mr_prefix rule) name) rules).

(** Whether the template has an [Expr] node, at any depth. *)
Fixpoint usesExpr (e : element) : bool :=
  let usesExprAst :=
    fix usesExprAst (l : list (option element)) : bool :=
      match l with
      | [] => false
      | None :: l' => usesExprAst l'
      | Some x :: l' => usesExpr x || usesExprAst l'
      end in
  match e with
  | Expr _ => true
  | ClauseBinding _ t | WithBinding _ t | UListBinding _ t
  | OListBinding _ t | JoinBinding _ _ t => usesExprAst t
  | _ => false
  end.

Fixpoint usesExprAst (l : ast) : bool :=
  match l with
  | [] => false
  | None :: l' => usesExprAst l'
  | Some x :: l' => usesExpr x || usesExprAst l'
  end.


(** The exceptions a compilation can end with: a located
    [TemplateException] of cicero-core, the error of a list block without
    text, the type error of an unrecognised node that has no field name,
    and what the introspector or a format parser throws. *)
Inductive Raised (getClassDeclaration : string -> exn + ClassDeclaration)
    (buildFormatRules : FormatParser -> string -> exn + list FormatRule)
  : exn -> Prop :=
| RaisedTemplateException (message : string) (location : FileLocation) :
    startLine location = endLine location ->
    startColumn location < endColumn location ->
    Raised getClassDeclaration buildFormatRules
      (TemplateException message location "text/grammar.tem.md" "cicero-core")
| RaisedListBlock :
    Raised getClassDeclaration buildFormatRules
      (Error "List block in template should contain text")
| RaisedNoFieldName :
    Raised getClassDeclaration buildFormatRules
      (TypeError "Cannot read properties of undefined (reading 'col')")
| RaisedByIntrospector (name : string) (e : exn) :
    getClassDeclaration name = inl e ->
    Raised getClassDeclaration buildFormatRules e
| RaisedByFormatParser (parser : FormatParser) (format : string) (e : exn) :
    buildFormatRules parser format = inl e ->
    Raised getClassDeclaration buildFormatRules e.

(** The twelve tags the [switch] of [buildGrammarRules] has a case for. *)
Definition knownTypes : list string :=
  ["Chunk"; "LastChunk"; "IfBinding"; "IfElseBinding"; "FormattedBinding";
   "Binding"; "ClauseBinding"; "WithBinding"; "UListBinding"; "OListBinding";
   "JoinBinding"; "Expr"].

(** The seven tags whose case is a call of [handleBinding]. *)
Definition isHandled (e : element) : bool :=
  match e with
  | FormattedBinding _ _ | Binding _ _ | ClauseBinding _ _ | WithBinding _ _
  | UListBinding _ _ | OListBinding _ _ | JoinBinding _ _ _ => true
  | _ => false
  end.

(** A node that needs nothing but the model of its level to compile:
    text, an expression, a variable on a declared property that is no
    [DateTime], a conditional on a declared Boolean property. *)
Definition compilesAlone (m : ClassDeclaration) (e : element) : bool :=
  match e with
  | Chunk _ | LastChunk _ | Expr _ => true
  | Binding f _ =>
      match Concerto.getProperty m (tvalue f) with
      | Some p => negb (String.eqb (getType p) "DateTime")
      | None => false
      end
  | IfBinding f _ | IfElseBinding f _ _ =>
      match Concerto.getProperty m (tvalue f) with
      | Some p => String.eqb (getType p) "Boolean"
      | None => false
      end
  | _ => false
  end.

(** A template of such nodes, without nested templates. *)
Definition flat (m : ClassDeclaration) (data : ast) : bool :=
  forallb (fun x => match x with
                    | Some e => compilesAlone m e
                    | None => true
                    end) data.

(** The counters and the flag of [s'] are those of [s], or later ones. *)
Definition Advances (s s' : State) : Prop :=
  uuids s <= uuids s'
  /\ (ergoExpression s = true -> ergoExpression s' = true).

(** The node [e'] is the node [e] up to the text inside its template. *)
Definition sameNode (e e' : element) : Prop :=
  typeOf e' = typeOf e
  /\ fieldNameOf e' = fieldNameOf e
  /\ (templateOf e = None -> e' = e).

(** The entry [y] of a template array is the entry [x] up to the text
    inside its template. *)
Definition sameEntry (x y : option element) : Prop :=
  match x, y with
  | None, None => True
  | Some e, Some e' => sameNode e e'
  | _, _ => False
  end.

End Observed.

(** ** The calls that set the data of an instance *)

Module InstanceCalls.

Import JS Exn.

Section Calls.

Variable Data : Type.
Variable Resource : Type.
Variable CiceroMark : Type.
Variable ParserManager : Type.
Variable templateIdentifier : string.
Variable templateModelName : string.
Variable templateType : Z.
Variable parserManager : ParserManager.
Variable fromJSON : Data -> exn + Resource.
Variable validate : Resource -> option exn.
Variable classOf : Data -> prim.
Variable stringify : Data -> string.
Variable fromMarkdownCicero : string -> exn + CiceroMark.
Variable dataFromCiceroMark :
  option string -> CiceroMark -> ParserManager -> string -> exn + Data.

(** The two methods that assign the fields of an instance. *)
Inductive Call :=
| CallSetData (data : Data)
| CallParse (input : string) (fileName : option string).

Definition perform (c : Call) (i : TemplateInstance.Instance Data Resource)
  : option exn * TemplateInstance.Instance Data Resource :=
  match c with
  | CallSetData d =>
      TemplateInstance.setData Data Resource templateModelName fromJSON validate
        classOf stringify d i
  | CallParse input fileName =>
      TemplateInstance.parse Data Resource CiceroMark ParserManager
        templateModelName templateType parserManager fromJSON validate classOf
        stringify fromMarkdownCicero dataFromCiceroMark input fileName i
  end.

(** The instance after a history of calls, oldest first. *)
Fixpoint performAll (calls : list Call) (i : TemplateInstance.Instance Data Resource)
  : TemplateInstance.Instance Data Resource :=
  match calls with
  | [] => i
  | c :: rest => performAll rest (snd (perform c i))
  end.

(** [toJSON()]: the object with the keys [template] and [data]. *)
Definition toJSON (i : TemplateInstance.Instance Data Resource)
  : string * option Data :=
  (templateIdentifier, TemplateInstance.getData Data Resource i).

End Calls.

End InstanceCalls.

(** * A template and a model to run the compiler on *)

Module Examples.

Import JS Concerto Tdl Exn ParserManager.

(** A uuid generator, an introspector that knows one class, and format
    parsers that contribute no rule. *)
Definition uuid_v4 (n : nat) : string := "uuid-" +:+ showNat n.

Definition item : ClassDeclaration :=
  mkClassDeclaration "org.acme.Item" None
    [mkProperty "name" "String" "String" false false false;
     mkProperty "quantity" "Integer" "Integer" false false false].

Definition getClassDeclaration (name : string) : exn + ClassDeclaration :=
  if String.eqb name "org.acme.Item" then inr item
  else inl (External "concerto-core" name).

Definition addGrammars (parser : FormatParser) (grammars : list string) : list string :=
  grammars.

Definition buildFormatRules (parser : FormatParser) (format : string)
  : exn + list FormatRule :=
  inr [].

(** The model of an order: an identifier no text binds, a Boolean, a
    string, a list of items and a list of dates. *)
Definition order : ClassDeclaration :=
  mkClassDeclaration "org.acme.Order" (Some "orderId")
    [mkProperty "orderId" "String" "String" false false false;
     mkProperty "express" "Boolean" "Boolean" false false false;
     mkProperty "buyer" "String" "String" false false false;
     mkProperty "items" "Item" "org.acme.Item" true false false;
     mkProperty "shipped" "DateTime" "DateTime" true false false].

Definition at_ (text : string) (line col : nat) : token := mkToken text line col.

(** The state [buildGrammar] starts a compilation from. *)
Definition start : State := mkState (mkParts [] [] ["base"]) false 0.

Definition buildGrammarRules : ast -> ClassDeclaration -> string -> State -> Outcome :=
  ParserManager.buildGrammarRules uuid_v4 getClassDeclaration addGrammars
    buildFormatRules.

Definition compileNode
  : ClassDeclaration -> string -> element -> State -> NodeOutcome :=
  ParserManager.compileNode getClassDeclaration addGrammars buildFormatRules
    buildGrammarRules.

(** A bulleted list of the items of the order. *)
Definition itemList : element :=
  UListBinding (at_ "items" 2 10)
    [Some (Chunk "item "); Some (Binding (at_ "name" 2 22) None)].

(** Stand-ins for the engine: a compiled grammar is the text of its
    module; the template text [""] has no parse, the text ["ambiguous"]
    has two, any other text has one, a single chunk. *)
Definition feedNearley (sourceCode : string) : exn + list string := inr [sourceCode].

Definition compile (grammarAst : option string) : exn + string :=
  match grammarAst with
  | Some a => inr a
  | None => inl (TypeError "Cannot read properties of undefined")
  end.

Definition generate (info : string) : string := info.

Definition evalModule (js : string) : exn + string := inr js.

Definition roundtripMarkdown (text : string) : exn + string := inr text.

Definition feedTemplateGrammar (text : string) : exn + list ast :=
  if String.eqb text "" then inr []
  else if String.eqb text "ambiguous"
       then inr [[Some (Chunk "ambiguous")]; [Some (LastChunk "ambiguous")]]
       else inr [[Some (Chunk text)]].

Definition render (parts : Parts) : exn + string := inr "main -> rule".

Definition buildGrammar : string -> Manager string -> option exn * Manager string :=
  ParserManager.buildGrammar string string string feedNearley compile generate
    evalModule roundtripMarkdown feedTemplateGrammar order (inr []) render
    uuid_v4 getClassDeclaration addGrammars buildFormatRules.

(** A manager on which a grammar was set before. *)
Definition built : Manager string :=
  mkManager string (Some "main -> rule") (Some "main -> rule") None None false 0 1.

(** Stand-ins for the markdown transformers: a document is a text. *)
Record Clause := mkClause {
  class : string;
  amount : Z
}.

Definition classOf (d : Clause) : prim := PStr (class d).

Definition fromJSON (d : Clause) : exn + Clause := inr d.

Definition validate (resource : Clause) : option exn :=
  if Z.ltb (amount resource) 0
  then Some (External "concerto-core" "amount is negative")
  else None.

Definition stringify (d : Clause) : string :=
  "{" +:+ quoted "$class" +:+ ":" +:+ quoted (class d) +:+ ","
  +:+ quoted "amount" +:+ ":" +:+ showZ (amount d) +:+ "}".

Definition draftCiceroMark (d : option Clause) (manager : unit) (kind : string)
  : exn + string :=
  match d with
  | Some c => inr ("Pay " +:+ showZ (amount c))
  | None => inl (TypeError "Cannot read properties of null")
  end.

Definition transform (d : string) : exn + string := inr d.

Definition toHtml (d : string) : exn + string := inr ("<p>" +:+ d +:+ "</p>").

Definition draft : option TemplateInstance.Options
                   -> TemplateInstance.Instance Clause Clause
                   -> exn + TemplateInstance.Output string string :=
  TemplateInstance.draft Clause Clause string string unit 1 tt draftCiceroMark
    transform transform transform toHtml transform.

(** An instance whose data was set. *)
Definition payment : TemplateInstance.Instance Clause Clause :=
  TemplateInstance.mkInstance Clause Clause
    (Some (mkClause "org.acme.Payment" 42)) (Some (mkClause "org.acme.Payment" 42)).

End Examples.

(** * Properties *)

(** ** Escaping of static text *)

Module CleanChunkFacts.

Import JS ParserManager Nearley Notions.


Lemma replaceAll_dquote_escaped (s : string) :
  replaceAll dquote (String backslash (String dquote ""))
    (replaceAll newline (String backslash "n") s) = escaped s.
Proof.
  induction s as [|c s IH]; simpl; [reflexivity|].
  destruct (Ascii.eqb c newline) eqn:En.
  - simpl. now rewrite IH.
  - simpl. destruct (Ascii.eqb c dquote) eqn:Eq; simpl; now rewrite IH.
Qed.

Lemma cleanChunk_escaped (s : string) : cleanChunk s = quoted (escaped s).
Proof.
  unfold cleanChunk. now rewrite replaceAll_dquote_escaped.
Qed.

Lemma readBody_escaped (s : string) :
  allPlain s = true ->
  readBody (escaped s +:+ String dquote "") = Some s.
Proof.
  induction s as [|c s IH]; simpl; [reflexivity|].
  intros H. apply andb_true_iff in H as [Hc Hs].
  specialize (IH Hs). unfold plain in Hc.
  apply andb_true_iff in Hc as [Hb Hctl].
  apply negb_true_iff in Hb.
  destruct (Ascii.eqb c newline) eqn:En.
  - apply Ascii.eqb_eq in En. subst c. simpl.
    now rewrite IH.
  - simpl in Hctl. apply negb_true_iff in Hctl.
    destruct (Ascii.eqb c dquote) eqn:Eq.
    + apply Ascii.eqb_eq in Eq. subst c. simpl. now rewrite IH.
    + simpl. rewrite Eq, Hb, Hctl, IH. reflexivity.
Qed.

(** Text free of backslashes and of control characters other than the
    line feed is read back from its literal unchanged. *)
Lemma readLiteral_cleanChunk (s : string) :
  allPlain s = true -> readLiteral (cleanChunk s) = Some s.
Proof.
  intros H. rewrite cleanChunk_escaped. unfold quoted, readLiteral.
  rewrite Ascii.eqb_refl. now apply readBody_escaped.
Qed.



(** C8. [cleanChunk] escapes line feeds and double quotes, and leaves a
    backslash of the text as it stands: the two-character text backslash-n
    and the one-character text line feed are written as the same literal,
    which reads back as the line feed, and a text that ends in a backslash
    is written as a literal that does not end.  So a chunk with a
    backslash is not read back from the generated grammar. *)
Theorem cleanChunk_backslash_not_escaped :
  cleanChunk (String backslash "n") = cleanChunk (String newline "")
  /\ String backslash "n" <> String newline ""
  /\ readLiteral (cleanChunk (String backslash "n")) = Some (String newline "")
  /\ cleanChunk (String backslash "") = String dquote (String backslash (String dquote ""))
  /\ readLiteral (cleanChunk (String backslash "")) = None.
Proof.
  repeat split; try reflexivity. discriminate.
Qed.

End CleanChunkFacts.

(** ** The first binding of a property *)

Module BindingFacts.

Import JS Concerto Tdl Exn ParserManager Notions.

Lemma findFirstBindingFrom_step (n : Z) (name : string) (x : option element)
    (rest : ast) :
  findFirstBindingFrom n name (x :: rest) =
  if match x with Some e => bindsTo name e | None => false end
  then n else findFirstBindingFrom (n + 1) name rest.
Proof.
  destruct x as [e|]; simpl; [|reflexivity].
  unfold bindsTo. destruct (isBinding e); simpl; [|reflexivity].
  destruct (fieldNameOf e) as [f|]; [|reflexivity].
  destruct (String.eqb (tvalue f) name); reflexivity.
Qed.

Lemma findFirstBindingFrom_spec (name : string) (data : ast) :
  forall n : Z,
    (findFirstBindingFrom n name data = (-1)%Z /\ Unbound name data)
    \/ exists i e, findFirstBindingFrom n name data = (n + Z.of_nat i)%Z
                   /\ FirstBindingAt name data i e.
Proof.
  induction data as [|x rest IH]; intros n.
  - left. split; [reflexivity|]. intros e [].
  - rewrite findFirstBindingFrom_step.
    destruct x as [e|].
    + destruct (bindsTo name e) eqn:B.
      * right. exists 0, e. split; [f_equal; lia|].
        split; [reflexivity|]. split; [exact B|]. intros j e' Hj. lia.
      * destruct (IH (n + 1)%Z) as [[H U]|(i & e' & H & F1 & F2 & F3)].
        -- left. split; [exact H|]. intros e' [E|I].
           ++ inversion E. subst. exact B.
           ++ now apply U.
        -- right. exists (S i), e'. split; [rewrite H; lia|].
           split; [exact F1|]. split; [exact F2|].
           intros [|j] e'' Hj Hn; simpl in Hn.
           ++ inversion Hn. subst. exact B.
           ++ apply (F3 j); [lia|exact Hn].
    + destruct (IH (n + 1)%Z) as [[H U]|(i & e' & H & F1 & F2 & F3)].
      * left. split; [exact H|]. intros e' [E|I]; [discriminate|now apply U].
      * right. exists (S i), e'. split; [rewrite H; lia|].
        split; [exact F1|]. split; [exact F2|].
        intros [|j] e'' Hj Hn; simpl in Hn; [discriminate|].
        apply (F3 j); [lia|exact Hn].
Qed.

Lemma FirstBindingAt_unique (name : string) (data : ast) (i i' : nat)
    (e e' : element) :
  FirstBindingAt name data i e -> FirstBindingAt name data i' e' ->
  i = i' /\ e = e'.
Proof.
  intros (N1 & B1 & L1) (N2 & B2 & L2).
  assert (i = i').
  { destruct (Nat.lt_trichotomy i i') as [H|[H|H]]; [|exact H|].
    - rewrite (L2 i e H N1) in B1. discriminate.
    - rewrite (L1 i' e' H N2) in B2. discriminate. }
  subst i'. split; [reflexivity|]. congruence.
Qed.

Lemma FirstBindingAt_not_Unbound (name : string) (data : ast) (i : nat)
    (e : element) :
  FirstBindingAt name data i e -> Unbound name data -> False.
Proof.
  intros (N & B & _) U. apply nth_error_In in N.
  rewrite (U e N) in B. discriminate.
Qed.

(** [findFirstBinding] returns the index of the first binding of the
    property, and -1 exactly when the property has none. *)
Lemma findFirstBinding_first (name : string) (data : ast) (i : nat) (e : element) :
  FirstBindingAt name data i e -> findFirstBinding name data = Z.of_nat i.
Proof.
  intros F. unfold findFirstBinding.
  destruct (findFirstBindingFrom_spec name data 0) as [[_ U]|(i' & e' & H & F')].
  - destruct (FirstBindingAt_not_Unbound _ _ _ _ F U).
  - destruct (FirstBindingAt_unique _ _ _ _ _ _ F F') as [-> _]. rewrite H. lia.
Qed.

Lemma findFirstBinding_none (name : string) (data : ast) :
  Unbound name data <-> findFirstBinding name data = (-1)%Z.
Proof.
  unfold findFirstBinding.
  destruct (findFirstBindingFrom_spec name data 0) as [[H U]|(i & e & H & F)].
  - tauto.
  - split.
    + intros U. destruct (FirstBindingAt_not_Unbound _ _ _ _ F U).
    + rewrite H. lia.
Qed.

Lemma findFirstBinding_cases (name : string) (data : ast) :
  (findFirstBinding name data = (-1)%Z /\ Unbound name data)
  \/ exists i e, findFirstBinding name data = Z.of_nat i
                 /\ FirstBindingAt name data i e.
Proof.
  unfold findFirstBinding.
  destruct (findFirstBindingFrom_spec name data 0) as [H|(i & e & H & F)].
  - now left.
  - right. exists i, e. split; [rewrite H; lia|exact F].
Qed.

End BindingFacts.

(** ** The recursive compiler *)

Module CompilerFacts.

Import JS Concerto Tdl Exn ParserManager Notions.

Lemma adjustListBlock_depth (x : ast) (sep : string) (y : ast) :
  adjustListBlock x sep = inr y -> depthAst y = depthAst x.
Proof.
  unfold adjustListBlock. destruct x as [|[[]|] rest]; try discriminate.
  intros H; inversion H; reflexivity.
Qed.

Lemma firstNestedTemplate_depth (e : element) (x y : ast) :
  firstNestedTemplate e x = inr y -> depthAst y = depthAst x.
Proof.
  unfold firstNestedTemplate. destruct (typeOf e =? "JoinBinding").
  - intros H; inversion H; reflexivity.
  - apply adjustListBlock_depth.
Qed.

Lemma restNestedTemplate_depth (e : element) (x y : ast) :
  restNestedTemplate e x = inr y -> depthAst y = depthAst x.
Proof.
  unfold restNestedTemplate. destruct (typeOf e =? "JoinBinding");
    apply adjustListBlock_depth.
Qed.

Lemma templateOf_depth (e : element) (t : ast) :
  templateOf e = Some t -> depth e = S (depthAst t).
Proof. destruct e; simpl; intros H; inversion H; reflexivity. Qed.

Lemma withTemplate_depth (e : element) (t t' : ast) :
  templateOf e = Some t -> depth (withTemplate e t') = S (depthAst t').
Proof. destruct e; simpl; intros H; inversion H; reflexivity. Qed.

Lemma depthAst_cons (e : element) (rest : ast) :
  depthAst (Some e :: rest) = Nat.max (depth e) (depthAst rest).
Proof. reflexivity. Qed.

Section Externals.

Variable uuid_v4 : nat -> string.
Variable getClassDeclaration : string -> exn + ClassDeclaration.
Variable addGrammars : FormatParser -> list string -> list string.
Variable buildFormatRules : FormatParser -> string -> exn + list FormatRule.

#[local] Abbreviation handleFormatted :=
  (ParserManager.handleFormatted addGrammars buildFormatRules).
#[local] Abbreviation handleNested :=
  (ParserManager.handleNested getClassDeclaration).
#[local] Abbreviation handleList :=
  (ParserManager.handleList getClassDeclaration).
#[local] Abbreviation handleBinding :=
  (ParserManager.handleBinding getClassDeclaration addGrammars buildFormatRules).
#[local] Abbreviation compileNode :=
  (ParserManager.compileNode getClassDeclaration addGrammars buildFormatRules).
#[local] Abbreviation buildGrammarRulesWithin :=
  (ParserManager.buildGrammarRulesWithin uuid_v4 getClassDeclaration addGrammars
     buildFormatRules).
#[local] Abbreviation buildGrammarRules :=
  (ParserManager.buildGrammarRules uuid_v4 getClassDeclaration addGrammars
     buildFormatRules).

(** *** The compiler changes the text of chunks, never the nesting *)

Lemma handleFormatted_element r e p n s :
  n_element (handleFormatted r e p n s) = e.
Proof.
  unfold ParserManager.handleFormatted.
  destruct (chooseFormat e p) as [x|[fp f]]; [reflexivity|].
  destruct (buildFormatRules fp f); [reflexivity|].
  destruct (pushFormatRules _ _ _ _ _). reflexivity.
Qed.

Lemma handleNested_depth b r e f p n s :
  KeepsDepth b ->
  depth (n_element (handleNested b r e f p n s)) = depth e.
Proof.
  intros K. unfold ParserManager.handleNested.
  destruct (templateOf e) as [t|] eqn:T; [|reflexivity].
  pose proof (templateOf_depth _ _ T) as Dt.
  destruct (getClassDeclaration _); [reflexivity|].
  assert (depth (withTemplate e (o_ast (b t c n s))) = depth e) as W.
  { rewrite (withTemplate_depth _ _ _ T), K, Dt. reflexivity. }
  destruct (o_thrown _); exact W.
Qed.

Lemma handleList_depth b r e f p n s :
  KeepsDepth b ->
  depth (n_element (handleList b r e f p n s)) = depth e.
Proof.
  intros K. unfold ParserManager.handleList.
  destruct (templateOf e) as [t|] eqn:T; [|reflexivity].
  pose proof (templateOf_depth _ _ T) as Dt.
  destruct (getClassDeclaration _); [reflexivity|].
  destruct (firstNestedTemplate e t) as [|first] eqn:F; [reflexivity|].
  apply firstNestedTemplate_depth in F.
  assert (depth (withTemplate e (o_ast (b first c (n +:+ "First") s))) = depth e) as W1.
  { rewrite (withTemplate_depth _ _ _ T), K, F, Dt. reflexivity. }
  destruct (o_thrown _); [exact W1|].
  destruct (restNestedTemplate e _) as [|rest] eqn:R; [exact W1|].
  apply restNestedTemplate_depth in R. rewrite K in R.
  assert (depth (withTemplate e (o_ast (b rest c n (o_state (b first c (n +:+ "First") s)))))
          = depth e) as W2.
  { rewrite (withTemplate_depth _ _ _ T), K, R, F, Dt. reflexivity. }
  destruct (o_thrown _); exact W2.
Qed.

Lemma handleBinding_depth b m r e s :
  KeepsDepth b ->
  depth (n_element (handleBinding b m r e s)) = depth e.
Proof.
  intros K. unfold ParserManager.handleBinding.
  destruct (fieldNameOf e); [|reflexivity].
  destruct (getProperty m e); [reflexivity|].
  destruct (_ || _).
  - now rewrite handleFormatted_element.
  - destruct (_ || _); [now apply handleNested_depth|].
    destruct (isListBinding e); [now apply handleList_depth|].
    reflexivity.
Qed.

Lemma compileNode_depth b m r e s :
  KeepsDepth b ->
  depth (n_element (compileNode b m r e s)) = depth e.
Proof.
  intros K.
  destruct e; cbn [ParserManager.compileNode];
    try (now apply handleBinding_depth);
    try reflexivity.
  - destruct (getProperty m _); [reflexivity|]. destruct (negb _); reflexivity.
  - destruct (getProperty m _); [reflexivity|]. destruct (negb _); reflexivity.
Qed.

Lemma compileRules_depth node prefix :
  (forall r e s, depth (n_element (node r e s)) = depth e) ->
  forall data i s,
    depthAst (o_ast (compileRules node i prefix data s)) = depthAst data.
Proof.
  intros N. induction data as [|[e|] rest IH]; intros i s; cbn [compileRules].
  - reflexivity.
  - destruct (hasRule (Some e)).
    + destruct (n_thrown _) eqn:T; cbn [o_ast]; rewrite !depthAst_cons.
      * rewrite N. reflexivity.
      * rewrite N, IH. reflexivity.
    + cbn [o_ast]. rewrite !depthAst_cons, IH. reflexivity.
  - cbn [o_ast]. change (depthAst (None :: ?x)) with (depthAst x).
    apply IH.
Qed.

Lemma buildGrammarRulesWithin_depth n : KeepsDepth (buildGrammarRulesWithin n).
Proof.
  induction n as [|n IH]; intros a m p s; [reflexivity|].
  cbn [ParserManager.buildGrammarRulesWithin].
  apply compileRules_depth. intros r e s'. now apply compileNode_depth.
Qed.

Lemma buildGrammarRules_depth : KeepsDepth buildGrammarRules.
Proof. intros a m p s. apply buildGrammarRulesWithin_depth. Qed.

(** *** The budget of nested calls is never the limit *)

Lemma handleNested_agree b1 b2 r e f p n s d :
  depth e <= S d -> Agree d b1 b2 ->
  handleNested b1 r e f p n s = handleNested b2 r e f p n s.
Proof.
  intros De A. unfold ParserManager.handleNested.
  destruct (templateOf e) as [t|] eqn:T; [|reflexivity].
  rewrite (templateOf_depth _ _ T) in De.
  destruct (getClassDeclaration _); [reflexivity|].
  rewrite (A t) by lia. reflexivity.
Qed.

Lemma handleList_agree b1 b2 r e f p n s d :
  depth e <= S d -> Agree d b1 b2 -> KeepsDepth b2 ->
  handleList b1 r e f p n s = handleList b2 r e f p n s.
Proof.
  intros De A K. unfold ParserManager.handleList.
  destruct (templateOf e) as [t|] eqn:T; [|reflexivity].
  rewrite (templateOf_depth _ _ T) in De.
  destruct (getClassDeclaration _); [reflexivity|].
  destruct (firstNestedTemplate e t) as [|first] eqn:F; [reflexivity|].
  apply firstNestedTemplate_depth in F.
  rewrite (A first) by lia.
  destruct (o_thrown _); [reflexivity|].
  destruct (restNestedTemplate e _) as [|rest] eqn:R; [reflexivity|].
  apply restNestedTemplate_depth in R. rewrite K in R.
  rewrite (A rest) by lia. reflexivity.
Qed.

Lemma handleBinding_agree b1 b2 m r e s d :
  depth e <= S d -> Agree d b1 b2 -> KeepsDepth b2 ->
  handleBinding b1 m r e s = handleBinding b2 m r e s.
Proof.
  intros De A K. unfold ParserManager.handleBinding.
  destruct (fieldNameOf e); [|reflexivity].
  destruct (getProperty m e); [reflexivity|].
  destruct (_ || _); [reflexivity|].
  destruct (_ || _); [now apply handleNested_agree with (d := d)|].
  destruct (isListBinding e); [now apply handleList_agree with (d := d)|].
  reflexivity.
Qed.

Lemma compileNode_agree b1 b2 m r e s d :
  depth e <= S d -> Agree d b1 b2 -> KeepsDepth b2 ->
  compileNode b1 m r e s = compileNode b2 m r e s.
Proof.
  intros De A K.
  destruct e; cbn [ParserManager.compileNode]; try reflexivity;
    now apply handleBinding_agree with (d := d).
Qed.

Lemma compileRules_agree node1 node2 prefix d :
  (forall r e s, depth e <= d -> node1 r e s = node2 r e s) ->
  forall data i s, depthAst data <= d ->
    compileRules node1 i prefix data s = compileRules node2 i prefix data s.
Proof.
  intros N. induction data as [|[e|] rest IH]; intros i s D; cbn [compileRules].
  - reflexivity.
  - rewrite depthAst_cons in D. rewrite N by lia.
    destruct (hasRule (Some e)).
    + destruct (n_thrown _); [reflexivity|]. rewrite IH by lia. reflexivity.
    + rewrite IH by lia. reflexivity.
  - change (depthAst (None :: rest)) with (depthAst rest) in D.
    rewrite IH by lia. reflexivity.
Qed.

Lemma depth_zero_no_build b1 b2 m r e s :
  depth e = 0 -> compileNode b1 m r e s = compileNode b2 m r e s.
Proof.
  intros D. destruct e; try discriminate; cbn [ParserManager.compileNode];
    try reflexivity.
  all: unfold ParserManager.handleBinding; cbn [fieldNameOf typeOf isListBinding];
    destruct (getProperty m _); try reflexivity.
  all: cbn [String.eqb Ascii.eqb Bool.eqb orb]; destruct (_ || _); reflexivity.
Qed.

(** With a budget above the depth of the template, one more nested call
    changes nothing. *)
Lemma buildGrammarRulesWithin_enough n :
  forall a m p s, depthAst a < n ->
    buildGrammarRulesWithin (S n) a m p s = buildGrammarRulesWithin n a m p s.
Proof.
  induction n as [|n IH]; intros a m p s D; [lia|].
  cbn [ParserManager.buildGrammarRulesWithin].
  apply compileRules_agree with (d := depthAst a); [|lia].
  intros r e s' De.
  destruct (depth e) as [|d] eqn:E.
  - now apply depth_zero_no_build.
  - apply compileNode_agree with (d := d); [lia| |apply buildGrammarRulesWithin_depth].
    intros a' m' p' s'' Da'. apply IH. lia.
Qed.

Lemma buildGrammarRulesWithin_budget n :
  forall a m p s, depthAst a < n ->
    buildGrammarRulesWithin n a m p s = buildGrammarRules a m p s.
Proof.
  intros a m p s D. unfold ParserManager.buildGrammarRules.
  induction n as [|n IH]; [lia|].
  destruct (Nat.eq_dec (depthAst a) n) as [->|Ne]; [reflexivity|].
  rewrite buildGrammarRulesWithin_enough by lia. apply IH. lia.
Qed.

(** [buildGrammarRules] satisfies the recursive equation of the source:
    it pushes the container rule of the level, then compiles the nodes in
    order, calling itself for every nested template. *)
Theorem buildGrammarRules_unfold a m p s :
  buildGrammarRules a m p s =
  compileRules (compileNode buildGrammarRules m) 0 p a
               (enterLevel uuid_v4 a m p s).
Proof.
  unfold ParserManager.buildGrammarRules at 1.
  cbn [ParserManager.buildGrammarRulesWithin].
  apply compileRules_agree with (d := depthAst a); [|lia].
  intros r e s' De.
  destruct (depth e) as [|d] eqn:E.
  - now apply depth_zero_no_build.
  - apply compileNode_agree with (d := d); [lia| |apply buildGrammarRules_depth].
    intros a' m' p' s'' Da'. apply buildGrammarRulesWithin_budget. lia.
Qed.

(** *** What is thrown does not depend on the accumulator *)

Lemma handleFormatted_pure r r' e p n s s' :
  n_element (handleFormatted r e p n s) = n_element (handleFormatted r' e p n s')
  /\ n_thrown (handleFormatted r e p n s) = n_thrown (handleFormatted r' e p n s').
Proof.
  rewrite !handleFormatted_element. split; [reflexivity|].
  unfold ParserManager.handleFormatted.
  destruct (chooseFormat e p) as [x|[fp f]]; [reflexivity|].
  destruct (buildFormatRules fp f); [reflexivity|].
  do 2 destruct (pushFormatRules _ _ _ _ _). reflexivity.
Qed.

Lemma handleNested_pure b r r' e f p n s s' :
  Pure b ->
  n_element (handleNested b r e f p n s) = n_element (handleNested b r' e f p n s')
  /\ n_thrown (handleNested b r e f p n s) = n_thrown (handleNested b r' e f p n s').
Proof.
  intros P. unfold ParserManager.handleNested.
  destruct (templateOf e) as [t|]; [|split; reflexivity].
  destruct (getClassDeclaration _); [split; reflexivity|].
  destruct (P t c n n s s') as [A T]. rewrite A, T.
  destruct (o_thrown (b t c n s')); split; reflexivity.
Qed.

Lemma handleList_pure b r r' e f p n s s' :
  Pure b ->
  n_element (handleList b r e f p n s) = n_element (handleList b r' e f p n s')
  /\ n_thrown (handleList b r e f p n s) = n_thrown (handleList b r' e f p n s').
Proof.
  intros P. unfold ParserManager.handleList.
  destruct (templateOf e) as [t|]; [|split; reflexivity].
  destruct (getClassDeclaration _); [split; reflexivity|].
  destruct (firstNestedTemplate e t) as [|first]; [split; reflexivity|].
  destruct (P first c (n +:+ "First") (n +:+ "First") s s') as [A T]. rewrite A, T.
  destruct (o_thrown (b first c (n +:+ "First") s')); [split; reflexivity|].
  destruct (restNestedTemplate e _) as [|rest]; [split; reflexivity|].
  destruct (P rest c n n (o_state (b first c (n +:+ "First") s))
              (o_state (b first c (n +:+ "First") s'))) as [A' T'].
  rewrite A', T'.
  destruct (o_thrown (b rest c n (o_state (b first c (n +:+ "First") s'))));
    split; reflexivity.
Qed.

Lemma handleBinding_pure b m r r' e s s' :
  Pure b ->
  n_element (handleBinding b m r e s) = n_element (handleBinding b m r' e s')
  /\ n_thrown (handleBinding b m r e s) = n_thrown (handleBinding b m r' e s').
Proof.
  intros P. unfold ParserManager.handleBinding.
  destruct (fieldNameOf e); [|split; reflexivity].
  destruct (getProperty m e); [split; reflexivity|].
  destruct (_ || _); [apply handleFormatted_pure|].
  destruct (_ || _); [now apply handleNested_pure|].
  destruct (isListBinding e); [now apply handleList_pure|].
  split; reflexivity.
Qed.

Lemma compileNode_pure b m r r' e s s' :
  Pure b ->
  n_element (compileNode b m r e s) = n_element (compileNode b m r' e s')
  /\ n_thrown (compileNode b m r e s) = n_thrown (compileNode b m r' e s').
Proof.
  intros P.
  destruct e; cbn [ParserManager.compileNode];
    try (now apply handleBinding_pure); try (split; reflexivity).
  - destruct (getProperty m _); [split; reflexivity|].
    destruct (negb _); split; reflexivity.
  - destruct (getProperty m _); [split; reflexivity|].
    destruct (negb _); split; reflexivity.
Qed.

Lemma compileRules_pure node :
  (forall r r' e s s',
      n_element (node r e s) = n_element (node r' e s')
      /\ n_thrown (node r e s) = n_thrown (node r' e s')) ->
  forall data i i' p p' s s',
    o_ast (compileRules node i p data s) = o_ast (compileRules node i' p' data s')
    /\ o_thrown (compileRules node i p data s)
       = o_thrown (compileRules node i' p' data s').
Proof.
  intros N. induction data as [|[e|] rest IH]; intros i i' p p' s s';
    cbn [compileRules].
  - split; reflexivity.
  - destruct (hasRule (Some e)).
    + destruct (N (p +:+ showNat i) (p' +:+ showNat i') e s s') as [A T].
      rewrite A, T. destruct (n_thrown (node (p' +:+ showNat i') e s')); [split; reflexivity|].
      cbn [o_ast o_thrown].
      destruct (IH (S i) (S i') p p' (n_state (node (p +:+ showNat i) e s))
                   (n_state (node (p' +:+ showNat i') e s'))) as [A' T'].
      rewrite A', T'. split; reflexivity.
    + cbn [o_ast o_thrown].
      destruct (IH (S i) (S i') p p' s s') as [A' T'].
      rewrite A', T'. split; reflexivity.
  - cbn [o_ast o_thrown].
    destruct (IH (S i) (S i') p p' s s') as [A' T'].
    rewrite A', T'. split; reflexivity.
Qed.

Lemma buildGrammarRulesWithin_pure n : Pure (buildGrammarRulesWithin n).
Proof.
  induction n as [|n IH]; intros a m p p' s s'; [split; reflexivity|].
  cbn [ParserManager.buildGrammarRulesWithin].
  apply compileRules_pure. intros r r' e s1 s2. now apply compileNode_pure.
Qed.

(** Whether a template compiles, and how it is mutated, is decided by the
    template and the model alone. *)
Lemma buildGrammarRules_pure : Pure buildGrammarRules.
Proof. intros a m p p' s s'. apply buildGrammarRulesWithin_pure. Qed.

(** *** The loop over the nodes, piece by piece *)

Lemma compileRules_app node prefix :
  forall pre post i s,
    compileRules node i prefix (pre ++ post) s =
    let o := compileRules node i prefix pre s in
    match o_thrown o with
    | Some e => mkOutcome (o_ast o ++ post) (o_state o) (Some e)
    | None =>
        let o' := compileRules node (i + List.length pre) prefix post (o_state o) in
        mkOutcome (o_ast o ++ o_ast o') (o_state o') (o_thrown o')
    end.
Proof.
  induction pre as [|[e|] pre IH]; intros post i s; cbn [app compileRules List.length].
  - cbn. rewrite Nat.add_0_r. now destruct (compileRules node i prefix post s).
  - destruct (hasRule (Some e)).
    + destruct (n_thrown _) eqn:T; cbn [o_thrown o_ast o_state].
      * reflexivity.
      * rewrite IH. cbn zeta. replace (S i + List.length pre) with (i + S (List.length pre)) by lia.
        destruct (o_thrown (compileRules node (S i) prefix pre _)); reflexivity.
    + rewrite IH. cbn zeta. cbn [o_thrown o_ast o_state].
      replace (S i + List.length pre) with (i + S (List.length pre)) by lia.
      destruct (o_thrown (compileRules node (S i) prefix pre _)); reflexivity.
  - rewrite IH. cbn zeta. cbn [o_thrown o_ast o_state].
    replace (S i + List.length pre) with (i + S (List.length pre)) by lia.
    destruct (o_thrown (compileRules node (S i) prefix pre _)); reflexivity.
Qed.

(** *** Rules are only ever appended *)

Lemma Grows_refl s : Grows s s.
Proof. split; exists []; now rewrite app_nil_r. Qed.

Lemma Grows_trans s1 s2 s3 : Grows s1 s2 -> Grows s2 s3 -> Grows s1 s3.
Proof.
  intros [[t1 T1] [m1 M1]] [[t2 T2] [m2 M2]]. split.
  - exists (t1 ++ t2). now rewrite T2, T1, app_assoc.
  - exists (m1 ++ m2). now rewrite M2, M1, app_assoc.
Qed.

Lemma Grows_pushModelRule r s : Grows s (pushModelRule r s).
Proof. split; [exists []; now rewrite app_nil_r|exists [r]; reflexivity]. Qed.

Lemma Grows_pushTextRules t s : Grows s (pushTextRules t s).
Proof. split; [exists [t]; reflexivity|exists []; now rewrite app_nil_r]. Qed.

Lemma Grows_setGrammars g s : Grows s (setGrammars g s).
Proof. split; exists []; now rewrite app_nil_r. Qed.

Lemma Grows_setErgoExpression b s : Grows s (setErgoExpression b s).
Proof. split; exists []; now rewrite app_nil_r. Qed.

Lemma Grows_takeUuid s : Grows s (takeUuid s).
Proof. split; exists []; now rewrite app_nil_r. Qed.

Lemma Grows_enterLevel a m p s : Grows s (enterLevel uuid_v4 a m p s).
Proof.
  unfold enterLevel. destruct (getIdentifierFieldName m).
  - eapply Grows_trans; [apply Grows_pushTextRules|apply Grows_takeUuid].
  - apply Grows_pushTextRules.
Qed.

Lemma Grows_pushFormatRules n f rules :
  forall t s, Grows s (snd (pushFormatRules n f rules t s)).
Proof.
  induction rules as [|r rules IH]; intros t s; cbn [pushFormatRules].
  - apply Grows_refl.
  - cbv zeta. destruct (existsb _ _).
    + apply IH.
    + eapply Grows_trans; [apply Grows_pushModelRule|apply IH].
Qed.

Lemma Grows_finishBinding r e p n mutated ft t a s :
  Grows s (n_state (finishBinding r e p n mutated ft t a s)).
Proof. apply Grows_pushModelRule. Qed.

Lemma Grows_handleFormatted r e p n s :
  Grows s (n_state (handleFormatted r e p n s)).
Proof.
  unfold ParserManager.handleFormatted.
  destruct (chooseFormat e p) as [x|[fp f]]; [apply Grows_refl|].
  destruct (buildFormatRules fp f); [apply Grows_setGrammars|].
  destruct (pushFormatRules _ _ _ _ _) as [t s2] eqn:E.
  eapply Grows_trans; [apply Grows_setGrammars|].
  eapply Grows_trans; [|apply Grows_finishBinding].
  change s2 with (snd (t, s2)). rewrite <- E. apply Grows_pushFormatRules.
Qed.

Lemma Grows_handleNested b r e f p n s :
  Appends b -> Grows s (n_state (handleNested b r e f p n s)).
Proof.
  intros A. unfold ParserManager.handleNested.
  destruct (templateOf e) as [t|]; [|apply Grows_refl].
  destruct (getClassDeclaration _); [apply Grows_refl|].
  destruct (o_thrown _); [apply A|].
  eapply Grows_trans; [apply A|apply Grows_finishBinding].
Qed.

Lemma Grows_handleList b r e f p n s :
  Appends b -> Grows s (n_state (handleList b r e f p n s)).
Proof.
  intros A. unfold ParserManager.handleList.
  destruct (templateOf e) as [t|]; [|apply Grows_refl].
  destruct (getClassDeclaration _); [apply Grows_refl|].
  destruct (firstNestedTemplate e t) as [|first]; [apply Grows_refl|].
  destruct (o_thrown _); [apply A|].
  destruct (restNestedTemplate e _) as [|rest]; [apply A|].
  destruct (o_thrown _).
  - eapply Grows_trans; apply A.
  - eapply Grows_trans; [apply A|].
    eapply Grows_trans; [apply A|apply Grows_finishBinding].
Qed.

Lemma Grows_handleBinding b m r e s :
  Appends b -> Grows s (n_state (handleBinding b m r e s)).
Proof.
  intros A. unfold ParserManager.handleBinding.
  destruct (fieldNameOf e); [|apply Grows_refl].
  destruct (getProperty m e); [apply Grows_refl|].
  destruct (_ || _); [apply Grows_handleFormatted|].
  destruct (_ || _); [now apply Grows_handleNested|].
  destruct (isListBinding e); [now apply Grows_handleList|].
  apply Grows_finishBinding.
Qed.

Lemma Grows_compileNode b m r e s :
  Appends b -> Grows s (n_state (compileNode b m r e s)).
Proof.
  intros A.
  destruct e; cbn [ParserManager.compileNode];
    try (now apply Grows_handleBinding);
    try apply Grows_pushModelRule; try apply Grows_refl.
  - destruct (getProperty m _); [apply Grows_refl|].
    destruct (negb _); [apply Grows_refl|apply Grows_pushModelRule].
  - destruct (getProperty m _); [apply Grows_refl|].
    destruct (negb _); [apply Grows_refl|apply Grows_pushModelRule].
  - eapply Grows_trans; [apply Grows_setErgoExpression|apply Grows_pushModelRule].
Qed.

Lemma Grows_compileRules node prefix :
  (forall r e s, Grows s (n_state (node r e s))) ->
  forall data i s, Grows s (o_state (compileRules node i prefix data s)).
Proof.
  intros N. induction data as [|[e|] rest IH]; intros i s; cbn [compileRules].
  - apply Grows_refl.
  - destruct (hasRule (Some e)); [|apply IH].
    destruct (n_thrown _); [apply N|].
    eapply Grows_trans; [apply N|apply IH].
  - apply IH.
Qed.

Lemma Appends_buildGrammarRulesWithin n : Appends (buildGrammarRulesWithin n).
Proof.
  induction n as [|n IH]; intros a m p s; [apply Grows_refl|].
  cbn [ParserManager.buildGrammarRulesWithin].
  eapply Grows_trans; [apply Grows_enterLevel|].
  apply Grows_compileRules. intros r e s'. now apply Grows_compileNode.
Qed.

Lemma Appends_buildGrammarRules : Appends buildGrammarRules.
Proof. intros a m p s. apply Appends_buildGrammarRulesWithin. Qed.

(** The container rule of a level is the first rule its compilation
    appends to [parts.textRules]. *)
Lemma buildGrammarRules_container a m p s :
  exists more,
    textRules (parts (o_state (buildGrammarRules a m p s)))
    = textRules (parts s) ++ containerRule uuid_v4 a m p s :: more.
Proof.
  rewrite buildGrammarRules_unfold.
  destruct (Grows_compileRules (compileNode buildGrammarRules m) p
              (fun r e s' => Grows_compileNode _ m r e s' Appends_buildGrammarRules)
              a 0 (enterLevel uuid_v4 a m p s)) as [[more T] _].
  exists more. rewrite T. unfold enterLevel.
  destruct (getIdentifierFieldName m); cbn; now rewrite <- app_assoc.
Qed.

(** *** The compiler is total *)

Lemma depth_In (e : element) (data : ast) :
  In (Some e) data -> depth e <= depthAst data.
Proof.
  induction data as [|[x|] rest IH]; intros H; [destruct H| |].
  - rewrite depthAst_cons. destruct H as [E|H].
    + inversion E. lia.
    + specialize (IH H). lia.
  - destruct H as [E|H]; [discriminate|]. exact (IH H).
Qed.

Lemma _throwTemplateExceptionForElement_not_Exhausted msg e :
  _throwTemplateExceptionForElement msg e <> Exhausted.
Proof.
  unfold _throwTemplateExceptionForElement.
  destruct (fieldNameOf e); discriminate.
Qed.

Lemma getProperty_not_Exhausted m e : getProperty m e <> inl Exhausted.
Proof.
  unfold getProperty. destruct (fieldNameOf e); [|discriminate].
  destruct (Concerto.getProperty _ _); [discriminate|].
  intros H. inversion H as [H'].
  now apply _throwTemplateExceptionForElement_not_Exhausted in H'.
Qed.

Lemma adjustListBlock_not_Exhausted x sep : adjustListBlock x sep <> inl Exhausted.
Proof.
  unfold adjustListBlock. destruct x as [|[[]|] rest]; discriminate.
Qed.

Lemma chooseFormat_not_Exhausted e p : chooseFormat e p <> inl Exhausted.
Proof.
  unfold chooseFormat.
  destruct (getType p =? "DateTime"); [discriminate|].
  destruct (getType p =? "Double"); [destruct (formatOf e); discriminate|].
  destruct (getType p =? "MonetaryAmount"); [destruct (formatOf e); discriminate|].
  intros H. inversion H as [H'].
  now apply _throwTemplateExceptionForElement_not_Exhausted in H'.
Qed.

Section Total.

(** [Exhausted] is no exception of JavaScript: no package throws it. *)
Hypothesis getClassDeclaration_throws :
  forall name, getClassDeclaration name <> inl Exhausted.
Hypothesis buildFormatRules_throws :
  forall parser format, buildFormatRules parser format <> inl Exhausted.

Lemma compileNode_total b m r e s :
  KeepsDepth b ->
  (forall t, templateOf e = Some t ->
     forall a m' p s', depthAst a <= depthAst t ->
       o_thrown (b a m' p s') <> Some Exhausted) ->
  n_thrown (compileNode b m r e s) <> Some Exhausted.
Proof.
  intros K N.
  assert (n_thrown (handleBinding b m r e s) <> Some Exhausted) as HB.
  { unfold ParserManager.handleBinding.
    destruct (fieldNameOf e); [|discriminate].
    destruct (getProperty m e) eqn:G.
    { intros H. inversion H. subst. now apply getProperty_not_Exhausted in G. }
    destruct (_ || _).
    { unfold ParserManager.handleFormatted.
      destruct (chooseFormat e p) as [x|[fp f]] eqn:C.
      { intros H. inversion H. subst. now apply chooseFormat_not_Exhausted in C. }
      destruct (buildFormatRules fp f) eqn:B.
      { intros H. inversion H. subst. now apply buildFormatRules_throws in B. }
      destruct (pushFormatRules _ _ _ _ _). discriminate. }
    destruct (_ || _).
    { unfold ParserManager.handleNested.
      destruct (templateOf e) as [t0|] eqn:T; [|discriminate].
      destruct (getClassDeclaration _) eqn:C.
      { intros H. inversion H. subst. now apply getClassDeclaration_throws in C. }
      destruct (o_thrown _) eqn:O; [|discriminate].
      cbn. rewrite <- O. apply (N t0 eq_refl). lia. }
    destruct (isListBinding e); [|discriminate].
    unfold ParserManager.handleList.
    destruct (templateOf e) as [t0|] eqn:T; [|discriminate].
    destruct (getClassDeclaration _) eqn:C.
    { intros H. inversion H. subst. now apply getClassDeclaration_throws in C. }
    destruct (firstNestedTemplate e t0) as [|first] eqn:F.
    { intros H. inversion H. subst. revert F. unfold firstNestedTemplate.
      destruct (typeOf e =? "JoinBinding"); [discriminate|].
      apply adjustListBlock_not_Exhausted. }
    apply firstNestedTemplate_depth in F.
    destruct (o_thrown (b first c _ s)) eqn:O1.
    { cbn. rewrite <- O1. apply (N t0 eq_refl). lia. }
    destruct (restNestedTemplate e _) as [|rest] eqn:R.
    { intros H. inversion H. subst. revert R. unfold restNestedTemplate.
      destruct (typeOf e =? "JoinBinding"); apply adjustListBlock_not_Exhausted. }
    apply restNestedTemplate_depth in R. rewrite K in R.
    destruct (o_thrown (b rest c _ _)) eqn:O2; [|discriminate].
    cbn. rewrite <- O2. apply (N t0 eq_refl). lia. }
  destruct e; cbn [ParserManager.compileNode]; try exact HB; try discriminate.
  - destruct (getProperty m _) eqn:G.
    { intros H. inversion H. subst. now apply getProperty_not_Exhausted in G. }
    destruct (negb _); [|discriminate].
    intros H. inversion H.
  - destruct (getProperty m _) eqn:G.
    { intros H. inversion H. subst. now apply getProperty_not_Exhausted in G. }
    destruct (negb _); [|discriminate].
    intros H. inversion H.
  - intros H. inversion H as [H'].
    now apply _throwTemplateExceptionForElement_not_Exhausted in H'.
Qed.

Lemma compileRules_total node prefix :
  forall data,
    (forall e, In (Some e) data ->
       forall r s, n_thrown (node r e s) <> Some Exhausted) ->
    forall i s, o_thrown (compileRules node i prefix data s) <> Some Exhausted.
Proof.
  induction data as [|[e|] rest IH]; intros N i s; cbn [compileRules].
  - discriminate.
  - assert (forall e', In (Some e') rest ->
              forall r s', n_thrown (node r e' s') <> Some Exhausted) as N'.
    { intros e' I. apply N. now right. }
    destruct (hasRule (Some e)); [|apply (IH N')].
    destruct (n_thrown _) eqn:T.
    + cbn. rewrite <- T. apply N. now left.
    + apply (IH N').
  - apply IH. intros e' I. apply N. now right.
Qed.

(** The compilation of a template never runs out of nested calls: the
    budget [buildGrammarRules] starts from covers every template. *)
Theorem buildGrammarRules_total a m p s :
  o_thrown (buildGrammarRules a m p s) <> Some Exhausted.
Proof.
  remember (depthAst a) as d eqn:D.
  assert (depthAst a <= d) as Da by lia. clear D.
  revert a m p s Da.
  induction d as [d IH] using lt_wf_ind. intros a m p s Da.
  rewrite buildGrammarRules_unfold.
  apply compileRules_total. intros e I r s'.
  apply compileNode_total; [apply buildGrammarRules_depth|].
  intros t T a' m' p' s'' Da'.
  pose proof (depth_In _ _ I) as De. rewrite (templateOf_depth _ _ T) in De.
  apply (IH (depthAst t)); lia.
Qed.

End Total.

End Externals.
End CompilerFacts.

(** ** The container rule of a level *)

Module ContainerRuleFacts.

Import JS Concerto Tdl Exn ParserManager Notions BindingFacts CompilerFacts.

Lemma propertiesFrom_bound (count : nat) (prefix : string) (data : ast) :
  forall properties index,
    propertiesFrom index count prefix data properties
    = map (propertyEntry prefix count) (boundFrom index data properties).
Proof.
  induction properties as [|p rest IH]; intros index; [reflexivity|].
  cbn [propertiesFrom boundFrom]. cbv zeta.
  destruct (findFirstBinding_cases (getName p) data) as [[H _]|(i & e & H & _)].
  - rewrite H. cbn. apply IH.
  - rewrite H.
    destruct (Z.eqb_spec (Z.of_nat i) (-1)) as [E|_]; [lia|].
    cbn [map propertyEntry]. rewrite IH. unfold showNat.
    now rewrite Z2Nat.id by lia.
Qed.

Lemma boundFrom_spec (data : ast) :
  forall properties index k property i,
    In (k, property, i) (boundFrom index data properties)
    <-> exists j, k = index + j
                  /\ nth_error properties j = Some property
                  /\ exists e, FirstBindingAt (getName property) data i e.
Proof.
  induction properties as [|p rest IH]; intros index k property i.
  - split; [intros []|]. intros (j & _ & N & _). destruct j; discriminate.
  - cbn [boundFrom]. cbv zeta.
    assert (In (k, property, i) (boundFrom (S index) data rest)
            <-> exists j, k = index + S j
                          /\ nth_error rest j = Some property
                          /\ exists e, FirstBindingAt (getName property) data i e)
      as Rest.
    { rewrite IH. split; intros (j & K & R); exists j; (split; [lia|exact R]). }
    destruct (findFirstBinding_cases (getName p) data)
      as [[H U]|(i0 & e0 & H & F)]; rewrite H.
    + cbn. rewrite Rest. split.
      * intros (j & K & N & E). exists (S j).
        split; [exact K|]. split; [exact N|exact E].
      * intros ([|j] & K & N & e & F).
        -- inversion N. subst.
           destruct (FirstBindingAt_not_Unbound _ _ _ _ F U).
        -- exists j. split; [exact K|]. split; [exact N|]. now exists e.
    + destruct (Z.eqb_spec (Z.of_nat i0) (-1)) as [E|_]; [lia|].
      rewrite Nat2Z.id. split.
      * intros [E|I].
        -- inversion E. subst. exists 0. split; [lia|].
           split; [reflexivity|]. now exists e0.
        -- apply Rest in I. destruct I as (j & K & N & E).
           exists (S j). split; [exact K|]. split; [exact N|exact E].
      * intros ([|j] & K & N & e & F').
        -- inversion N. subst. left.
           destruct (FirstBindingAt_unique _ _ _ _ _ _ F F') as [-> _].
           f_equal. f_equal. lia.
        -- right. apply Rest. exists j.
           split; [exact K|]. split; [exact N|]. now exists e.
Qed.

Lemma symbolsFrom_In (prefix : string) :
  forall data index i x,
    nth_error data i = Some x -> hasRule x = true ->
    In (prefix +:+ showNat (index + i)) (symbolsFrom index prefix data).
Proof.
  induction data as [|y rest IH]; intros index i x N H.
  - destruct i; discriminate.
  - cbn [symbolsFrom]. destruct i as [|i].
    + inversion N. subst. rewrite H, Nat.add_0_r. now left.
    + cbn in N. specialize (IH (S index) i x N H).
      replace (index + S i) with (S index + i) by lia.
      destruct (hasRule y); [now right|exact IH].
Qed.

Lemma bindsTo_hasRule (name : string) (e : element) :
  bindsTo name e = true -> hasRule (Some e) = true.
Proof. destruct e; cbn; try reflexivity; discriminate. Qed.

Lemma getProperty_same_model (m m' : ClassDeclaration) (e : element) :
  getFullyQualifiedName m' = getFullyQualifiedName m ->
  (forall f, fieldNameOf e = Some f ->
             Concerto.getProperty m' (tvalue f) = Concerto.getProperty m (tvalue f)) ->
  getProperty m' e = getProperty m e.
Proof.
  intros Q G. unfold getProperty.
  destruct (fieldNameOf e) as [f|]; [|reflexivity].
  now rewrite (G f eq_refl), Q.
Qed.

Section Externals.

Variable uuid_v4 : nat -> string.
Variable getClassDeclaration : string -> exn + ClassDeclaration.
Variable addGrammars : FormatParser -> list string -> list string.
Variable buildFormatRules : FormatParser -> string -> exn + list FormatRule.

#[local] Abbreviation compileNode :=
  (ParserManager.compileNode getClassDeclaration addGrammars buildFormatRules).
#[local] Abbreviation buildGrammarRules :=
  (ParserManager.buildGrammarRules uuid_v4 getClassDeclaration addGrammars
     buildFormatRules).

Lemma compileNode_same_model b (m m' : ClassDeclaration) r e s :
  getProperty m' e = getProperty m e ->
  compileNode b m' r e s = compileNode b m r e s.
Proof.
  intros G.
  destruct e; cbn [ParserManager.compileNode]; try reflexivity;
    try (unfold ParserManager.handleBinding; now rewrite G);
    now rewrite G.
Qed.

Lemma compileRules_same node node' prefix :
  forall data,
    (forall e, In (Some e) data -> forall r s, node' r e s = node r e s) ->
    forall i s, compileRules node' i prefix data s = compileRules node i prefix data s.
Proof.
  induction data as [|[e|] rest IH]; intros N i s; cbn [compileRules].
  - reflexivity.
  - rewrite N by now left.
    assert (forall e', In (Some e') rest -> forall r s', node' r e' s' = node r e' s')
      as N' by (intros e' I; apply N; now right).
    destruct (hasRule (Some e)).
    + destruct (n_thrown _); [reflexivity|]. now rewrite IH.
    + now rewrite IH.
  - rewrite IH; [reflexivity|]. intros e' I. apply N. now right.
Qed.

(** Whether a level compiles depends on the model only through the
    properties its nodes name. *)
Lemma buildGrammarRules_same_model data (m m' : ClassDeclaration) prefix s :
  getFullyQualifiedName m' = getFullyQualifiedName m ->
  (forall e f, In (Some e) data -> fieldNameOf e = Some f ->
               Concerto.getProperty m' (tvalue f) = Concerto.getProperty m (tvalue f)) ->
  o_thrown (buildGrammarRules data m' prefix s)
  = o_thrown (buildGrammarRules data m prefix s).
Proof.
  intros Q G. rewrite !buildGrammarRules_unfold.
  rewrite (compileRules_same (compileNode buildGrammarRules m)
             (compileNode buildGrammarRules m')).
  - apply compileRules_pure. intros r r' e s1 s2.
    apply compileNode_pure, buildGrammarRules_pure.
  - intros e I r s'. apply compileNode_same_model.
    apply getProperty_same_model; [exact Q|]. intros f F. now apply (G e).
Qed.

(** C1. The container rule [buildGrammarRules] appends for a level has one
    entry per property of the model that some node of the level binds, in
    the order of the model; the entry names the rule of the first node of
    [ast.data] that is a binding of that property.  A property no node
    binds has no entry, and plays no part in whether the level compiles:
    the exception of the level, if any, is the same for every model of
    that name that declares the properties the nodes name alike. *)
Theorem container_rule_binds_first_binding
    (data : ast) (templateModel : ClassDeclaration) (prefix : string) (s : State) :
  let rule := containerRule uuid_v4 data templateModel prefix s in
  let count := List.length (getProperties templateModel) in
  (exists more,
      textRules (parts (o_state (buildGrammarRules data templateModel prefix s)))
      = textRules (parts s) ++ rule :: more)
  /\ (exists bound : list (nat * Property * nat),
         tr_properties rule = map (propertyEntry prefix count) bound
         /\ (forall k property i,
                In (k, property, i) bound
                <-> nth_error (getProperties templateModel) k = Some property
                    /\ exists e, FirstBindingAt (getName property) data i e)
         /\ (forall k property i,
                In (k, property, i) bound ->
                In (prefix +:+ showNat i) (tr_symbols rule))
         /\ (forall k property i,
                nth_error (getProperties templateModel) k = Some property ->
                Unbound (getName property) data ->
                ~ In (k, property, i) bound))
  /\ (forall model',
         getFullyQualifiedName model' = getFullyQualifiedName templateModel ->
         (forall e f, In (Some e) data -> fieldNameOf e = Some f ->
                      Concerto.getProperty model' (tvalue f)
                      = Concerto.getProperty templateModel (tvalue f)) ->
         o_thrown (buildGrammarRules data model' prefix s)
         = o_thrown (buildGrammarRules data templateModel prefix s)).
Proof.
  intros rule count. split; [apply buildGrammarRules_container|]. split.
  - exists (boundFrom 0 data (getProperties templateModel)).
    assert (forall k property i,
               In (k, property, i) (boundFrom 0 data (getProperties templateModel))
               <-> nth_error (getProperties templateModel) k = Some property
                   /\ exists e, FirstBindingAt (getName property) data i e) as Spec.
    { intros k property i. rewrite boundFrom_spec. split.
      - intros (j & -> & N & E). now split.
      - intros [N E]. exists k. now repeat split. }
    split; [apply propertiesFrom_bound|]. split; [exact Spec|]. split.
    + intros k property i I. apply Spec in I. destruct I as [_ (e & N & B & _)].
      apply (symbolsFrom_In prefix data 0 i (Some e) N).
      now apply bindsTo_hasRule with (name := getName property).
    + intros k property i N U I. apply Spec in I. destruct I as [_ (e & F)].
      exact (FirstBindingAt_not_Unbound _ _ _ _ F U).
  - intros model' Q G. now apply buildGrammarRules_same_model.
Qed.

End Externals.

End ContainerRuleFacts.

(** ** Structural errors *)

Module StructuralErrorFacts.

Import JS Concerto Tdl Exn ParserManager Nearley Notions.
Import CleanChunkFacts BindingFacts CompilerFacts.

Lemma eqb_neq_false (a b : string) : a <> b -> String.eqb a b = false.
Proof. intros H. now apply String.eqb_neq. Qed.

Section Externals.

Variable uuid_v4 : nat -> string.
Variable getClassDeclaration : string -> exn + ClassDeclaration.
Variable addGrammars : FormatParser -> list string -> list string.
Variable buildFormatRules : FormatParser -> string -> exn + list FormatRule.

#[local] Abbreviation handleBinding :=
  (ParserManager.handleBinding getClassDeclaration addGrammars buildFormatRules).
#[local] Abbreviation compileNode :=
  (ParserManager.compileNode getClassDeclaration addGrammars buildFormatRules).
#[local] Abbreviation buildGrammarRules :=
  (ParserManager.buildGrammarRules uuid_v4 getClassDeclaration addGrammars
     buildFormatRules).
#[local] Abbreviation Occurs := (Notions.Occurs getClassDeclaration).

(** *** One failing node fails its level, and every level above it *)

Lemma compileRules_fails node prefix (e : element) :
  hasRule (Some e) = true ->
  (forall r s, n_thrown (node r e s) <> None) ->
  forall data, In (Some e) data ->
    forall i s, o_thrown (compileRules node i prefix data s) <> None.
Proof.
  intros H N. induction data as [|[x|] rest IH]; intros I i s; [destruct I| |].
  - cbn [compileRules]. destruct I as [E|I].
    + inversion E. subst x. rewrite H.
      destruct (n_thrown (node _ e s)) eqn:T; [discriminate|].
      now apply N in T.
    + destruct (hasRule (Some x)); [|now apply IH].
      destruct (n_thrown _); [discriminate|]. now apply IH.
  - destruct I as [E|I]; [discriminate|]. now apply (IH I).
Qed.

Lemma compileRules_first_failure node prefix (e : element) (x : exn) :
  hasRule (Some e) = true ->
  (forall r s, n_thrown (node r e s) = Some x) ->
  forall pre post i s,
    o_thrown (compileRules node i prefix pre s) = None ->
    o_thrown (compileRules node i prefix (pre ++ Some e :: post) s) = Some x.
Proof.
  intros H N pre post i s P. rewrite compileRules_app. cbv zeta. rewrite P.
  cbn [o_thrown compileRules]. rewrite H, N. reflexivity.
Qed.

(** The text of a leading chunk plays no part in what a level throws. *)
Lemma buildGrammarRules_chunk_text v v' rest m p p' s s' :
  o_thrown (buildGrammarRules (Some (Chunk v) :: rest) m p s)
  = o_thrown (buildGrammarRules (Some (Chunk v') :: rest) m p' s').
Proof.
  rewrite !buildGrammarRules_unfold. cbn [compileRules].
  assert (forall i i' q q' s1 s2,
             o_thrown (compileRules (compileNode buildGrammarRules m) i q rest s1)
             = o_thrown (compileRules (compileNode buildGrammarRules m) i' q' rest s2))
    as P.
  { intros. apply compileRules_pure. intros r r' e s3 s4.
    apply compileNode_pure, buildGrammarRules_pure. }
  destruct (hasRule (Some (Chunk v))), (hasRule (Some (Chunk v')));
    cbn [ParserManager.compileNode n_thrown n_state o_thrown]; apply P.
Qed.

Lemma adjustListBlock_thrown x sep y m p p' s s' :
  adjustListBlock x sep = inr y ->
  o_thrown (buildGrammarRules y m p s) = o_thrown (buildGrammarRules x m p' s').
Proof.
  unfold adjustListBlock. destruct x as [|[[]|] rest]; try discriminate.
  intros H. inversion H. apply buildGrammarRules_chunk_text.
Qed.

Lemma templateOf_cases (e : element) (t : ast) :
  templateOf e = Some t ->
  (typeOf e =? "FormattedBinding") = false
  /\ ((typeOf e =? "ClauseBinding") || (typeOf e =? "WithBinding") = true
      \/ ((typeOf e =? "ClauseBinding") || (typeOf e =? "WithBinding") = false
          /\ isListBinding e = true))
  /\ hasRule (Some e) = true.
Proof.
  destruct e; cbn; intros H; try discriminate; repeat split; auto.
Qed.

Lemma nested_failure_fails_node (m : ClassDeclaration) (e : element) (f : token)
    (property : Property) (nested : ClassDeclaration) (template : ast) :
  templateOf e = Some template ->
  fieldNameOf e = Some f ->
  Concerto.getProperty m (tvalue f) = Some property ->
  getType property <> "DateTime" ->
  getClassDeclaration (getFullyQualifiedTypeName property) = inr nested ->
  (forall p s, o_thrown (buildGrammarRules template nested p s) <> None) ->
  forall r s, n_thrown (compileNode buildGrammarRules m r e s) <> None.
Proof.
  intros T F G D C N r s.
  destruct (templateOf_cases _ _ T) as (NF & Kind & _).
  assert (n_thrown (handleBinding buildGrammarRules m r e s) <> None) as HB.
  { unfold ParserManager.handleBinding, getProperty.
    rewrite F, G, NF, (eqb_neq_false _ _ D). cbn [orb].
    destruct Kind as [K|[K L]]; rewrite K.
    - unfold ParserManager.handleNested. rewrite T, C.
      destruct (o_thrown _) eqn:O; [discriminate|]. now apply N in O.
    - rewrite L. unfold ParserManager.handleList. rewrite T, C.
      destruct (firstNestedTemplate e template) as [|first] eqn:Fi; [discriminate|].
      destruct (o_thrown (buildGrammarRules first nested _ s)) eqn:O; [discriminate|].
      exfalso. revert Fi. unfold firstNestedTemplate.
      destruct (typeOf e =? "JoinBinding").
      + intros Fi. inversion Fi. subst first. now apply N in O.
      + intros Fi.
        rewrite (adjustListBlock_thrown _ _ _ _ _ (tvalue f) _ s Fi) in O.
        now apply N in O. }
  destruct e; try discriminate; exact HB.
Qed.

(** A node that cannot compile fails every template it occurs in. *)
Lemma occurs_fails (b : element) (enclosing : ClassDeclaration) :
  hasRule (Some b) = true ->
  (forall r s, n_thrown (compileNode buildGrammarRules enclosing r b s) <> None) ->
  forall model data, Occurs model data b enclosing ->
    forall prefix s, o_thrown (buildGrammarRules data model prefix s) <> None.
Proof.
  intros H N model data O.
  induction O as [model data b I
                 |model data e f property nested template b enclosing
                    I T F G D C O IH]; intros prefix s.
  - rewrite buildGrammarRules_unfold. now apply compileRules_fails with (e := b).
  - rewrite buildGrammarRules_unfold.
    apply compileRules_fails with (e := e); [|intros r s'|exact I].
    + now destruct (templateOf_cases _ _ T) as (_ & _ & R).
    + apply (nested_failure_fails_node model e f property nested template); auto.
Qed.

(** The first node of a level that cannot compile decides what the level
    throws. *)
Lemma first_failure (b : element) (m : ClassDeclaration) (x : exn) :
  hasRule (Some b) = true ->
  (forall r s, n_thrown (compileNode buildGrammarRules m r b s) = Some x) ->
  forall pre post prefix s,
    o_thrown (buildGrammarRules pre m prefix s) = None ->
    o_thrown (buildGrammarRules (pre ++ Some b :: post) m prefix s) = Some x.
Proof.
  intros H N pre post prefix s P. rewrite buildGrammarRules_unfold.
  apply compileRules_first_failure; [exact H|exact N|].
  rewrite buildGrammarRules_unfold in P. rewrite <- P.
  apply compileRules_pure. intros r r' e s1 s2.
  apply compileNode_pure, buildGrammarRules_pure.
Qed.

Lemma nested_failure_thrown (m : ClassDeclaration) (e : element) (f : token)
    (property : Property) (nested : ClassDeclaration) (template : ast) (x : exn) :
  templateOf e = Some template ->
  fieldNameOf e = Some f ->
  Concerto.getProperty m (tvalue f) = Some property ->
  getType property <> "DateTime" ->
  getClassDeclaration (getFullyQualifiedTypeName property) = inr nested ->
  (isListBinding e = true -> exists first, firstNestedTemplate e template = inr first) ->
  (forall p s, o_thrown (buildGrammarRules template nested p s) = Some x) ->
  forall r s, n_thrown (compileNode buildGrammarRules m r e s) = Some x.
Proof.
  intros T F G D C Fi N r s.
  destruct (templateOf_cases _ _ T) as (NF & Kind & _).
  assert (n_thrown (handleBinding buildGrammarRules m r e s) = Some x) as HB.
  { unfold ParserManager.handleBinding, getProperty.
    rewrite F, G, NF, (eqb_neq_false _ _ D). cbn [orb].
    destruct Kind as [K|[K L]]; rewrite K.
    - unfold ParserManager.handleNested. rewrite T, C.
      now rewrite (N (tvalue f) s).
    - rewrite L. unfold ParserManager.handleList. rewrite T, C.
      destruct (Fi L) as [first E]. rewrite E.
      assert (o_thrown (buildGrammarRules first nested (tvalue f +:+ "First") s)
              = Some x) as O.
      { revert E. unfold firstNestedTemplate.
        destruct (typeOf e =? "JoinBinding").
        - intros E. inversion E. subst first. apply N.
        - intros E.
          rewrite (adjustListBlock_thrown _ _ _ _ _ (tvalue f) _ s E). apply N. }
      now rewrite O. }
  destruct e; try discriminate; exact HB.
Qed.

(** The first node a compilation does not get past decides what the
    compilation throws, at whatever depth it stands. *)
Lemma first_to_fail_thrown (b : element) (enclosing : ClassDeclaration) (x : exn) :
  hasRule (Some b) = true ->
  (forall r s, n_thrown (compileNode buildGrammarRules enclosing r b s) = Some x) ->
  forall model data,
    FirstToFail getClassDeclaration
      (fun pre m => forall prefix s, o_thrown (buildGrammarRules pre m prefix s) = None)
      model data b enclosing ->
    forall prefix s, o_thrown (buildGrammarRules data model prefix s) = Some x.
Proof.
  intros H N model data R.
  induction R as [model pre post b P
                 |model pre post e f property nested template b enclosing
                    P T F G D C Fi R IH]; intros prefix s.
  - apply first_failure; [exact H|exact N|apply P].
  - apply first_failure; [|intros r s'|apply P].
    + now destruct (templateOf_cases _ _ T) as (_ & _ & K).
    + apply (nested_failure_thrown model e f property nested template); auto.
Qed.

(** *** Bindings to undeclared properties *)

Lemma isBinding_hasRule (b : element) : isBinding b = true -> hasRule (Some b) = true.
Proof. destruct b; cbn; try reflexivity; discriminate. Qed.

Lemma getProperty_undeclared (enclosing : ClassDeclaration) (b : element) (f : token) :
  isBinding b = true ->
  fieldNameOf b = Some f ->
  Concerto.getProperty enclosing (tvalue f) = None ->
  getProperty enclosing b = inl (undeclaredProperty enclosing f).
Proof.
  intros B F G. unfold getProperty, _throwTemplateExceptionForElement.
  rewrite F, G. destruct b; try discriminate; reflexivity.
Qed.

Lemma compileNode_undeclared build (enclosing : ClassDeclaration) (b : element)
    (f : token) r s :
  isBinding b = true ->
  fieldNameOf b = Some f ->
  Concerto.getProperty enclosing (tvalue f) = None ->
  compileNode build enclosing r b s
  = mkNodeOutcome b s (Some (undeclaredProperty enclosing f)).
Proof.
  intros B F G. pose proof (getProperty_undeclared _ _ _ B F G) as P.
  destruct b; try discriminate; cbn [ParserManager.compileNode];
    try (unfold ParserManager.handleBinding; rewrite F, P; reflexivity);
    rewrite P; reflexivity.
Qed.

(** C2, as the code has it.  A binding whose field name is not a property
    of the model of its level is rejected with a [TemplateException]: its
    message names the field and the fully qualified name of the model, and
    its location is the line and column of the field-name token.  Every
    template the binding occurs in, at any depth, fails to compile.  The
    compiler stops at the first node that throws, so a template throws
    this exception when the binding is the first node its compilation does
    not get past: at its own level when the nodes before it compile, and
    inside nested blocks when the nodes before each block compile too. *)
Theorem undeclared_property_rejected
    (enclosing : ClassDeclaration) (b : element) (fieldName : token) :
  isBinding b = true ->
  fieldNameOf b = Some fieldName ->
  Concerto.getProperty enclosing (tvalue fieldName) = None ->
  let thrown :=
    TemplateException
      ("Template references a property '" +:+ tvalue fieldName
       +:+ "' that is not declared in the template model '"
       +:+ getFullyQualifiedName enclosing +:+ "'")
      (mkFileLocation (line fieldName) (col fieldName)
                      (line fieldName) (col fieldName + 1))
      "text/grammar.tem.md" "cicero-core" in
  (forall build rule s,
      compileNode build enclosing rule b s = mkNodeOutcome b s (Some thrown))
  /\ (forall model data,
         Occurs model data b enclosing ->
         forall prefix s,
           o_thrown (buildGrammarRules data model prefix s) <> None)
  /\ (forall pre post prefix s,
         o_thrown (buildGrammarRules pre enclosing prefix s) = None ->
         o_thrown (buildGrammarRules (pre ++ Some b :: post) enclosing prefix s)
         = Some thrown)
  /\ (forall model data,
         FirstToFail getClassDeclaration
           (fun pre m =>
              forall prefix s, o_thrown (buildGrammarRules pre m prefix s) = None)
           model data b enclosing ->
         forall prefix s,
           o_thrown (buildGrammarRules data model prefix s) = Some thrown).
Proof.
  intros B F G thrown.
  assert (forall build rule s,
             compileNode build enclosing rule b s = mkNodeOutcome b s (Some thrown))
    as Node by (intros; now apply compileNode_undeclared).
  split; [exact Node|]. split; [|split].
  - apply occurs_fails; [now apply isBinding_hasRule|].
    intros r s. now rewrite Node.
  - apply first_failure; [now apply isBinding_hasRule|].
    intros r s. now rewrite Node.
  - apply first_to_fail_thrown; [now apply isBinding_hasRule|].
    intros r s. now rewrite Node.
Qed.

(** *** Conditionals on properties that are no Boolean *)

Lemma getProperty_declared (enclosing : ClassDeclaration) (b : element) (f : token)
    (property : Property) :
  fieldNameOf b = Some f ->
  Concerto.getProperty enclosing (tvalue f) = Some property ->
  getProperty enclosing b = inr property.
Proof. intros F G. unfold getProperty. now rewrite F, G. Qed.



End Externals.

End StructuralErrorFacts.

(** ** List bindings *)

Module ListBindingFacts.

Import JS Concerto Tdl Exn ParserManager Nearley Notions CompilerFacts
       StructuralErrorFacts.

Lemma isListBinding_cases (e : element) :
  isListBinding e = true ->
  (typeOf e =? "FormattedBinding") = false
  /\ (typeOf e =? "ClauseBinding") || (typeOf e =? "WithBinding") = false
  /\ exists f t, fieldNameOf e = Some f /\ templateOf e = Some t.
Proof.
  destruct e; cbn; intros H; try discriminate; repeat split; eauto.
Qed.

Section Externals.

Variable uuid_v4 : nat -> string.
Variable getClassDeclaration : string -> exn + ClassDeclaration.
Variable addGrammars : FormatParser -> list string -> list string.
Variable buildFormatRules : FormatParser -> string -> exn + list FormatRule.

#[local] Abbreviation compileNode :=
  (ParserManager.compileNode getClassDeclaration addGrammars buildFormatRules).
#[local] Abbreviation buildGrammarRules :=
  (ParserManager.buildGrammarRules uuid_v4 getClassDeclaration addGrammars
     buildFormatRules).

(** C4, as the code has it.  For a list binding, [UListBinding],
    [OListBinding] or [JoinBinding], on a declared property that is no
    [DateTime]: when the node compiles, the type of the property is a
    class, the compiler has appended a container rule of prefix
    [field + "First"] for the first item and then one of prefix [field]
    for the other items, both for that class, and the last rule it has
    appended is the rule of the node, which sequences [field + "First"]
    and then [field] with the cardinality suffix of the property, under
    the action written out below, which puts the value of the first in
    front of the values of the others.  On the value of a first item and
    the array of the others, that action returns the array of the first
    followed by the others, each once and in their order. *)
Theorem list_binding_first_then_rest
    (templateModel : ClassDeclaration) (rule : string) (element : element)
    (fieldName : token) (property : Property) (s : State) :
  isListBinding element = true ->
  fieldNameOf element = Some fieldName ->
  Concerto.getProperty templateModel (tvalue fieldName) = Some property ->
  getType property <> "DateTime" ->
  n_thrown (compileNode buildGrammarRules templateModel rule element s) = None ->
  let field := tvalue fieldName in
  let after := n_state (compileNode buildGrammarRules templateModel rule element s) in
  let action :=
    String newline
      ("{%" +:+ String newline
         ("  ([ " +:+ field +:+ "First, " +:+ field +:+ " ]) => {"
          +:+ String newline
            ("    return [" +:+ field +:+ "First].concat(" +:+ field +:+ ");"
             +:+ String newline ("}" +:+ String newline "%}")))) in
  (exists nested firstRules restRules more1 more2,
      getClassDeclaration (getFullyQualifiedTypeName property) = inr nested
      /\ textRules (parts after)
         = textRules (parts s) ++ firstRules :: more1 ++ restRules :: more2
      /\ tr_prefix firstRules = field +:+ "First"
      /\ tr_prefix restRules = field
      /\ tr_class firstRules = getFullyQualifiedName nested
      /\ tr_class restRules = getFullyQualifiedName nested)
  /\ (exists between,
         modelRules (parts after)
         = modelRules (parts s) ++ between
           ++ [mkModelRule rule
                 [(field +:+ "First") +:+ " " +:+ field +:+ suffixOf property
                  +:+ " " +:+ action +:+ " # " +:+ field]])
  /\ source (ListConcat field) = action
  /\ (forall first others,
         run (ListConcat field) (firstThenMany first others)
         = Some (VArr (first :: others))).
Proof.
  intros L F G D. cbv zeta.
  destruct (isListBinding_cases _ L) as (NF & NC & f' & t & F' & T).
  rewrite F in F'. inversion F'. subst f'. clear F'.
  assert (compileNode buildGrammarRules templateModel rule element s
          = handleList getClassDeclaration buildGrammarRules rule element fieldName
              property (tvalue fieldName) s) as E.
  { transitivity (handleBinding getClassDeclaration addGrammars buildFormatRules
                    buildGrammarRules templateModel rule element s).
    - destruct element; try discriminate; reflexivity.
    - unfold handleBinding.
      rewrite F, (getProperty_declared _ _ _ _ F G), NF, (eqb_neq_false _ _ D), NC, L.
      reflexivity. }
  rewrite E. unfold handleList. rewrite T.
  destruct (getClassDeclaration _) as [|nested]; [discriminate|].
  destruct (firstNestedTemplate element t) as [|first]; [discriminate|].
  set (o1 := buildGrammarRules first nested (tvalue fieldName +:+ "First") s).
  destruct (o_thrown o1); [discriminate|].
  destruct (restNestedTemplate element (o_ast o1)) as [|rest]; [discriminate|].
  set (o2 := buildGrammarRules rest nested (tvalue fieldName) (o_state o1)).
  destruct (o_thrown o2); [discriminate|]. intros _.
  cbn [finishBinding n_state pushModelRule parts textRules modelRules].
  destruct (buildGrammarRules_container uuid_v4 getClassDeclaration addGrammars
              buildFormatRules first nested (tvalue fieldName +:+ "First") s)
    as [more1 T1].
  destruct (buildGrammarRules_container uuid_v4 getClassDeclaration addGrammars
              buildFormatRules rest nested (tvalue fieldName) (o_state o1))
    as [more2 T2].
  fold o1 in T1. fold o1 o2 in T2. split; [|split; [|split; reflexivity]].
  - exists nested. do 4 eexists. split; [reflexivity|]. split.
    + rewrite T2, T1, <- app_assoc. reflexivity.
    + repeat split.
  - destruct (Appends_buildGrammarRules uuid_v4 getClassDeclaration addGrammars
                buildFormatRules first nested (tvalue fieldName +:+ "First") s)
      as [_ [m1 M1]].
    destruct (Appends_buildGrammarRules uuid_v4 getClassDeclaration addGrammars
                buildFormatRules rest nested (tvalue fieldName) (o_state o1))
      as [_ [m2 M2]].
    fold o1 in M1. fold o1 o2 in M2.
    exists (m1 ++ m2). unfold bindingRule. rewrite L, M2, M1, <- !app_assoc.
    reflexivity.
Qed.

End Externals.

End ListBindingFacts.

(** ** The theorems on a concrete template *)

Module CompilerRuns.

Import JS Concerto Tdl Exn ParserManager Nearley Notions Examples.
Import StructuralErrorFacts ListBindingFacts.

(** A binding to [currency], which the order does not declare, after a
    chunk of text; and a binding to [price], which an item does not
    declare, inside the clause of the items. *)
Lemma undeclared_property_rejected_witness :
  Concerto.getProperty order "currency" = None
  /\ o_thrown (Examples.buildGrammarRules
                 [Some (Chunk "Pay in "); Some (Binding (at_ "currency" 3 8) None)]
                 order "rule" start)
     = Some (TemplateException
               "Template references a property 'currency' that is not declared in the template model 'org.acme.Order'"
               (mkFileLocation 3 8 3 9) "text/grammar.tem.md" "cicero-core")
  /\ Concerto.getProperty item "price" = None
  /\ o_thrown (Examples.buildGrammarRules
                 [Some (Chunk "Items: ");
                  Some (ClauseBinding (at_ "items" 2 3)
                          [Some (Chunk "item ");
                           Some (Binding (at_ "price" 2 22) None)])]
                 order "rule" start)
     = Some (TemplateException
               "Template references a property 'price' that is not declared in the template model 'org.acme.Item'"
               (mkFileLocation 2 22 2 23) "text/grammar.tem.md" "cicero-core").
Proof.
  split; [reflexivity|]. split.
  { apply (proj1 (proj2 (proj2 (undeclared_property_rejected
                                  Examples.uuid_v4 Examples.getClassDeclaration
                                  Examples.addGrammars Examples.buildFormatRules
                                  order (Binding (at_ "currency" 3 8) None)
                                  (at_ "currency" 3 8) eq_refl eq_refl eq_refl)))
             [Some (Chunk "Pay in ")] [] "rule" start).
    reflexivity. }
  split; [reflexivity|].
  apply (proj2 (proj2 (proj2 (undeclared_property_rejected
                                Examples.uuid_v4 Examples.getClassDeclaration
                                Examples.addGrammars Examples.buildFormatRules
                                item (Binding (at_ "price" 2 22) None)
                                (at_ "price" 2 22) eq_refl eq_refl eq_refl)))
           order
           ([Some (Chunk "Items: ")]
              ++ Some (ClauseBinding (at_ "items" 2 3)
                         [Some (Chunk "item ");
                          Some (Binding (at_ "price" 2 22) None)]) :: [])).
  apply (FirstNested _ _ order [Some (Chunk "Items: ")] []
           (ClauseBinding (at_ "items" 2 3)
              [Some (Chunk "item "); Some (Binding (at_ "price" 2 22) None)])
           (at_ "items" 2 3)
           (mkProperty "items" "Item" "org.acme.Item" true false false)
           item
           ([Some (Chunk "item ")] ++ Some (Binding (at_ "price" 2 22) None) :: [])
           (Binding (at_ "price" 2 22) None) item).
  - intros prefix s. reflexivity.
  - reflexivity.
  - reflexivity.
  - reflexivity.
  - discriminate.
  - reflexivity.
  - discriminate.
  - apply FirstHere. intros prefix s. reflexivity.
Defined.

(** A binding to [currency], which the order does not declare, behind a
    node that fails first: a list block without text, and a conditional
    on a string.  The template is rejected, with the exception of the
    node that fails first, which is a plain error in the first case and
    names another field in the second. *)
Lemma undeclared_binding_behind_another_failure :
  Concerto.getProperty order "currency" = None
  /\ o_thrown (Examples.buildGrammarRules
                 [Some (UListBinding (at_ "items" 2 10)
                          [Some (Binding (at_ "name" 2 22) None)]);
                  Some (Binding (at_ "currency" 3 8) None)]
                 order "rule" start)
     = Some (Error "List block in template should contain text")
  /\ o_thrown (Examples.buildGrammarRules
                 [Some (IfBinding (at_ "buyer" 1 6) (at_ "by express" 1 13));
                  Some (Binding (at_ "currency" 3 8) None)]
                 order "rule" start)
     = Some (TemplateException
               "An if block can only be used with a boolean property. Property buyer has type String"
               (mkFileLocation 1 6 1 7) "text/grammar.tem.md" "cicero-core").
Proof. repeat split. Qed.


(** C7. The text of a conditional is written into the rule between
    double quotes as it stands, where the text of a chunk is escaped by
    [cleanChunk] first.  A conditional on the Boolean property [express]
    whose text has a double quote compiles without an exception, and what
    it writes for the text is no string literal: there is no rule for the
    engine to pass a value to the action of, so the action does not yield
    true when the text is present.  The same holds for the two texts of
    a conditional with an else branch, and for a text that starts on a new
    line.  [cleanChunk] writes literals for the same texts that read back
    as the texts. *)
Theorem conditional_text_spliced_unescaped :
  let text := " by " +:+ String dquote ("express" +:+ String dquote "") in
  let lines := String newline "by express" in
  let ifNode := IfBinding (at_ "express" 1 6) (at_ text 1 15) in
  let ifElseNode :=
    IfElseBinding (at_ "express" 1 6) (at_ text 1 15) (at_ " by mail" 1 40) in
  Concerto.getProperty order "express"
  = Some (mkProperty "express" "Boolean" "Boolean" false false false)
  /\ Examples.compileNode order "rule0" ifNode start
     = mkNodeOutcome ifNode
         (pushModelRule
            (mkModelRule "rule0"
               [String dquote
                  (" by " +:+ String dquote
                     ("express" +:+ String dquote
                        (String dquote
                           ":? {% (d) => {return d[0] !== null;}%} # express")))])
            start)
         None
  /\ readLiteral (quoted text) = None
  /\ optionalLiteral (quoted text) true = None
  /\ n_thrown (Examples.compileNode order "rule0" ifElseNode start) = None
  /\ choice (quoted text) (quoted " by mail") true = None
  /\ readLiteral (cleanChunk text) = Some text
  /\ n_thrown
       (Examples.compileNode order "rule0"
          (IfBinding (at_ "express" 1 6) (at_ lines 1 15)) start)
     = None
  /\ readLiteral (quoted lines) = None
  /\ optionalLiteral (quoted lines) true = None
  /\ readLiteral (cleanChunk lines) = Some lines.
Proof. repeat split. Qed.

(** A bulleted list of the items of the order. *)
Lemma list_binding_first_then_rest_witness :
  n_thrown (Examples.compileNode order "rule1" itemList start) = None
  /\ exists between,
       modelRules (parts (n_state (Examples.compileNode order "rule1" itemList start)))
       = modelRules (parts start) ++ between
         ++ [mkModelRule "rule1"
               ["itemsFirst items:* "
                +:+ String newline
                  ("{%" +:+ String newline
                     ("  ([ itemsFirst, items ]) => {" +:+ String newline
                        ("    return [itemsFirst].concat(items);" +:+ String newline
                           ("}" +:+ String newline "%} # items"))))]].
Proof.
  split; [reflexivity|].
  apply (proj1 (proj2 (list_binding_first_then_rest
                         Examples.uuid_v4 Examples.getClassDeclaration
                         Examples.addGrammars Examples.buildFormatRules
                         order "rule1" itemList (at_ "items" 2 10)
                         (mkProperty "items" "Item" "org.acme.Item" true false false)
                         start eq_refl eq_refl eq_refl ltac:(discriminate) eq_refl))).
Defined.

(** A bulleted list whose block starts with a variable: the compiler
    refuses it, and appends nothing for it. *)
Lemma list_block_without_text_rejected :
  Examples.compileNode order "rule1"
    (UListBinding (at_ "items" 2 10) [Some (Binding (at_ "name" 2 22) None)])
    start
  = mkNodeOutcome
      (UListBinding (at_ "items" 2 10) [Some (Binding (at_ "name" 2 22) None)])
      start
      (Some (Error "List block in template should contain text")).
Proof. reflexivity. Qed.

(** A list binding on a property of type [DateTime] takes the branch of
    formatted bindings: no nested template is compiled, and the rule of
    the node starts with the text of a null first type. *)
Lemma list_binding_on_date_time :
  Examples.compileNode order "rule1"
    (JoinBinding (at_ "shipped" 4 9) ", " [Some (Chunk "on ")]) start
  = mkNodeOutcome
      (JoinBinding (at_ "shipped" 4 9) ", " [Some (Chunk "on ")])
      (pushModelRule
         (mkModelRule "rule1" ["null DateTime:* {% id %} # shipped"]) start)
      None.
Proof. reflexivity. Qed.

End CompilerRuns.

(** ** The manager: building before parsing *)

Module ManagerFacts.

Import JS Concerto Tdl Exn ParserManager Notions.

Section Externals.

Variable Compiled : Type.
Variable GrammarAst : Type.
Variable GrammarInfo : Type.
Variable feedNearley : string -> exn + list GrammarAst.
Variable compile : option GrammarAst -> exn + GrammarInfo.
Variable generate : GrammarInfo -> string.
Variable evalModule : string -> exn + Compiled.
Variable roundtripMarkdown : string -> exn + string.
Variable feedTemplateGrammar : string -> exn + list ast.
Variable getTemplateModel : ClassDeclaration.
Variable visitModelManager : exn + list ModelRule.
Variable render : Parts -> exn + string.
Variable uuid_v4 : nat -> string.
Variable getClassDeclaration : string -> exn + ClassDeclaration.
Variable addGrammars : FormatParser -> list string -> list string.
Variable buildFormatRules : FormatParser -> string -> exn + list FormatRule.

#[local] Abbreviation Manager := (ParserManager.Manager Compiled).
#[local] Abbreviation Parser := (ParserManager.Parser Compiled).
#[local] Abbreviation compileGrammar :=
  (ParserManager.compileGrammar Compiled GrammarAst GrammarInfo feedNearley compile
     generate evalModule).
#[local] Abbreviation Built := (Notions.Built compileGrammar).
#[local] Abbreviation Sound := (Notions.Sound compileGrammar).
#[local] Abbreviation setGrammar :=
  (ParserManager.setGrammar Compiled GrammarAst GrammarInfo feedNearley compile
     generate evalModule).
#[local] Abbreviation buildGrammar :=
  (ParserManager.buildGrammar Compiled GrammarAst GrammarInfo feedNearley compile
     generate evalModule roundtripMarkdown feedTemplateGrammar getTemplateModel
     visitModelManager render uuid_v4 getClassDeclaration addGrammars
     buildFormatRules).
#[local] Abbreviation perform :=
  (ParserManager.perform Compiled GrammarAst GrammarInfo feedNearley compile
     generate evalModule roundtripMarkdown feedTemplateGrammar getTemplateModel
     visitModelManager render uuid_v4 getClassDeclaration addGrammars
     buildFormatRules).
#[local] Abbreviation performAll :=
  (ParserManager.performAll Compiled GrammarAst GrammarInfo feedNearley compile
     generate evalModule roundtripMarkdown feedTemplateGrammar getTemplateModel
     visitModelManager render uuid_v4 getClassDeclaration addGrammars
     buildFormatRules).

(** *** One call *)

Lemma setGrammar_cases (text : string) (m : Manager) :
  (exists e, setGrammar text m = (Some e, allocate Compiled m))
  \/ (exists g, compileGrammar text = inr g
                /\ fst (setGrammar text m) = None
                /\ grammar Compiled (snd (setGrammar text m)) = Some text
                /\ grammarAst Compiled (snd (setGrammar text m)) = Some g
                /\ m_allocated Compiled (snd (setGrammar text m))
                   = S (m_allocated Compiled m)).
Proof.
  unfold ParserManager.setGrammar. destruct (compileGrammar text) as [e|g].
  - left. now exists e.
  - right. exists g. repeat split.
Qed.

Lemma buildGrammar_cases (text : string) (m : Manager) :
  (fst (buildGrammar text m) <> None
   /\ grammar Compiled (snd (buildGrammar text m)) = grammar Compiled m
   /\ grammarAst Compiled (snd (buildGrammar text m)) = grammarAst Compiled m
   /\ m_allocated Compiled m <= m_allocated Compiled (snd (buildGrammar text m)))
  \/ (fst (buildGrammar text m) = None
      /\ Built (snd (buildGrammar text m))
      /\ m_allocated Compiled m <= m_allocated Compiled (snd (buildGrammar text m))).
Proof.
  unfold ParserManager.buildGrammar.
  destruct (roundtripMarkdown text) as [e|text'];
    [left; cbn; repeat split; [discriminate|lia]|].
  destruct (feedTemplateGrammar text') as [e|results];
    [left; cbn; repeat split; [discriminate|lia]|].
  destruct (negb _); [left; cbn; repeat split; [discriminate|lia]|].
  destruct (nth_error results 0) as [a|];
    [|left; cbn; repeat split; [discriminate|lia]].
  destruct (o_thrown _); [left; cbn; repeat split; [discriminate|lia]|].
  destruct visitModelManager as [e|rules];
    [left; cbn; repeat split; [discriminate|lia]|].
  destruct (render _) as [e|combined];
    [left; cbn; repeat split; [discriminate|lia]|].
  match goal with |- context [ParserManager.setGrammar _ _ _ _ _ _ _ ?t ?m0] =>
    destruct (setGrammar_cases t m0) as [[e E]|(g & C & T & G & A & L)];
    destruct (ParserManager.setGrammar _ _ _ _ _ _ _ t m0) as [thrown m1] eqn:S
  end.
  - inversion E. subst. left. cbn. repeat split; [discriminate|lia].
  - cbn in T, G, A, L. subst thrown. right. cbn. split; [reflexivity|].
    split; [|lia]. exists combined, g. cbn. auto.
Qed.

Lemma Sound_unchanged (m m' : Manager) (built : bool) (issued : list Parser) :
  Sound built issued m ->
  grammar Compiled m' = grammar Compiled m ->
  grammarAst Compiled m' = grammarAst Compiled m ->
  m_allocated Compiled m <= m_allocated Compiled m' ->
  Sound built issued m'.
Proof.
  intros (N & B & I & D) G A L. split; [|split; [|split]].
  - intros E. rewrite A. auto.
  - intros E. destruct (B E) as (t & g & G1 & G2 & G3).
    exists t, g. rewrite G, A. auto.
  - intros p P. specialize (I p P). lia.
  - exact D.
Qed.

Lemma Sound_built (m m' : Manager) (built : bool) (issued : list Parser) :
  Sound built issued m ->
  Built m' ->
  m_allocated Compiled m <= m_allocated Compiled m' ->
  Sound true issued m'.
Proof.
  intros (N & B & I & D) Bu L. split; [|split; [|split]].
  - discriminate.
  - intros _. exact Bu.
  - intros p P. specialize (I p P). lia.
  - exact D.
Qed.

Lemma Sound_perform (c : Call) (m : Manager) (built : bool) (issued : list Parser) :
  Sound built issued m ->
  Sound (built || builtBy Compiled (c, fst (perform c m)))
        (issued ++ parsersOf Compiled [(c, fst (perform c m))])
        (snd (perform c m)).
Proof.
  intros S.
  destruct c as [text|text| | | |]; cbn [ParserManager.perform].
  - destruct (setGrammar_cases text m) as [[e E]|(g & C & T & G & A & L)].
    + rewrite E. cbn. rewrite orb_false_r, app_nil_r.
      apply (Sound_unchanged m); auto. cbn. lia.
    + destruct (setGrammar text m) as [thrown m'].
      cbn in T, G, A, L. subst thrown. cbn. rewrite orb_true_r, app_nil_r.
      apply (Sound_built m _ built); [exact S| |lia]. now exists text, g.
  - destruct (buildGrammar_cases text m) as [(T & G & A & L)|(T & Bu & L)];
      destruct (buildGrammar text m) as [thrown m']; cbn in T, L.
    + destruct thrown as [e|]; [|congruence]. cbn.
      rewrite orb_false_r, app_nil_r. now apply (Sound_unchanged m).
    + subst thrown. cbn. rewrite orb_true_r, app_nil_r.
      now apply (Sound_built m _ built).
  - unfold ParserManager.getParser.
    destruct (grammarAst Compiled m) as [g|] eqn:G; cbn.
    + rewrite orb_false_r. destruct S as (N & B & I & D).
      split; [|split; [|split]].
      * intros E. specialize (N E). congruence.
      * intros E. destruct (B E) as (t & g' & G1 & G2 & G3). now exists t, g'.
      * intros p P. apply in_app_or in P. destruct P as [P|[<-|[]]].
        -- specialize (I p P). cbn. lia.
        -- cbn. lia.
      * rewrite map_app. cbn. apply NoDup_app; [exact D|repeat constructor; auto|].
        intros x X [<-|[]]. apply in_map_iff in X. destruct X as (p & E & P).
        specialize (I p P). lia.
    + now rewrite orb_false_r, app_nil_r.
  - unfold ParserManager.getTemplateAst.
    destruct (grammarAst Compiled m); cbn; now rewrite orb_false_r, app_nil_r.
  - cbn. now rewrite orb_false_r, app_nil_r.
  - cbn. now rewrite orb_false_r, app_nil_r.
Qed.

Lemma parsersOf_cons (entry : Call * Return Compiled) (history : list (Call * Return Compiled)) :
  parsersOf Compiled (entry :: history)
  = parsersOf Compiled [entry] ++ parsersOf Compiled history.
Proof. destruct entry as [c [| |p| |]]; reflexivity. Qed.

Lemma Sound_performAll (calls : list Call) :
  forall (m : Manager) (built : bool) (issued : list Parser),
    Sound built issued m ->
    Sound (built || existsb (builtBy Compiled) (fst (performAll calls m)))
          (issued ++ parsersOf Compiled (fst (performAll calls m)))
          (snd (performAll calls m)).
Proof.
  induction calls as [|c calls IH]; intros m built issued S.
  - cbn. now rewrite orb_false_r, app_nil_r.
  - cbn [ParserManager.performAll].
    pose proof (Sound_perform c m built issued S) as S'.
    destruct (perform c m) as [r m'] eqn:P. cbn [fst snd] in S'.
    specialize (IH m' _ _ S').
    destruct (performAll calls m') as [history m''] eqn:PA. cbn [fst snd] in *.
    cbn [existsb]. rewrite parsersOf_cons.
    now rewrite orb_assoc, app_assoc.
Qed.

(** C6. Take any calls made on a fresh manager.  If no [setGrammar] and
    no [buildGrammar] among them has returned normally, [getParser] throws
    the error that one of them must be called first.  If one has, the
    manager holds the compiled form of its grammar text, and [getParser]
    returns a parser constructed from it under an identity no parser
    handed out before has: every call constructs a parser of its own. *)
Theorem getParser_after_build (calls : list Call) (uuids allocated : nat) :
  let history := fst (performAll calls (newManager Compiled uuids allocated)) in
  let m := snd (performAll calls (newManager Compiled uuids allocated)) in
  (existsb (builtBy Compiled) history = false ->
   ParserManager.getParser Compiled m
   = (inl (Error "Must call setGrammar or buildGrammar before calling getParser"), m))
  /\ (existsb (builtBy Compiled) history = true ->
      exists text g,
        grammar Compiled m = Some text
        /\ compileGrammar text = inr g
        /\ ParserManager.getParser Compiled m
           = (inr (mkParser Compiled (m_allocated Compiled m) g),
              allocate Compiled m)
        /\ forall p, In p (parsersOf Compiled history) ->
                     p_identity Compiled p <> m_allocated Compiled m)
  /\ NoDup (map (p_identity Compiled) (parsersOf Compiled history)).
Proof.
  intros history m.
  assert (Sound false [] (newManager Compiled uuids allocated)) as S0.
  { split; [|split; [|split]]; try discriminate; [reflexivity|intros p []|constructor]. }
  pose proof (Sound_performAll calls _ _ _ S0) as (N & B & I & D).
  cbn [orb app] in N, B, I, D. fold history in N, B, I, D. fold m in N, B, I.
  split; [|split].
  - intros E. unfold ParserManager.getParser. now rewrite (N E).
  - intros E. destruct (B E) as (text & g & G1 & G2 & G3).
    exists text, g. split; [exact G1|]. split; [exact G3|]. split.
    + unfold ParserManager.getParser. now rewrite G2.
    + intros p P. specialize (I p P). lia.
  - exact D.
Qed.

(** What the compilation of the one parse of the template text throws,
    [buildGrammar] throws, and the grammar of the manager stays what it
    was. *)
Lemma buildGrammar_throws_compilation_error
    (text normalized : string) (ast : ast) (m : Manager) (e : exn) :
  roundtripMarkdown text = inr normalized ->
  feedTemplateGrammar normalized = inr [ast] ->
  o_thrown (ParserManager.buildGrammarRules uuid_v4 getClassDeclaration addGrammars
              buildFormatRules ast getTemplateModel "rule"
              (mkState (mkParts [] [] ["base"]) false (m_uuids Compiled m)))
  = Some e ->
  fst (buildGrammar text m) = Some e
  /\ grammar Compiled (snd (buildGrammar text m)) = grammar Compiled m
  /\ grammarAst Compiled (snd (buildGrammar text m)) = grammarAst Compiled m.
Proof.
  intros R F T. unfold ParserManager.buildGrammar. rewrite R, F.
  cbn [List.length Nat.eqb negb nth_error allocate m_ergoExpression m_uuids].
  rewrite T. cbn. auto.
Qed.

(** C3, as the code has it.  When the parse of the template text has no
    result, and when it has more than one, [buildGrammar] throws one and
    the same error, and the grammar of the manager stays what it was. *)
Theorem buildGrammar_rejects_other_than_one
    (text normalized : string) (results : list ast) (m : Manager) :
  roundtripMarkdown text = inr normalized ->
  feedTemplateGrammar normalized = inr results ->
  List.length results <> 1 ->
  fst (buildGrammar text m) = Some (Error "Ambiguous parse!")
  /\ grammar Compiled (snd (buildGrammar text m)) = grammar Compiled m
  /\ grammarAst Compiled (snd (buildGrammar text m)) = grammarAst Compiled m
  /\ templateAst Compiled (snd (buildGrammar text m)) = templateAst Compiled m.
Proof.
  intros R F L. unfold ParserManager.buildGrammar. rewrite R, F.
  apply Nat.eqb_neq in L. rewrite L. cbn. auto.
Qed.

End Externals.

End ManagerFacts.

(** ** Template instances: drafting and identity *)

Module InstanceFacts.

Import JS Exn TemplateInstance Notions.

Section Externals.

Variable Data : Type.
Variable Resource : Type.
Variable CiceroMark : Type.
Variable Slate : Type.
Variable ParserManager : Type.
Variable templateIdentifier : string.
Variable templateModelName : string.
Variable templateType : Z.
Variable parserManager : ParserManager.
Variable fromJSON : Data -> exn + Resource.
Variable validate : Resource -> option exn.
Variable classOf : Data -> prim.
Variable stringify : Data -> string.
Variable sha256Hex : string -> string.
Variable draftCiceroMark : option Data -> ParserManager -> string -> exn + CiceroMark.
Variable unquote : CiceroMark -> exn + CiceroMark.
Variable toCiceroMarkUnwrapped : CiceroMark -> exn + CiceroMark.
Variable toMarkdownCicero : CiceroMark -> exn + string.
Variable toHtml : CiceroMark -> exn + string.
Variable slateFromCiceroMark : CiceroMark -> exn + Slate.

#[local] Abbreviation Instance := (TemplateInstance.Instance Data Resource).
#[local] Abbreviation Output := (TemplateInstance.Output CiceroMark Slate).
#[local] Abbreviation setData :=
  (TemplateInstance.setData Data Resource templateModelName fromJSON validate
     classOf stringify).
#[local] Abbreviation setAll :=
  (TemplateInstance.setAll Data Resource templateModelName fromJSON validate
     classOf stringify).
#[local] Abbreviation unquoteIf := (TemplateInstance.unquoteIf CiceroMark unquote).
#[local] Abbreviation formatCiceroMark :=
  (TemplateInstance.formatCiceroMark CiceroMark Slate unquote toCiceroMarkUnwrapped
     toMarkdownCicero toHtml slateFromCiceroMark).
#[local] Abbreviation draft :=
  (TemplateInstance.draft Data Resource CiceroMark Slate ParserManager templateType
     parserManager draftCiceroMark unquote toCiceroMarkUnwrapped toMarkdownCicero
     toHtml slateFromCiceroMark).
#[local] Abbreviation getIdentifier :=
  (TemplateInstance.getIdentifier Data Resource templateIdentifier stringify
     sha256Hex).
#[local] Abbreviation templateKind := (TemplateInstance.templateKind templateType).

(** *** Setting the data *)

Lemma setData_cases (d : Data) (i : Instance) :
  (fst (setData d i) <> None /\ snd (setData d i) = i)
  \/ (fst (setData d i) = None
      /\ exists resource,
           fromJSON d = inr resource
           /\ validate resource = None
           /\ snd (setData d i) = mkInstance Data Resource (Some d) (Some resource)).
Proof.
  unfold TemplateInstance.setData.
  destruct (negb _); [left; split; [discriminate|reflexivity]|].
  destruct (fromJSON d) as [e|resource]; [left; split; [discriminate|reflexivity]|].
  destruct (validate resource) eqn:V; [left; split; [discriminate|reflexivity]|].
  right. split; [reflexivity|]. now exists resource.
Qed.

(** An instance whose data was never set: every [setData] so far threw. *)
Lemma setAll_never_set (ds : list Data) :
  forall i, forallb (fun r => match r with Some _ => true | None => false end)
                    (fst (setAll ds i)) = true ->
            snd (setAll ds i) = i.
Proof.
  induction ds as [|d ds IH]; intros i H; [reflexivity|].
  cbn [TemplateInstance.setAll] in *.
  destruct (setData_cases d i) as [[T E]|[T _]];
    destruct (setData d i) as [r i']; cbn [fst snd] in *.
  - subst i'. specialize (IH i).
    destruct (setAll ds i) as [rs i'']. cbn [fst snd forallb] in *.
    apply andb_true_iff in H. now apply IH.
  - subst r. destruct (setAll ds i') as [rs i'']. cbn in H. discriminate.
Qed.

(** *** Drafting *)

(** C9, as the code has it.  Before any [setData] has succeeded, [draft]
    throws without calling a transformer.  Once the data is set, [draft]
    drafts the CiceroMark document and renders it by the [format] option:
    a format that is absent or falsy, the empty string among them, gives
    the markdown text; ["ciceromark_parsed"] the document itself; ["html"]
    the HTML text; ["slate"] the Slate document; every other format, all
    of which are truthy, the error that names it.  An exception of a
    transformer is passed on. *)
Theorem draft_renders_by_format
    (options : option Options) (i : Instance) (resource : Resource) :
  concertoData Data Resource i = Some resource ->
  let format := match options with Some o => format o | None => PNull end in
  let drafted := draftCiceroMark (getData Data Resource i) parserManager templateKind in
  (truthy format = false ->
   draft options i
   = andThen drafted (fun ciceroMark =>
     andThen (unquoteIf options ciceroMark) (fun unquoted =>
     andThen (toCiceroMarkUnwrapped unquoted) (fun unwrapped =>
     andThen (toMarkdownCicero unwrapped) (fun text =>
       inr (Text CiceroMark Slate text))))))
  /\ (format = PStr "ciceromark_parsed" ->
      draft options i
      = andThen drafted (fun ciceroMark =>
          inr (Document CiceroMark Slate ciceroMark)))
  /\ (format = PStr "html" ->
      draft options i
      = andThen drafted (fun ciceroMark =>
        andThen (unquoteIf options ciceroMark) (fun unquoted =>
        andThen (toHtml unquoted) (fun text => inr (Text CiceroMark Slate text)))))
  /\ (format = PStr "slate" ->
      draft options i
      = andThen drafted (fun ciceroMark =>
        andThen (unquoteIf options ciceroMark) (fun unquoted =>
        andThen (slateFromCiceroMark unquoted) (fun d =>
          inr (SlateDocument CiceroMark Slate d)))))
  /\ (truthy format = true ->
      format <> PStr "ciceromark_parsed" ->
      format <> PStr "html" ->
      format <> PStr "slate" ->
      draft options i
      = andThen drafted (fun _ =>
          inl (Error ("Unsupported format: " +:+ toString format))))
  /\ (forall ds,
         forallb (fun r => match r with Some _ => true | None => false end)
                 (fst (setAll ds (newInstance Data Resource))) = true ->
         draft options (snd (setAll ds (newInstance Data Resource)))
         = inl (Error "Data has not been set. Call setData or parse before calling this method.")).
Proof.
  intros C format drafted.
  assert (draft options i
          = andThen drafted (fun ciceroMark => formatCiceroMark ciceroMark options))
    as E.
  { unfold TemplateInstance.draft, andThen. rewrite C. fold drafted.
    now destruct drafted. }
  rewrite E. unfold andThen. unfold TemplateInstance.formatCiceroMark. fold format.
  split; [|split; [|split; [|split; [|split]]]].
  - intros T. rewrite T. cbn [negb]. destruct drafted as [|ciceroMark]; [reflexivity|].
    destruct (unquoteIf options ciceroMark); [reflexivity|].
    destruct (toCiceroMarkUnwrapped _); [reflexivity|].
    destruct (toMarkdownCicero _); reflexivity.
  - intros ->. reflexivity.
  - intros ->. cbn. destruct drafted as [|ciceroMark]; [reflexivity|].
    destruct (unquoteIf options ciceroMark); [reflexivity|].
    destruct (toHtml _); reflexivity.
  - intros ->. cbn. destruct drafted as [|ciceroMark]; [reflexivity|].
    destruct (unquoteIf options ciceroMark); [reflexivity|].
    destruct (slateFromCiceroMark _); reflexivity.
  - intros T N1 N2 N3. rewrite T. cbn [negb].
    assert (forall lit, format <> PStr lit -> isStr lit format = false) as S.
    { intros lit N. destruct format as [| | | |x]; try reflexivity. cbn.
      apply String.eqb_neq. congruence. }
    now rewrite (S _ N1), (S _ N2), (S _ N3).
  - intros ds H. rewrite (setAll_never_set ds _ H). reflexivity.
Qed.

(** *** Identity *)

(** C10. The identifier of an instance is the identifier of its template
    while no data is set, that is on a fresh instance and as long as every
    [setData] has thrown; once data is set it is that identifier, a
    hyphen, and the hexadecimal SHA-256 digest of the JSON text of the
    data.  Two instances of the template whose data have the same JSON
    text have the same identifier. *)
Theorem getIdentifier_hashes_data (i : Instance) :
  (data Data Resource i = None -> getIdentifier i = templateIdentifier)
  /\ (forall d, data Data Resource i = Some d ->
                getIdentifier i
                = templateIdentifier +:+ "-" +:+ sha256Hex (stringify d))
  /\ (forall ds,
         forallb (fun r => match r with Some _ => true | None => false end)
                 (fst (setAll ds (newInstance Data Resource))) = true ->
         getIdentifier (snd (setAll ds (newInstance Data Resource)))
         = templateIdentifier)
  /\ (forall d i', setData d i = (None, i') ->
                   getIdentifier i'
                   = templateIdentifier +:+ "-" +:+ sha256Hex (stringify d))
  /\ (forall i' d d',
         data Data Resource i = Some d -> data Data Resource i' = Some d' ->
         stringify d = stringify d' ->
         getIdentifier i = getIdentifier i').
Proof.
  assert (templateIdentifier +:+ "" = templateIdentifier) as Empty.
  { induction templateIdentifier as [|c t IH]; cbn; congruence. }
  unfold TemplateInstance.getIdentifier.
  split; [|split; [|split; [|split]]].
  - intros ->. exact Empty.
  - intros d ->. reflexivity.
  - intros ds H. rewrite (setAll_never_set ds _ H). exact Empty.
  - intros d i' S. destruct (setData_cases d i) as [[T _]|[_ (r & _ & _ & E)]];
      rewrite S in *; cbn in *; [congruence|]. subst i'. reflexivity.
  - intros i' d d' -> -> E. now rewrite E.
Qed.

End Externals.

End InstanceFacts.

(** ** The manager and the instance on concrete calls *)

Module ObjectRuns.

Import JS Concerto Tdl Exn ParserManager Notions Examples.
Import ManagerFacts InstanceFacts.

(** A template text without a parse is rejected as an ambiguous one is. *)
Lemma buildGrammar_rejects_other_than_one_witness :
  Examples.feedTemplateGrammar "" = inr []
  /\ fst (Examples.buildGrammar "" built) = Some (Error "Ambiguous parse!")
  /\ grammarAst string (snd (Examples.buildGrammar "" built)) = Some "main -> rule".
Proof.
  split; [reflexivity|].
  destruct (buildGrammar_rejects_other_than_one
              string string string Examples.feedNearley Examples.compile
              Examples.generate Examples.evalModule Examples.roundtripMarkdown
              Examples.feedTemplateGrammar order (inr []) Examples.render
              Examples.uuid_v4 Examples.getClassDeclaration Examples.addGrammars
              Examples.buildFormatRules "" "" [] built eq_refl eq_refl
              ltac:(discriminate)) as (T & _ & A & _).
  split; [exact T|exact A].
Defined.

(** No parse and two parses: one error, of one kind and one message. *)
Lemma no_parse_thrown_as_ambiguous_parse :
  Examples.feedTemplateGrammar "" = inr []
  /\ Examples.feedTemplateGrammar "ambiguous"
     = inr [[Some (Chunk "ambiguous")]; [Some (LastChunk "ambiguous")]]
  /\ fst (Examples.buildGrammar "" built) = Some (Error "Ambiguous parse!")
  /\ fst (Examples.buildGrammar "ambiguous" built) = Some (Error "Ambiguous parse!").
Proof. repeat split. Qed.

(** Drafting the payment as HTML. *)
Lemma draft_renders_by_format_witness :
  TemplateInstance.concertoData Clause Clause payment
  = Some (mkClause "org.acme.Payment" 42)
  /\ Examples.draft (Some (TemplateInstance.mkOptions (PStr "html") PUndefined)) payment
     = inr (TemplateInstance.Text string string "<p>Pay 42</p>").
Proof.
  split; [reflexivity|].
  apply (proj1 (proj2 (proj2 (draft_renders_by_format
                                Clause Clause string string unit
                                "org.acme.Payment" 1 tt Examples.fromJSON
                                Examples.validate Examples.classOf
                                Examples.stringify Examples.draftCiceroMark
                                Examples.transform Examples.transform
                                Examples.transform Examples.toHtml
                                Examples.transform
                                (Some (TemplateInstance.mkOptions (PStr "html") PUndefined))
                                payment (mkClause "org.acme.Payment" 42)
                                eq_refl))) eq_refl).
Defined.

(** The empty string is a format, is none of the three named formats, and
    is rendered as markdown. *)
Lemma empty_format_renders_markdown :
  Examples.draft (Some (TemplateInstance.mkOptions (PStr "") PUndefined)) payment
  = inr (TemplateInstance.Text string string "Pay 42")
  /\ Examples.draft (Some (TemplateInstance.mkOptions (PNum 0) PUndefined)) payment
     = inr (TemplateInstance.Text string string "Pay 42")
  /\ Examples.draft (Some (TemplateInstance.mkOptions (PStr "pdf") PUndefined)) payment
     = inl (Error "Unsupported format: pdf").
Proof. repeat split. Qed.

End ObjectRuns.

(** ** Static text, once more: what the literal looks like *)

Module LiteralFacts.

Import JS ParserManager Nearley Notions Observed CleanChunkFacts.

Lemma append_length (a b : string) :
  String.length (a +:+ b) = String.length a + String.length b.
Proof. induction a as [|c a IH]; cbn; [reflexivity|]. now rewrite IH. Qed.

Lemma escaped_no_line_feed (s : string) : occurrences newline (escaped s) = 0.
Proof.
  induction s as [|c s IH]; [reflexivity|]. cbn [escaped].
  destruct (Ascii.eqb c newline) eqn:En; [exact IH|].
  destruct (Ascii.eqb c dquote) eqn:Eq; [exact IH|].
  cbn [occurrences]. now rewrite En.
Qed.

Lemma escaped_length (s : string) :
  String.length (escaped s)
  = String.length s + occurrences newline s + occurrences dquote s.
Proof.
  induction s as [|c s IH]; [reflexivity|]. cbn [escaped occurrences String.length].
  destruct (Ascii.eqb c newline) eqn:En.
  - apply Ascii.eqb_eq in En. subst c.
    change (Ascii.eqb newline dquote) with false. cbn [String.length]. lia.
  - destruct (Ascii.eqb c dquote) eqn:Eq; cbn [String.length]; lia.
Qed.

Lemma escaped_quotes (s : string) :
  forall previous, quotesFollowBackslash previous (escaped s) = true.
Proof.
  induction s as [|c s IH]; intros previous; [reflexivity|]. cbn [escaped].
  destruct (Ascii.eqb c newline) eqn:En.
  - cbn [quotesFollowBackslash].
    change (Ascii.eqb backslash dquote) with false.
    change (Ascii.eqb "n" dquote) with false. cbn [negb orb andb]. apply IH.
  - destruct (Ascii.eqb c dquote) eqn:Eq.
    + cbn [quotesFollowBackslash].
      change (Ascii.eqb backslash dquote) with false.
      change (Ascii.eqb backslash backslash) with true.
      cbn [negb orb andb]. rewrite Bool.orb_true_r. apply IH.
    + cbn [quotesFollowBackslash]. rewrite Eq. cbn [negb orb andb]. apply IH.
Qed.

(** X1. The literal [cleanChunk] writes for a text is a pair of double quotes
    around a body that has no line feed, in which every double quote
    stands right after a backslash, and that is longer than the text by
    one character for each line feed and each double quote of the text. *)
Theorem cleanChunk_literal (s : string) :
  exists body,
    cleanChunk s = quoted body
    /\ occurrences newline body = 0
    /\ quotesFollowBackslash dquote body = true
    /\ String.length body
       = String.length s + occurrences newline s + occurrences dquote s.
Proof.
  exists (escaped s). split; [apply cleanChunk_escaped|].
  split; [apply escaped_no_line_feed|].
  split; [apply escaped_quotes|apply escaped_length].
Qed.

(** X2. A text free of backslashes and of control characters other than the
    line feed is read back unchanged from the literal [cleanChunk] writes
    for it, and two such texts with the same literal are the same text. *)
Theorem cleanChunk_read_back (s : string) :
  allPlain s = true ->
  readLiteral (cleanChunk s) = Some s
  /\ forall s', allPlain s' = true -> cleanChunk s' = cleanChunk s -> s' = s.
Proof.
  intros P. split; [now apply readLiteral_cleanChunk|].
  intros s' P' E.
  pose proof (readLiteral_cleanChunk s' P') as R'.
  rewrite E, (readLiteral_cleanChunk s P) in R'. now inversion R'.
Qed.

End LiteralFacts.

(** ** The two loops over the nodes of a level *)

Module LevelFacts.

Import JS Concerto Tdl Exn ParserManager Notions Observed BindingFacts.

(** X3. [findFirstBinding] returns -1 exactly when no node of the array binds
    the property, and otherwise the index, within the array, of the first
    node that does; null entries and nodes that are no bindings are
    passed over. *)
Theorem findFirstBinding_index (name : string) (data : ast) :
  (findFirstBinding name data = (-1)%Z <-> Unbound name data)
  /\ (forall i : nat,
         findFirstBinding name data = Z.of_nat i
         <-> exists e, FirstBindingAt name data i e)
  /\ (-1 <= findFirstBinding name data < Z.of_nat (List.length data))%Z.
Proof.
  split; [symmetry; apply findFirstBinding_none|]. split.
  - intros i. split.
    + intros H.
      destruct (findFirstBinding_cases name data) as [[H' _]|(i' & e & H' & F)].
      * rewrite H' in H. lia.
      * rewrite H' in H. apply Nat2Z.inj in H. subst i'. now exists e.
    + intros [e F]. now apply findFirstBinding_first with (e := e).
  - destruct (findFirstBinding_cases name data) as [[H _]|(i & e & H & F)];
      rewrite H; [lia|].
    destruct F as (N & _).
    assert (i < List.length data) by (apply nth_error_Some; congruence). lia.
Qed.

Lemma append_inj_l (a x y : string) : a +:+ x = a +:+ y -> x = y.
Proof.
  induction a as [|c a IH]; cbn; intros H; [exact H|].
  inversion H. now apply IH.
Qed.

Lemma showZ_inj (x y : Z) : showZ x = showZ y -> x = y.
Proof.
  unfold showZ. intros H.
  assert (forall z, Z.to_int z <> Decimal.Pos Decimal.Nil
                    /\ Z.to_int z <> Decimal.Neg Decimal.Nil) as N.
  { intros [|p|p]; cbn; split; try discriminate; intros E; inversion E as [E'];
      now apply DecimalPos.Unsigned.to_uint_nonnil in E'. }
  destruct (N x) as [X1 X2], (N y) as [Y1 Y2].
  pose proof (NilZero.isi _ X1 X2) as Ix. pose proof (NilZero.isi _ Y1 Y2) as Iy.
  rewrite H, Iy in Ix. inversion Ix as [E].
  now apply DecimalZ.to_int_inj.
Qed.

Lemma showNat_inj (i j : nat) : showNat i = showNat j -> i = j.
Proof. unfold showNat. intros H. apply showZ_inj in H. lia. Qed.

Lemma symbolsFrom_kept (prefix : string) :
  forall data index,
    symbolsFrom index prefix data
    = map (fun i => prefix +:+ showNat i) (keptFrom index data).
Proof.
  induction data as [|x rest IH]; intros index; [reflexivity|].
  cbn [symbolsFrom keptFrom]. destruct (hasRule x); cbn [map]; now rewrite IH.
Qed.

Lemma keptFrom_In :
  forall data index i,
    In i (keptFrom index data)
    <-> exists j x, i = index + j /\ nth_error data j = Some x /\ hasRule x = true.
Proof.
  induction data as [|y rest IH]; intros index i.
  - split; [intros []|]. intros ([|j] & x & _ & N & _); discriminate.
  - cbn [keptFrom].
    assert (In i (keptFrom (S index) rest)
            <-> exists j x, i = index + S j /\ nth_error rest j = Some x
                            /\ hasRule x = true) as Rest.
    { rewrite IH. split; intros (j & x & E & R); exists j, x; (split; [lia|exact R]). }
    destruct (hasRule y) eqn:H.
    + split.
      * intros [E|I].
        -- exists 0, y. split; [lia|]. now split.
        -- apply Rest in I. destruct I as (j & x & E & N & R).
           exists (S j), x. now split.
      * intros ([|j] & x & E & N & R).
        -- left. lia.
        -- right. apply Rest. now exists j, x.
    + rewrite Rest. split.
      * intros (j & x & E & N & R). exists (S j), x. now split.
      * intros ([|j] & x & E & N & R).
        -- inversion N. subst. congruence.
        -- now exists j, x.
Qed.

Lemma keptFrom_sorted :
  forall data index,
    Sorted.StronglySorted lt (keptFrom index data)
    /\ Forall (fun i => index <= i) (keptFrom index data).
Proof.
  induction data as [|x rest IH]; intros index; [split; constructor|].
  cbn [keptFrom]. destruct (IH (S index)) as [Sorted F].
  assert (Forall (fun i => index <= i) (keptFrom (S index) rest)) as F'.
  { eapply Forall_impl; [|exact F]. cbn. intros; lia. }
  destruct (hasRule x); [|now split].
  split.
  - constructor; [exact Sorted|]. eapply Forall_impl; [|exact F]. cbn. intros; lia.
  - constructor; [lia|exact F'].
Qed.

Lemma StronglySorted_lt_NoDup (l : list nat) : Sorted.StronglySorted lt l -> NoDup l.
Proof.
  induction 1 as [|a l Sorted IH F]; constructor; [|exact IH].
  intros I. rewrite Forall_forall in F. specialize (F a I). lia.
Qed.

Lemma NoDup_map_injective {A B : Type} (f : A -> B) (l : list A) :
  (forall x y, f x = f y -> x = y) -> NoDup l -> NoDup (map f l).
Proof.
  intros Inj. induction 1 as [|a l N D IH]; cbn; constructor; [|exact IH].
  intros I. apply in_map_iff in I. destruct I as (x & E & I).
  apply Inj in E. now subst x.
Qed.

Section Externals.

Variable uuid_v4 : nat -> string.

(** X4. The symbols of the container rule of a level are the names
    [prefix + index] of the nodes that get a rule, by increasing index in
    [ast.data] and without a repetition.  A node gets a rule unless it is
    null or a [Chunk] of empty text; a [LastChunk] of empty text gets
    one. *)
Theorem container_rule_symbols
    (data : ast) (templateModel : ClassDeclaration) (prefix : string) (s : State) :
  let rule := containerRule uuid_v4 data templateModel prefix s in
  tr_symbols rule = map (fun i => prefix +:+ showNat i) (keptFrom 0 data)
  /\ (forall i, In i (keptFrom 0 data)
                <-> exists x, nth_error data i = Some x /\ hasRule x = true)
  /\ Sorted.StronglySorted lt (keptFrom 0 data)
  /\ NoDup (tr_symbols rule)
  /\ (forall x, hasRule x = false <-> x = None \/ x = Some (Chunk "")).
Proof.
  cbn [containerRule tr_symbols].
  split; [apply symbolsFrom_kept|]. split; [|split; [|split]].
  - intros i. rewrite keptFrom_In. split.
    + intros (j & x & E & R). cbn in E. subst j. now exists x.
    + intros (x & R). now exists i, x.
  - apply keptFrom_sorted.
  - rewrite symbolsFrom_kept. apply NoDup_map_injective.
    + intros i j E. apply append_inj_l in E. now apply showNat_inj.
    + apply StronglySorted_lt_NoDup, keptFrom_sorted.
  - intros [e|]; [|split; [now left|reflexivity]].
    destruct e as [v| | | | | | | | | | | |]; cbn [hasRule];
      try (split; [discriminate|intros [E|E]; discriminate]).
    destruct (String.eqb_spec v "") as [->|Ne]; cbn [negb].
    + split; [now right|reflexivity].
    + split; [discriminate|]. intros [E|E]; [discriminate|].
      inversion E. congruence.
Qed.

End Externals.

End LevelFacts.

(** ** What a compilation does to the accumulator and to the template *)

Module AccumulatorFacts.

Import JS Concerto Tdl Exn ParserManager Notions Observed.
Import CompilerFacts LevelFacts.

Section Externals.

Variable uuid_v4 : nat -> string.
Variable getClassDeclaration : string -> exn + ClassDeclaration.
Variable addGrammars : FormatParser -> list string -> list string.
Variable buildFormatRules : FormatParser -> string -> exn + list FormatRule.

#[local] Abbreviation handleFormatted :=
  (ParserManager.handleFormatted addGrammars buildFormatRules).
#[local] Abbreviation handleNested :=
  (ParserManager.handleNested getClassDeclaration).
#[local] Abbreviation handleList :=
  (ParserManager.handleList getClassDeclaration).
#[local] Abbreviation handleBinding :=
  (ParserManager.handleBinding getClassDeclaration addGrammars buildFormatRules).
#[local] Abbreviation compileNode :=
  (ParserManager.compileNode getClassDeclaration addGrammars buildFormatRules).
#[local] Abbreviation buildGrammarRulesWithin :=
  (ParserManager.buildGrammarRulesWithin uuid_v4 getClassDeclaration addGrammars
     buildFormatRules).
#[local] Abbreviation buildGrammarRules :=
  (ParserManager.buildGrammarRules uuid_v4 getClassDeclaration addGrammars
     buildFormatRules).

(** *** The five steps on the state *)

(** The compiler changes the state by five steps only: it pushes a text
    rule, pushes a model rule, replaces the grammars, raises the flag, and
    draws a uuid.  A preorder on states that holds across each of them
    holds across a compilation. *)
Section Steps.

Variable R : State -> State -> Prop.

Hypothesis R_refl : forall s, R s s.
Hypothesis R_trans : forall s1 s2 s3, R s1 s2 -> R s2 s3 -> R s1 s3.
Hypothesis R_pushTextRules : forall t s, R s (pushTextRules t s).
Hypothesis R_pushModelRule : forall r s, R s (pushModelRule r s).
Hypothesis R_setGrammars : forall g s, R s (setGrammars g s).
Hypothesis R_raise : forall s, R s (setErgoExpression true s).
Hypothesis R_takeUuid : forall s, R s (takeUuid s).

Lemma steps_enterLevel a m p s : R s (enterLevel uuid_v4 a m p s).
Proof.
  unfold enterLevel. destruct (getIdentifierFieldName m).
  - eapply R_trans; [apply R_pushTextRules|apply R_takeUuid].
  - apply R_pushTextRules.
Qed.

Lemma steps_pushFormatRules n f rules :
  forall t s, R s (snd (pushFormatRules n f rules t s)).
Proof.
  induction rules as [|r rules IH]; intros t s; cbn [pushFormatRules].
  - apply R_refl.
  - cbv zeta. destruct (existsb _ _).
    + apply IH.
    + eapply R_trans; [apply R_pushModelRule|apply IH].
Qed.

Lemma steps_handleFormatted r e p n s : R s (n_state (handleFormatted r e p n s)).
Proof.
  unfold ParserManager.handleFormatted.
  destruct (chooseFormat e p) as [x|[fp f]]; [apply R_refl|].
  destruct (buildFormatRules fp f); [apply R_setGrammars|].
  destruct (pushFormatRules _ _ _ _ _) as [t s2] eqn:E.
  eapply R_trans; [apply R_setGrammars|].
  eapply R_trans; [|apply R_pushModelRule].
  change s2 with (snd (t, s2)). rewrite <- E. apply steps_pushFormatRules.
Qed.

Lemma steps_handleNested b r e f p n s :
  (forall a m q s', R s' (o_state (b a m q s'))) ->
  R s (n_state (handleNested b r e f p n s)).
Proof.
  intros A. unfold ParserManager.handleNested.
  destruct (templateOf e) as [t|]; [|apply R_refl].
  destruct (getClassDeclaration _); [apply R_refl|].
  destruct (o_thrown _); [apply A|].
  eapply R_trans; [apply A|apply R_pushModelRule].
Qed.

Lemma steps_handleList b r e f p n s :
  (forall a m q s', R s' (o_state (b a m q s'))) ->
  R s (n_state (handleList b r e f p n s)).
Proof.
  intros A. unfold ParserManager.handleList.
  destruct (templateOf e) as [t|]; [|apply R_refl].
  destruct (getClassDeclaration _); [apply R_refl|].
  destruct (firstNestedTemplate e t) as [|first]; [apply R_refl|].
  destruct (o_thrown _); [apply A|].
  destruct (restNestedTemplate e _) as [|rest]; [apply A|].
  destruct (o_thrown _).
  - eapply R_trans; apply A.
  - eapply R_trans; [apply A|].
    eapply R_trans; [apply A|apply R_pushModelRule].
Qed.

Lemma steps_compileNode b m r e s :
  (forall a m' q s', R s' (o_state (b a m' q s'))) ->
  R s (n_state (compileNode b m r e s)).
Proof.
  intros A.
  assert (R s (n_state (handleBinding b m r e s))) as HB.
  { unfold ParserManager.handleBinding.
    destruct (fieldNameOf e); [|apply R_refl].
    destruct (getProperty m e); [apply R_refl|].
    destruct (_ || _); [apply steps_handleFormatted|].
    destruct (_ || _); [now apply steps_handleNested|].
    destruct (isListBinding e); [now apply steps_handleList|].
    apply R_pushModelRule. }
  destruct e; cbn [ParserManager.compileNode];
    try exact HB; try apply R_pushModelRule; try apply R_refl.
  - destruct (getProperty m _); [apply R_refl|].
    destruct (negb _); [apply R_refl|apply R_pushModelRule].
  - destruct (getProperty m _); [apply R_refl|].
    destruct (negb _); [apply R_refl|apply R_pushModelRule].
  - eapply R_trans; [apply R_raise|apply R_pushModelRule].
Qed.

Lemma steps_compileRules node prefix :
  (forall r e s, R s (n_state (node r e s))) ->
  forall data i s, R s (o_state (compileRules node i prefix data s)).
Proof.
  intros N. induction data as [|[e|] rest IH]; intros i s; cbn [compileRules].
  - apply R_refl.
  - destruct (hasRule (Some e)); [|apply IH].
    destruct (n_thrown _); [apply N|].
    eapply R_trans; [apply N|apply IH].
  - apply IH.
Qed.

Lemma steps_buildGrammarRulesWithin n :
  forall a m p s, R s (o_state (buildGrammarRulesWithin n a m p s)).
Proof.
  induction n as [|n IH]; intros a m p s; [apply R_refl|].
  cbn [ParserManager.buildGrammarRulesWithin].
  eapply R_trans; [apply steps_enterLevel|].
  apply steps_compileRules. intros r e s'. now apply steps_compileNode.
Qed.

Lemma steps_buildGrammarRules a m p s : R s (o_state (buildGrammarRules a m p s)).
Proof. apply steps_buildGrammarRulesWithin. Qed.

End Steps.

Lemma Advances_buildGrammarRules a m p s :
  Advances s (o_state (buildGrammarRules a m p s)).
Proof.
  apply steps_buildGrammarRules; unfold Advances; cbn; intros; try tauto;
    try (split; [lia|tauto]).
Qed.

(** X5. Whether it returns or throws, [buildGrammarRules] leaves every rule
    that was in [parts] where it was and only appends text rules and model
    rules after them; it never lowers the [ergoExpression] flag, and the
    uuid generator only moves on. *)
Theorem buildGrammarRules_only_appends
    (ast : ast) (templateModel : ClassDeclaration) (prefix : string) (s : State) :
  let after := o_state (buildGrammarRules ast templateModel prefix s) in
  (exists more, textRules (parts after) = textRules (parts s) ++ more)
  /\ (exists more, modelRules (parts after) = modelRules (parts s) ++ more)
  /\ uuids s <= uuids after
  /\ (ergoExpression s = true -> ergoExpression after = true).
Proof.
  cbv zeta.
  destruct (Appends_buildGrammarRules uuid_v4 getClassDeclaration addGrammars
              buildFormatRules ast templateModel prefix s) as [T M].
  destruct (Advances_buildGrammarRules ast templateModel prefix s) as [U E].
  auto.
Qed.

(** *** Every symbol of a container rule has its rule *)

(** The state [s'] has the model rules of [s], then more, and last a rule
    of prefix [rule]. *)
#[local] Abbreviation Defines rule s s' :=
  (exists between symbols,
      modelRules (parts s')
      = modelRules (parts s) ++ between ++ [mkModelRule rule symbols]).

Lemma defines_push rule symbols s s2 :
  Grows s s2 -> Defines rule s (pushModelRule (mkModelRule rule symbols) s2).
Proof.
  intros [_ [more M]]. exists more, symbols. cbn. rewrite M.
  now rewrite app_assoc.
Qed.

Lemma defines_finishBinding r e p n mutated ft t a s s2 :
  Grows s s2 -> Defines r s (n_state (finishBinding r e p n mutated ft t a s2)).
Proof.
  intros G. cbn [finishBinding n_state]. unfold bindingRule.
  destruct (isListBinding e); now apply defines_push.
Qed.

Lemma compileNode_defines b m r e s :
  Appends b ->
  n_thrown (compileNode b m r e s) = None ->
  Defines r s (n_state (compileNode b m r e s)).
Proof.
  intros A.
  assert (n_thrown (handleBinding b m r e s) = None ->
          Defines r s (n_state (handleBinding b m r e s))) as HB.
  { unfold ParserManager.handleBinding.
    destruct (fieldNameOf e) as [f|]; [|discriminate].
    destruct (getProperty m e) as [x|p]; [discriminate|].
    destruct (_ || _).
    { unfold ParserManager.handleFormatted.
      destruct (chooseFormat e p) as [x|[fp fm]]; [discriminate|].
      destruct (buildFormatRules fp fm); [discriminate|].
      destruct (pushFormatRules _ _ _ _ _) as [t s2] eqn:E. intros _.
      apply defines_finishBinding.
      eapply Grows_trans; [apply Grows_setGrammars|].
      change s2 with (snd (t, s2)). rewrite <- E. apply Grows_pushFormatRules. }
    destruct (_ || _).
    { unfold ParserManager.handleNested.
      destruct (templateOf e) as [t|]; [|discriminate].
      destruct (getClassDeclaration _); [discriminate|].
      destruct (o_thrown _); [discriminate|]. intros _.
      apply defines_finishBinding. apply A. }
    destruct (isListBinding e).
    { unfold ParserManager.handleList.
      destruct (templateOf e) as [t|]; [|discriminate].
      destruct (getClassDeclaration _); [discriminate|].
      destruct (firstNestedTemplate e t) as [|first]; [discriminate|].
      destruct (o_thrown _); [discriminate|].
      destruct (restNestedTemplate e _) as [|rest]; [discriminate|].
      destruct (o_thrown _); [discriminate|]. intros _.
      apply defines_finishBinding. eapply Grows_trans; apply A. }
    intros _. apply defines_finishBinding, Grows_refl. }
  destruct e; cbn [ParserManager.compileNode]; try exact HB;
    try (intros _; apply defines_push, Grows_refl); try discriminate.
  - destruct (getProperty m _); [discriminate|].
    destruct (negb _); [discriminate|]. intros _. apply defines_push, Grows_refl.
  - destruct (getProperty m _); [discriminate|].
    destruct (negb _); [discriminate|]. intros _. apply defines_push, Grows_refl.
  - intros _. apply defines_push, Grows_setErgoExpression.
Qed.

Lemma compileRules_defines node prefix :
  (forall r e s, Grows s (n_state (node r e s))) ->
  (forall r e s, n_thrown (node r e s) = None -> Defines r s (n_state (node r e s))) ->
  forall data i s,
    o_thrown (compileRules node i prefix data s) = None ->
    forall j, In j (keptFrom i data) ->
      exists rule,
        In rule (modelRules (parts (o_state (compileRules node i prefix data s))))
        /\ mr_prefix rule = prefix +:+ showNat j.
Proof.
  intros G D. induction data as [|[e|] rest IH]; intros i s T j I;
    cbn [compileRules keptFrom] in *.
  - destruct I.
  - destruct (hasRule (Some e)); [|now apply IH].
    destruct (n_thrown (node (prefix +:+ showNat i) e s)) eqn:N; [discriminate|].
    cbn [o_thrown o_state] in *. destruct I as [<-|I]; [|now apply IH].
    destruct (D _ _ _ N) as (between & symbols & M).
    destruct (Grows_compileRules node prefix G rest (S i) (n_state (node (prefix +:+ showNat i) e s)))
      as [_ [more M']].
    exists (mkModelRule (prefix +:+ showNat i) symbols). split; [|reflexivity].
    rewrite M', M. apply in_or_app. left. apply in_or_app. right.
    apply in_or_app. right. now left.
  - now apply IH.
Qed.

(** X6. When a level compiles, every symbol of its container rule is the
    prefix of a model rule the compilation has appended, so the generated
    grammar defines each symbol the container rule mentions.  The empty
    template compiles, to a container rule without symbols and no model
    rule. *)
Theorem container_rule_symbols_are_defined
    (ast : ast) (templateModel : ClassDeclaration) (prefix : string) (s : State) :
  o_thrown (buildGrammarRules ast templateModel prefix s) = None ->
  let after := o_state (buildGrammarRules ast templateModel prefix s) in
  (forall symbol,
      In symbol (tr_symbols (containerRule uuid_v4 ast templateModel prefix s)) ->
      exists rule, In rule (modelRules (parts after)) /\ mr_prefix rule = symbol)
  /\ buildGrammarRules [] templateModel prefix s
     = mkOutcome [] (enterLevel uuid_v4 [] templateModel prefix s) None
  /\ modelRules (parts (enterLevel uuid_v4 [] templateModel prefix s))
     = modelRules (parts s).
Proof.
  intros T after. split; [|split].
  - intros symbol I. cbn [containerRule tr_symbols] in I.
    rewrite symbolsFrom_kept in I. apply in_map_iff in I.
    destruct I as (j & <- & I). subst after.
    rewrite buildGrammarRules_unfold in *.
    apply compileRules_defines; try assumption.
    + intros r e s'. apply Grows_compileNode, Appends_buildGrammarRules.
    + intros r e s'. apply compileNode_defines, Appends_buildGrammarRules.
  - reflexivity.
  - unfold enterLevel. now destruct (getIdentifierFieldName templateModel).
Qed.

(** *** The template after a compilation *)

Lemma sameNode_refl e : sameNode e e.
Proof. now repeat split. Qed.

Lemma sameNode_withTemplate e t : sameNode e (withTemplate e t).
Proof. destruct e; repeat split; cbn; try reflexivity; discriminate. Qed.

Lemma sameEntry_refl (a : ast) : Forall2 sameEntry a a.
Proof.
  induction a as [|[e|] a IH]; constructor; try exact IH; [apply sameNode_refl|exact I].
Qed.

Lemma compileNode_sameNode b m r e s : sameNode e (n_element (compileNode b m r e s)).
Proof.
  assert (sameNode e (n_element (handleBinding b m r e s))) as HB.
  { unfold ParserManager.handleBinding.
    destruct (fieldNameOf e); [|apply sameNode_refl].
    destruct (getProperty m e); [apply sameNode_refl|].
    destruct (_ || _).
    { rewrite handleFormatted_element. apply sameNode_refl. }
    destruct (_ || _).
    { unfold ParserManager.handleNested.
      destruct (templateOf e); [|apply sameNode_refl].
      destruct (getClassDeclaration _); [apply sameNode_refl|].
      destruct (o_thrown _); apply sameNode_withTemplate. }
    destruct (isListBinding e); [|apply sameNode_refl].
    unfold ParserManager.handleList.
    destruct (templateOf e); [|apply sameNode_refl].
    destruct (getClassDeclaration _); [apply sameNode_refl|].
    destruct (firstNestedTemplate e _); [apply sameNode_refl|].
    destruct (o_thrown _); [apply sameNode_withTemplate|].
    destruct (restNestedTemplate e _); [apply sameNode_withTemplate|].
    destruct (o_thrown _); apply sameNode_withTemplate. }
  destruct e; cbn [ParserManager.compileNode]; try exact HB;
    try apply sameNode_refl.
  - destruct (getProperty m _); [apply sameNode_refl|].
    destruct (negb _); apply sameNode_refl.
  - destruct (getProperty m _); [apply sameNode_refl|].
    destruct (negb _); apply sameNode_refl.
Qed.

Lemma compileRules_sameEntry node prefix :
  (forall r e s, sameNode e (n_element (node r e s))) ->
  forall data i s, Forall2 sameEntry data (o_ast (compileRules node i prefix data s)).
Proof.
  intros N. induction data as [|[e|] rest IH]; intros i s; cbn [compileRules].
  - constructor.
  - destruct (hasRule (Some e)).
    + destruct (n_thrown _); cbn [o_ast]; constructor;
        try apply N; [apply sameEntry_refl|apply IH].
    + cbn [o_ast]. constructor; [apply sameNode_refl|apply IH].
  - cbn [o_ast]. constructor; [exact I|apply IH].
Qed.

Lemma buildGrammarRules_sameEntry a m p s :
  Forall2 sameEntry a (o_ast (buildGrammarRules a m p s)).
Proof.
  rewrite buildGrammarRules_unfold. apply compileRules_sameEntry.
  intros r e s'. apply compileNode_sameNode.
Qed.

Lemma Advances_compileRules m prefix data i s :
  Advances s (o_state (compileRules (compileNode buildGrammarRules m) i prefix data s)).
Proof.
  apply steps_compileRules.
  - intros s0. split; [lia|tauto].
  - intros s1 s2 s3 [U1 E1] [U2 E2]. split; [lia|tauto].
  - intros r e s'. apply steps_compileNode; unfold Advances; cbn; intros;
      try tauto; try (split; [lia|tauto]).
    apply Advances_buildGrammarRules.
Qed.

(** X7. Whether it returns or throws, [buildGrammarRules] leaves the array of
    the template with its length, its null entries, and the type and the
    field name of every node; a node without a nested template is left
    exactly as it was. *)
Theorem buildGrammarRules_keeps_nodes
    (ast : ast) (templateModel : ClassDeclaration) (prefix : string) (s : State) :
  let after := o_ast (buildGrammarRules ast templateModel prefix s) in
  List.length after = List.length ast
  /\ (forall i, nth_error ast i = Some None <-> nth_error after i = Some None)
  /\ (forall i e, nth_error ast i = Some (Some e) ->
        exists e', nth_error after i = Some (Some e')
                   /\ typeOf e' = typeOf e
                   /\ fieldNameOf e' = fieldNameOf e
                   /\ (templateOf e = None -> e' = e)).
Proof.
  cbv zeta.
  pose proof (buildGrammarRules_sameEntry ast templateModel prefix s) as F.
  revert F. generalize (o_ast (buildGrammarRules ast templateModel prefix s)).
  intros after F. split; [|split].
  - symmetry. eapply Forall2_length, F.
  - induction F as [|x y l l' S F IH]; intros [|i]; cbn; try tauto.
    + destruct x, y; cbn in S; try tauto; split; discriminate.
    + apply IH.
  - induction F as [|x y l l' S F IH]; intros [|i] e N; cbn in *; try discriminate.
    + inversion N. subst x. destruct y as [e'|]; [|destruct S].
      exists e'. split; [reflexivity|exact S].
    + now apply IH.
Qed.

End Externals.

End AccumulatorFacts.

(** ** What a compilation can throw *)

Module FailureFacts.

Import JS Concerto Tdl Exn ParserManager Notions Observed.
Import CompilerFacts.

Section Externals.

Variable uuid_v4 : nat -> string.
Variable getClassDeclaration : string -> exn + ClassDeclaration.
Variable addGrammars : FormatParser -> list string -> list string.
Variable buildFormatRules : FormatParser -> string -> exn + list FormatRule.

#[local] Abbreviation handleFormatted :=
  (ParserManager.handleFormatted addGrammars buildFormatRules).
#[local] Abbreviation handleNested :=
  (ParserManager.handleNested getClassDeclaration).
#[local] Abbreviation handleList :=
  (ParserManager.handleList getClassDeclaration).
#[local] Abbreviation handleBinding :=
  (ParserManager.handleBinding getClassDeclaration addGrammars buildFormatRules).
#[local] Abbreviation compileNode :=
  (ParserManager.compileNode getClassDeclaration addGrammars buildFormatRules).
#[local] Abbreviation buildGrammarRules :=
  (ParserManager.buildGrammarRules uuid_v4 getClassDeclaration addGrammars
     buildFormatRules).
#[local] Abbreviation Raised := (Observed.Raised getClassDeclaration buildFormatRules).

Lemma throw_raised (message : string) (e : element) :
  Raised (_throwTemplateExceptionForElement message e).
Proof.
  unfold _throwTemplateExceptionForElement.
  destruct (fieldNameOf e) as [f|]; [|constructor].
  constructor; cbn; [reflexivity|].
  destruct (valueOf e) as [v|]; [|cbn; lia].
  destruct (String.eqb_spec v "") as [->|N]; [cbn; lia|].
  destruct v; [congruence|cbn; lia].
Qed.

Lemma getProperty_raised (m : ClassDeclaration) (e : element) (f : token) (x : exn) :
  fieldNameOf e = Some f -> getProperty m e = inl x -> Raised x.
Proof.
  intros F. unfold getProperty. rewrite F.
  destruct (Concerto.getProperty m _); [discriminate|].
  intros H. inversion H. apply throw_raised.
Qed.

Lemma chooseFormat_raised (e : element) (p : Property) (x : exn) :
  (String.eqb (typeOf e) "FormattedBinding" || String.eqb (getType p) "DateTime") = true ->
  (String.eqb (typeOf e) "FormattedBinding" = true -> formatOf e <> None) ->
  chooseFormat e p = inl x -> Raised x.
Proof.
  intros K F. unfold chooseFormat.
  destruct (getType p =? "DateTime"); [discriminate|].
  rewrite Bool.orb_false_r in K. specialize (F K).
  destruct (formatOf e) as [fm|]; [|congruence].
  destruct (getType p =? "Double"); [discriminate|].
  destruct (getType p =? "MonetaryAmount"); [discriminate|].
  intros H. inversion H. apply throw_raised.
Qed.

Lemma handleBinding_raised b m r e s (f : token) (x : exn) :
  KeepsDepth b ->
  fieldNameOf e = Some f ->
  (String.eqb (typeOf e) "FormattedBinding" = true -> formatOf e <> None) ->
  ((String.eqb (typeOf e) "ClauseBinding" || String.eqb (typeOf e) "WithBinding") = true
   -> templateOf e <> None) ->
  (isListBinding e = true -> templateOf e <> None) ->
  (forall t, templateOf e = Some t ->
     forall a m' p s' y, depthAst a <= depthAst t ->
       o_thrown (b a m' p s') = Some y -> Raised y) ->
  n_thrown (handleBinding b m r e s) = Some x -> Raised x.
Proof.
  intros K F Fm Tn Tl N. unfold ParserManager.handleBinding. rewrite F.
  destruct (getProperty m e) as [y|p] eqn:G.
  { intros H. inversion H. subst. now apply (getProperty_raised m e f). }
  destruct ((typeOf e =? "FormattedBinding") || (getType p =? "DateTime")) eqn:Kind.
  { unfold ParserManager.handleFormatted.
    destruct (chooseFormat e p) as [y|[fp fm]] eqn:C.
    { intros H. inversion H. subst. now apply (chooseFormat_raised e p). }
    destruct (buildFormatRules fp fm) eqn:B.
    { intros H. inversion H. subst. exact (RaisedByFormatParser _ _ _ _ _ B). }
    destruct (pushFormatRules _ _ _ _ _). discriminate. }
  destruct ((typeOf e =? "ClauseBinding") || (typeOf e =? "WithBinding")) eqn:Nested.
  { unfold ParserManager.handleNested.
    destruct (templateOf e) as [t0|] eqn:T; [|now destruct (Tn eq_refl)].
    destruct (getClassDeclaration _) eqn:C.
    { intros H. inversion H. subst. exact (RaisedByIntrospector _ _ _ _ C). }
    destruct (o_thrown _) eqn:O; [|discriminate].
    intros H. inversion H. subst. apply (N t0 eq_refl) in O; [exact O|lia]. }
  destruct (isListBinding e) eqn:L; [|discriminate].
  unfold ParserManager.handleList.
  destruct (templateOf e) as [t0|] eqn:T; [|now destruct (Tl eq_refl)].
  destruct (getClassDeclaration _) eqn:C.
  { intros H. inversion H. subst. exact (RaisedByIntrospector _ _ _ _ C). }
  assert (forall y sep z, adjustListBlock y sep = inl z -> Raised z) as Adjust.
  { intros y sep z. unfold adjustListBlock.
    destruct y as [|[[]|] rest]; intros H; inversion H; constructor. }
  destruct (firstNestedTemplate e t0) as [|first] eqn:Fi.
  { intros H. inversion H. subst. revert Fi. unfold firstNestedTemplate.
    destruct (typeOf e =? "JoinBinding"); [discriminate|]. apply Adjust. }
  apply firstNestedTemplate_depth in Fi.
  destruct (o_thrown (b first c _ s)) eqn:O1.
  { intros H. inversion H. subst. apply (N t0 eq_refl) in O1; [exact O1|lia]. }
  destruct (restNestedTemplate e _) as [|rest] eqn:R.
  { intros H. inversion H. subst. revert R. unfold restNestedTemplate.
    destruct (typeOf e =? "JoinBinding"); apply Adjust. }
  apply restNestedTemplate_depth in R. rewrite K in R.
  destruct (o_thrown (b rest c _ _)) eqn:O2; [|discriminate].
  intros H. inversion H. subst. apply (N t0 eq_refl) in O2; [exact O2|lia].
Qed.

Lemma compileNode_raised b m r e s (x : exn) :
  KeepsDepth b ->
  (forall t, templateOf e = Some t ->
     forall a m' p s' y, depthAst a <= depthAst t ->
       o_thrown (b a m' p s') = Some y -> Raised y) ->
  n_thrown (compileNode b m r e s) = Some x -> Raised x.
Proof.
  intros K N.
  destruct e as [v|v|f fm|f fm|f si|f si se|f t|f t|f t|f t|f sep t|v|ty f v];
    cbn [ParserManager.compileNode]; try discriminate;
    try (apply (handleBinding_raised b m r _ s f x K); cbn;
         solve [reflexivity | discriminate | exact N]).
  - destruct (getProperty m _) as [y|p] eqn:G.
    { intros H. inversion H. subst. now apply (getProperty_raised m _ f) in G. }
    destruct (negb _); [|discriminate].
    intros H. inversion H. apply throw_raised.
  - destruct (getProperty m _) as [y|p] eqn:G.
    { intros H. inversion H. subst. now apply (getProperty_raised m _ f) in G. }
    destruct (negb _); [|discriminate].
    intros H. inversion H. apply throw_raised.
  - intros H. inversion H. apply throw_raised.
Qed.

Lemma compileRules_raised node prefix (P : exn -> Prop) :
  forall data,
    (forall e, In (Some e) data ->
       forall r s x, n_thrown (node r e s) = Some x -> P x) ->
    forall i s x, o_thrown (compileRules node i prefix data s) = Some x -> P x.
Proof.
  induction data as [|[e|] rest IH]; intros N i s x; cbn [compileRules].
  - discriminate.
  - assert (forall e', In (Some e') rest ->
              forall r s' y, n_thrown (node r e' s') = Some y -> P y) as N'.
    { intros e' I. apply N. now right. }
    destruct (hasRule (Some e)); [|apply (IH N')].
    destruct (n_thrown _) eqn:T.
    + cbn. intros H. inversion H. subst. eapply N; [now left|exact T].
    + apply (IH N').
  - apply IH. intros e' I. apply N. now right.
Qed.

(** X8. An exception [buildGrammarRules] ends with is one of five kinds: a
    [TemplateException] of component cicero-core for the file
    [text/grammar.tem.md] whose location lies on one line and spans at
    least one column; the error of a list block that does not start with
    text; the type error of an unrecognised node that has no field name
    to locate it by; an exception of the introspector; or an exception
    of a format parser. *)
Theorem buildGrammarRules_throws_one_of_five
    (ast : ast) (templateModel : ClassDeclaration) (prefix : string) (s : State)
    (thrown : exn) :
  o_thrown (buildGrammarRules ast templateModel prefix s) = Some thrown ->
  (exists message location,
      thrown = TemplateException message location "text/grammar.tem.md" "cicero-core"
      /\ startLine location = endLine location
      /\ startColumn location < endColumn location)
  \/ thrown = Error "List block in template should contain text"
  \/ thrown = TypeError "Cannot read properties of undefined (reading 'col')"
  \/ (exists name, getClassDeclaration name = inl thrown)
  \/ (exists parser format, buildFormatRules parser format = inl thrown).
Proof.
  intros T.
  assert (Raised thrown) as R.
  { remember (depthAst ast) as d eqn:D.
    assert (depthAst ast <= d) as Da by lia. clear D.
    revert ast templateModel prefix s thrown T Da.
    induction d as [d IH] using lt_wf_ind. intros a m p s x T Da.
    rewrite buildGrammarRules_unfold in T. revert T.
    apply compileRules_raised. intros e I r s' y.
    apply compileNode_raised; [apply buildGrammarRules_depth|].
    intros t Te a' m' p' s'' z Da' O.
    pose proof (depth_In _ _ I) as De. rewrite (templateOf_depth _ _ Te) in De.
    apply (IH (depthAst t)) in O; [exact O|lia|lia]. }
  destruct R as [message location L C| | |name|parser format].
  - left. now exists message, location.
  - right. now left.
  - right. right. now left.
  - right. right. right. left. now exists name.
  - right. right. right. right. now exists parser, format.
Qed.

End Externals.

End FailureFacts.

(** ** List blocks, expressions and format rules *)

Module BlockFacts.

Import JS Concerto Tdl Exn ParserManager Notions Observed.
Import CompilerFacts AccumulatorFacts.

Lemma templateOf_usesExpr (e : element) (t : ast) :
  templateOf e = Some t -> usesExpr e = usesExprAst t.
Proof. destruct e; cbn; intros H; inversion H; reflexivity. Qed.

Lemma withTemplate_usesExpr (e : element) (t t' : ast) :
  templateOf e = Some t -> usesExpr (withTemplate e t') = usesExprAst t'.
Proof. destruct e; cbn; intros H; inversion H; reflexivity. Qed.

Lemma adjustListBlock_usesExpr (x y : ast) (sep : string) :
  adjustListBlock x sep = inr y -> usesExprAst y = usesExprAst x.
Proof.
  unfold adjustListBlock. destruct x as [|[[]|] rest]; intros H; inversion H.
  reflexivity.
Qed.



Section Externals.

Variable uuid_v4 : nat -> string.
Variable getClassDeclaration : string -> exn + ClassDeclaration.
Variable addGrammars : FormatParser -> list string -> list string.
Variable buildFormatRules : FormatParser -> string -> exn + list FormatRule.

#[local] Abbreviation handleFormatted :=
  (ParserManager.handleFormatted addGrammars buildFormatRules).
#[local] Abbreviation handleNested :=
  (ParserManager.handleNested getClassDeclaration).
#[local] Abbreviation handleList :=
  (ParserManager.handleList getClassDeclaration).
#[local] Abbreviation handleBinding :=
  (ParserManager.handleBinding getClassDeclaration addGrammars buildFormatRules).
#[local] Abbreviation compileNode :=
  (ParserManager.compileNode getClassDeclaration addGrammars buildFormatRules).
#[local] Abbreviation buildGrammarRulesWithin :=
  (ParserManager.buildGrammarRulesWithin uuid_v4 getClassDeclaration addGrammars
     buildFormatRules).
#[local] Abbreviation buildGrammarRules :=
  (ParserManager.buildGrammarRules uuid_v4 getClassDeclaration addGrammars
     buildFormatRules).

(** *** The text of a list block after its binding is compiled *)


(** *** The [ergoExpression] flag *)

(** [b] leaves a template without expressions without expressions, and
    leaves the flag as it found it on such a template. *)
#[local] Abbreviation Quiet b :=
  (forall a m p s,
      usesExprAst a = false ->
      usesExprAst (o_ast (b a m p s)) = false
      /\ ergoExpression (o_state (b a m p s)) = ergoExpression s).

Lemma flag_handleFormatted r e p n s :
  ergoExpression (n_state (handleFormatted r e p n s)) = ergoExpression s.
Proof.
  apply (steps_handleFormatted addGrammars buildFormatRules
           (fun s s' => ergoExpression s' = ergoExpression s)); try reflexivity.
  intros s1 s2 s3 E1 E2. congruence.
Qed.

Lemma quiet_compileNode (b : Build) m r e s :
  Quiet b ->
  usesExpr e = false ->
  usesExpr (n_element (compileNode b m r e s)) = false
  /\ ergoExpression (n_state (compileNode b m r e s)) = ergoExpression s.
Proof.
  intros Q U.
  assert (usesExpr (n_element (handleBinding b m r e s)) = false
          /\ ergoExpression (n_state (handleBinding b m r e s)) = ergoExpression s) as HB.
  { unfold ParserManager.handleBinding.
    destruct (fieldNameOf e) as [f|]; [|now split].
    destruct (getProperty m e) as [x|p]; [now split|].
    destruct ((typeOf e =? "FormattedBinding") || (getType p =? "DateTime")).
    { rewrite handleFormatted_element. split; [exact U|apply flag_handleFormatted]. }
    destruct ((typeOf e =? "ClauseBinding") || (typeOf e =? "WithBinding")).
    { unfold ParserManager.handleNested.
      destruct (templateOf e) as [t|] eqn:T; [|now split].
      destruct (getClassDeclaration _) as [x|nested]; [now split|].
      rewrite (templateOf_usesExpr _ _ T) in U.
      destruct (Q t nested (tvalue f) s U) as [Q1 Q2].
      destruct (o_thrown _); cbn [n_element n_state finishBinding];
        rewrite (withTemplate_usesExpr _ _ _ T); now split. }
    destruct (isListBinding e); [|now split].
    unfold ParserManager.handleList.
    destruct (templateOf e) as [t|] eqn:T; [|now split].
    destruct (getClassDeclaration _) as [x|nested]; [now split|].
    rewrite (templateOf_usesExpr _ _ T) in U.
    destruct (firstNestedTemplate e t) as [x|first] eqn:Fi.
    { cbn. now rewrite (templateOf_usesExpr _ _ T). }
    assert (usesExprAst first = false) as U1.
    { revert Fi. unfold firstNestedTemplate.
      destruct (typeOf e =? "JoinBinding"); intros Fi;
        [inversion Fi; subst; exact U|].
      now rewrite (adjustListBlock_usesExpr _ _ _ Fi). }
    destruct (Q first nested (tvalue f +:+ "First") s U1) as [Q1 Q2].
    destruct (o_thrown (b first nested _ s)).
    { cbn [n_element n_state]. rewrite (withTemplate_usesExpr _ _ _ T). now split. }
    destruct (restNestedTemplate e _) as [x|second] eqn:R.
    { cbn [n_element n_state]. rewrite (withTemplate_usesExpr _ _ _ T). now split. }
    assert (usesExprAst second = false) as U2.
    { revert R. unfold restNestedTemplate.
      destruct (typeOf e =? "JoinBinding"); intros R;
        now rewrite (adjustListBlock_usesExpr _ _ _ R). }
    destruct (Q second nested (tvalue f)
                (o_state (b first nested (tvalue f +:+ "First") s)) U2) as [Q3 Q4].
    destruct (o_thrown (b second nested _ _));
      cbn [n_element n_state finishBinding];
      rewrite (withTemplate_usesExpr _ _ _ T); (split; [exact Q3|]);
      unfold pushModelRule; cbn [ergoExpression]; congruence. }
  destruct e; cbn [ParserManager.compileNode]; try exact HB;
    try (now split); try discriminate.
  - destruct (getProperty m _); [now split|]. destruct (negb _); now split.
  - destruct (getProperty m _); [now split|]. destruct (negb _); now split.
Qed.

Lemma quiet_compileRules (node : string -> element -> State -> NodeOutcome) prefix :
  (forall r e s, usesExpr e = false ->
     usesExpr (n_element (node r e s)) = false
     /\ ergoExpression (n_state (node r e s)) = ergoExpression s) ->
  forall data i s,
    usesExprAst data = false ->
    usesExprAst (o_ast (compileRules node i prefix data s)) = false
    /\ ergoExpression (o_state (compileRules node i prefix data s)) = ergoExpression s.
Proof.
  intros N. induction data as [|[e|] rest IH]; intros i s U;
    cbn [compileRules]; [now split| |].
  - cbn [usesExprAst] in U. apply Bool.orb_false_iff in U. destruct U as [Ue Ur].
    destruct (hasRule (Some e)).
    + destruct (N (prefix +:+ showNat i) e s Ue) as [N1 N2].
      destruct (n_thrown _); cbn [o_ast o_state usesExprAst].
      * rewrite N1, Ur. now split.
      * destruct (IH (S i) (n_state (node (prefix +:+ showNat i) e s)) Ur) as [I1 I2].
        rewrite N1, I1. split; [reflexivity|congruence].
    + destruct (IH (S i) s Ur) as [I1 I2]. cbn [o_ast o_state usesExprAst].
      rewrite Ue, I1. now split.
  - cbn [usesExprAst] in U. destruct (IH (S i) s U) as [I1 I2].
    cbn [o_ast o_state usesExprAst]. now split.
Qed.

Lemma flag_enterLevel a m p s :
  ergoExpression (enterLevel uuid_v4 a m p s) = ergoExpression s.
Proof. unfold enterLevel. now destruct (getIdentifierFieldName m). Qed.

Lemma quiet_buildGrammarRulesWithin n : Quiet (buildGrammarRulesWithin n).
Proof.
  induction n as [|n IH]; intros a m p s U; [now split|].
  cbn [ParserManager.buildGrammarRulesWithin].
  destruct (quiet_compileRules (compileNode (buildGrammarRulesWithin n) m) p
              (fun r e s' => quiet_compileNode _ m r e s' IH)
              a 0 (enterLevel uuid_v4 a m p s) U) as [Q1 Q2].
  split; [exact Q1|]. now rewrite Q2, flag_enterLevel.
Qed.

Lemma quiet_buildGrammarRules a m p s :
  usesExprAst a = false ->
  usesExprAst (o_ast (buildGrammarRules a m p s)) = false
  /\ ergoExpression (o_state (buildGrammarRules a m p s)) = ergoExpression s.
Proof. apply quiet_buildGrammarRulesWithin. Qed.

(** X10. A compilation raises the [ergoExpression] flag for an [Expr] node and
    for nothing else.  On a template that has no [Expr] node at any depth
    the flag is left as it was, whether the compilation returns or
    throws; when a level with an [Expr] node among its nodes compiles,
    the flag is set. *)
Theorem expr_node_raises_the_flag
    (ast : ast) (templateModel : ClassDeclaration) (prefix : string) (s : State) :
  let after := o_state (buildGrammarRules ast templateModel prefix s) in
  (usesExprAst ast = false -> ergoExpression after = ergoExpression s)
  /\ (o_thrown (buildGrammarRules ast templateModel prefix s) = None ->
      forall v, In (Some (Expr v)) ast -> ergoExpression after = true).
Proof.
  cbv zeta. split.
  - intros U. now apply quiet_buildGrammarRules.
  - intros T v I. apply in_split in I. destruct I as (pre & post & ->).
    rewrite buildGrammarRules_unfold in *. rewrite compileRules_app in *.
    cbv zeta in *.
    destruct (o_thrown (compileRules _ 0 prefix pre _)); [discriminate|].
    cbn [compileRules hasRule ParserManager.compileNode n_thrown n_state
         o_state o_thrown] in *.
    apply Advances_compileRules. reflexivity.
Qed.

(** *** What is thrown does not depend on the accumulator *)

(** X11. What [buildGrammarRules] throws, and the template it leaves, are
    decided by the template and the model: they are the same for every
    prefix and for every state of [parts], of the flag and of the uuid
    generator the compilation starts from. *)
Theorem outcome_is_decided_by_template_and_model
    (ast : ast) (templateModel : ClassDeclaration) (prefix prefix' : string)
    (s s' : State) :
  o_thrown (buildGrammarRules ast templateModel prefix s)
  = o_thrown (buildGrammarRules ast templateModel prefix' s')
  /\ o_ast (buildGrammarRules ast templateModel prefix s)
     = o_ast (buildGrammarRules ast templateModel prefix' s').
Proof.
  destruct (buildGrammarRules_pure uuid_v4 getClassDeclaration addGrammars
              buildFormatRules ast templateModel prefix prefix' s s') as [A T].
  now split.
Qed.

End Externals.

(** *** Format rules *)

Lemma existsb_count (name : string) (rules : list ModelRule) :
  existsb (fun rule => String.eqb (mr_prefix rule) name) rules
  = negb (Nat.eqb (countRules name rules) 0).
Proof.
  unfold countRules. induction rules as [|r rules IH]; [reflexivity|].
  cbn [existsb filter]. destruct (mr_prefix r =? name); [reflexivity|exact IH].
Qed.

Lemma last_cons_default {A : Type} (l : list A) (a d : A) :
  last (a :: l) d = last l a.
Proof.
  revert a d. induction l as [|x l IH]; intros a d; [reflexivity|].
  change (last (a :: x :: l) d) with (last (x :: l) d).
  rewrite IH. symmetry. apply IH.
Qed.

Lemma countRules_app (name : string) (a b : list ModelRule) :
  countRules name (a ++ b) = countRules name a + countRules name b.
Proof. unfold countRules. now rewrite filter_app, length_app. Qed.

Lemma pushFormatRules_type (propertyName format : string) (formatRules : list FormatRule) :
  forall type s,
    fst (pushFormatRules propertyName format formatRules type s)
    = last (map fr_name formatRules) type.
Proof.
  induction formatRules as [|fr rest IH]; intros type s; [reflexivity|].
  cbn [pushFormatRules]. cbv zeta. rewrite IH. cbn [map].
  symmetry. apply last_cons_default.
Qed.

Lemma format_rules_text (propertyName format : string) (formatRules : list FormatRule) :
  forall type s,
    textRules (parts (snd (pushFormatRules propertyName format formatRules type s)))
    = textRules (parts s).
Proof.
  induction formatRules as [|fr rest IH]; intros type s; [reflexivity|].
  cbn [pushFormatRules]. cbv zeta. rewrite IH. now destruct (existsb _ _).
Qed.

(** X12. The loop over the format rules of a binding pushes a rule for every
    format rule whose name no model rule has yet, and none for a name
    that has one: afterwards a name among the format rules is the prefix
    of at least one model rule, and of exactly as many as before when it
    had one, and every other prefix has as many rules as before.  The
    type the binding goes on with is the name of the last format rule. *)
Theorem format_rules_are_pushed_once
    (propertyName format : string) (formatRules : list FormatRule)
    (type : string) (s : State) (name : string) :
  let after := snd (pushFormatRules propertyName format formatRules type s) in
  countRules name (modelRules (parts after))
  = (if existsb (fun formatRule => String.eqb (fr_name formatRule) name) formatRules
     then Nat.max 1 (countRules name (modelRules (parts s)))
     else countRules name (modelRules (parts s)))
  /\ fst (pushFormatRules propertyName format formatRules type s)
     = last (map fr_name formatRules) type
  /\ textRules (parts after) = textRules (parts s).
Proof.
  cbv zeta. revert type s.
  induction formatRules as [|fr rest IH]; intros type s; [now repeat split|].
  cbn [pushFormatRules existsb]. cbv zeta.
  match goal with |- context [pushFormatRules _ _ rest _ ?s1] =>
    destruct (IH (fr_name fr) s1) as (C & T & X);
    assert (countRules name (modelRules (parts s1))
            = (if fr_name fr =? name
               then Nat.max 1 (countRules name (modelRules (parts s)))
               else countRules name (modelRules (parts s)))
            /\ textRules (parts s1) = textRules (parts s)) as [C1 X1]
  end.
  { rewrite existsb_count.
    assert (forall symbols,
               countRules name [mkModelRule (fr_name fr) symbols]
               = if fr_name fr =? name then 1 else 0) as One.
    { intros symbols. unfold countRules. cbn. now destruct (fr_name fr =? name). }
    destruct (Nat.eqb_spec (countRules (fr_name fr) (modelRules (parts s))) 0)
      as [Z|NZ]; cbn [negb].
    - unfold pushModelRule. cbn [parts modelRules textRules].
      rewrite countRules_app, One. split; [|reflexivity].
      destruct (String.eqb_spec (fr_name fr) name) as [<-|Ne]; lia.
    - split; [|reflexivity].
      destruct (String.eqb_spec (fr_name fr) name) as [<-|Ne]; lia. }
  split; [|split].
  - rewrite C, C1.
    destruct (fr_name fr =? name), (existsb _ rest); cbn [orb]; lia.
  - rewrite T. cbn [map]. symmetry. apply last_cons_default.
  - now rewrite X, X1.
Qed.

End BlockFacts.

(** ** The rule of a node, kind by kind *)

Module NodeFacts.

Import JS Concerto Tdl Exn ParserManager Nearley Notions Observed.
Import CompilerFacts StructuralErrorFacts BlockFacts.

Section Externals.

Variable uuid_v4 : nat -> string.
Variable getClassDeclaration : string -> exn + ClassDeclaration.
Variable addGrammars : FormatParser -> list string -> list string.
Variable buildFormatRules : FormatParser -> string -> exn + list FormatRule.

#[local] Abbreviation handleBinding :=
  (ParserManager.handleBinding getClassDeclaration addGrammars buildFormatRules).
#[local] Abbreviation compileNode :=
  (ParserManager.compileNode getClassDeclaration addGrammars buildFormatRules).
#[local] Abbreviation buildGrammarRules :=
  (ParserManager.buildGrammarRules uuid_v4 getClassDeclaration addGrammars
     buildFormatRules).
#[local] Abbreviation Occurs := (Notions.Occurs getClassDeclaration).

(** X13. A formatted binding on a declared property that is neither a
    [DateTime], a [Double] nor a [MonetaryAmount] is rejected with a
    [TemplateException] located at the field-name token, before any rule
    is pushed for it; every template the node occurs in fails to compile,
    with this exception at its level when the nodes before it compile. *)
Theorem formatted_binding_needs_supported_type
    (enclosing : ClassDeclaration) (fieldName format : token) (property : Property) :
  Concerto.getProperty enclosing (tvalue fieldName) = Some property ->
  getType property <> "DateTime" ->
  getType property <> "Double" ->
  getType property <> "MonetaryAmount" ->
  let node := FormattedBinding fieldName format in
  let thrown :=
    TemplateException
      ("Formatted types are not currently supported for "
       +:+ getType property +:+ " properties.")
      (mkFileLocation (line fieldName) (col fieldName)
                      (line fieldName) (col fieldName + 1))
      "text/grammar.tem.md" "cicero-core" in
  (forall build rule s,
      compileNode build enclosing rule node s = mkNodeOutcome node s (Some thrown))
  /\ (forall model data,
         Occurs model data node enclosing ->
         forall prefix s, o_thrown (buildGrammarRules data model prefix s) <> None)
  /\ (forall pre post prefix s,
         o_thrown (buildGrammarRules pre enclosing prefix s) = None ->
         o_thrown (buildGrammarRules (pre ++ Some node :: post) enclosing prefix s)
         = Some thrown).
Proof.
  intros G D1 D2 D3 node thrown.
  assert (forall build rule s,
             compileNode build enclosing rule node s = mkNodeOutcome node s (Some thrown))
    as Node.
  { intros build rule s. subst node. cbn [ParserManager.compileNode].
    unfold ParserManager.handleBinding, getProperty. cbn [fieldNameOf].
    rewrite G. cbn [typeOf String.eqb Ascii.eqb Bool.eqb orb].
    unfold ParserManager.handleFormatted, chooseFormat.
    rewrite (eqb_neq_false _ _ D1), (eqb_neq_false _ _ D2), (eqb_neq_false _ _ D3).
    reflexivity. }
  split; [exact Node|]. split.
  - apply occurs_fails; [reflexivity|]. intros r s. now rewrite Node.
  - apply first_failure; [reflexivity|]. intros r s. now rewrite Node.
Qed.

(** X14. A node whose type is none of the twelve the compiler knows is
    rejected with a [TemplateException] that names the type and is located
    at the field-name token of the node, spanning the length of its value
    (one column when it has no value or an empty one).  When such a node
    has no field name, raising that exception fails itself, with a type
    error.  Either way every template the node occurs in fails to
    compile. *)
Theorem unrecognised_node_is_rejected
    (enclosing : ClassDeclaration) (type : string) (fieldName : token)
    (value : option string) :
  ~ In type knownTypes ->
  let width :=
    match value with
    | Some v => if String.eqb v "" then 1 else String.length v
    | None => 1
    end in
  let thrown :=
    TemplateException
      ("Unrecognized type " +:+ type)
      (mkFileLocation (line fieldName) (col fieldName)
                      (line fieldName) (col fieldName + width))
      "text/grammar.tem.md" "cicero-core" in
  (forall build rule s,
      compileNode build enclosing rule (Other type (Some fieldName) value) s
      = mkNodeOutcome (Other type (Some fieldName) value) s (Some thrown))
  /\ (forall build rule s,
         compileNode build enclosing rule (Other type None value) s
         = mkNodeOutcome (Other type None value) s
             (Some (TypeError "Cannot read properties of undefined (reading 'col')")))
  /\ (forall located model data,
         Occurs model data (Other type located value) enclosing ->
         forall prefix s, o_thrown (buildGrammarRules data model prefix s) <> None).
Proof.
  intros _ width thrown. split; [|split].
  - intros build rule s. cbn [ParserManager.compileNode].
    unfold _throwTemplateExceptionForElement. cbn [fieldNameOf valueOf].
    subst thrown width. destruct value as [v|]; [|reflexivity].
    destruct (v =? ""); reflexivity.
  - reflexivity.
  - intros located model data O. revert O. apply occurs_fails; [reflexivity|].
    intros r s. cbn [ParserManager.compileNode n_thrown]. discriminate.
Qed.

(** X15. A variable, that is a [Binding] node, on a declared property that is
    no [DateTime] gets one rule and leaves everything else as it was: the
    rule is the type of the property, or [String] when the property is a
    relationship, with [:*] for an array and [?] for an optional
    property, under the action that returns the value parsed. *)
Theorem variable_binding_rule
    (templateModel : ClassDeclaration) (rule : string) (fieldName : token)
    (format : option token) (property : Property) (s : State) :
  Concerto.getProperty templateModel (tvalue fieldName) = Some property ->
  getType property <> "DateTime" ->
  let node := Binding fieldName format in
  let type := if isRelationship property then "String" else getType property in
  (forall build,
      compileNode build templateModel rule node s
      = mkNodeOutcome node
          (pushModelRule
             (mkModelRule rule
                [type +:+ suffixOf property +:+ " {% id %}"
                 +:+ " # " +:+ tvalue fieldName]) s)
          None)
  /\ suffixOf property
     = (match isArray property, isOptional property with
        | false, false => ""
        | true, false => ":*"
        | false, true => ":?"
        | true, true => ":*?"
        end)
  /\ source Id = "{% id %}"
  /\ (forall v rest, run Id (v :: rest) = Some v).
Proof.
  intros G D node type. split; [|split; [|split]].
  - intros build. subst node. cbn [ParserManager.compileNode].
    unfold ParserManager.handleBinding, getProperty. cbn [fieldNameOf].
    rewrite G. cbn [typeOf String.eqb Ascii.eqb Bool.eqb orb isListBinding].
    rewrite (eqb_neq_false _ _ D). reflexivity.
  - unfold suffixOf. destruct (isArray property), (isOptional property); reflexivity.
  - reflexivity.
  - reflexivity.
Qed.

(** X16. A clause or with binding on a declared property that is no [DateTime]
    asks the introspector for the class of the property and compiles its
    template once for that class, under the field name as prefix.  What
    the introspector or the nested compilation throws, the node throws;
    otherwise the node gets, after the rules of its template, the rule
    that refers to the container rule of the template by the field name,
    with the cardinality suffix of the property. *)
Theorem nested_binding_compiles_its_template
    (templateModel : ClassDeclaration) (rule : string) (element : element)
    (fieldName : token) (template : ast) (property : Property) (s : State) :
  element = ClauseBinding fieldName template
  \/ element = WithBinding fieldName template ->
  Concerto.getProperty templateModel (tvalue fieldName) = Some property ->
  getType property <> "DateTime" ->
  let field := tvalue fieldName in
  let result := compileNode buildGrammarRules templateModel rule element s in
  (forall e, getClassDeclaration (getFullyQualifiedTypeName property) = inl e ->
             result = mkNodeOutcome element s (Some e))
  /\ (forall nested,
         getClassDeclaration (getFullyQualifiedTypeName property) = inr nested ->
         let inner := buildGrammarRules template nested field s in
         n_element result = withTemplate element (o_ast inner)
         /\ n_thrown result = o_thrown inner
         /\ (exists more,
                textRules (parts (n_state result))
                = textRules (parts s)
                  ++ containerRule uuid_v4 template nested field s :: more)
         /\ (o_thrown inner = None ->
             n_state result
             = pushModelRule
                 (mkModelRule rule
                    [field +:+ suffixOf property +:+ " {% id %}"
                     +:+ " # " +:+ field])
                 (o_state inner))).
Proof.
  intros K G D field result.
  assert (result
          = ParserManager.handleNested getClassDeclaration buildGrammarRules rule
              element fieldName property field s) as E.
  { subst result. destruct K as [-> | ->]; cbn [ParserManager.compileNode];
      unfold ParserManager.handleBinding, getProperty; cbn [fieldNameOf];
      rewrite G; cbn [typeOf String.eqb Ascii.eqb Bool.eqb orb];
      rewrite (eqb_neq_false _ _ D); reflexivity. }
  assert (templateOf element = Some template) as T
    by (destruct K as [-> | ->]; reflexivity).
  rewrite E. unfold ParserManager.handleNested. rewrite T. split.
  - intros e C. now rewrite C.
  - intros nested C. rewrite C.
    destruct (buildGrammarRules_container uuid_v4 getClassDeclaration addGrammars
                buildFormatRules template nested field s) as [more M].
    set (inner := buildGrammarRules template nested field s) in *.
    assert (isListBinding element = false) as L
      by (destruct K as [-> | ->]; reflexivity).
    destruct (o_thrown inner) as [x|] eqn:O; cbn [n_element n_thrown n_state finishBinding].
    + split; [reflexivity|]. split; [reflexivity|]. split; [now exists more|].
      discriminate.
    + split; [reflexivity|]. split; [reflexivity|]. unfold bindingRule. rewrite L.
      split; [now exists more|]. reflexivity.
Qed.

(** X17. A binding on a declared [DateTime] property is compiled as a date
    with a format, whatever the kind of the node: the format is the one
    the node gives, or ["MM/DD/YYYY"] in double quotes when it gives
    none, and the rules are those of the date format parser.  The
    template of a clause, with or list binding on such a property is not
    compiled, so no container rule is pushed and the node is left as it
    was; the rule of a list binding then starts with the word [null],
    where the rule of its first item would stand. *)
Theorem date_time_binding_is_formatted
    (templateModel : ClassDeclaration) (rule : string) (element : element)
    (fieldName : token) (property : Property) (s : State)
    (build : Build) :
  isHandled element = true ->
  fieldNameOf element = Some fieldName ->
  Concerto.getProperty templateModel (tvalue fieldName) = Some property ->
  getType property = "DateTime" ->
  let format :=
    match formatOf element with
    | Some format => tvalue format
    | None => quoted "MM/DD/YYYY"
    end in
  let result := compileNode build templateModel rule element s in
  n_element result = element
  /\ textRules (parts (n_state result)) = textRules (parts s)
  /\ (forall e, buildFormatRules DateTimeFormatParser format = inl e ->
                result
                = mkNodeOutcome element
                    (setGrammars (addGrammars DateTimeFormatParser (grammars (parts s))) s)
                    (Some e))
  /\ (forall formatRules,
         buildFormatRules DateTimeFormatParser format = inr formatRules ->
         n_thrown result = None
         /\ exists between,
              modelRules (parts (n_state result))
              = modelRules (parts s) ++ between
                ++ [mkModelRule rule
                      [(if isListBinding element then "null " else "")
                       +:+ last (map fr_name formatRules) "DateTime"
                       +:+ suffixOf property +:+ " {% id %}"
                       +:+ " # " +:+ tvalue fieldName]]).
Proof.
  intros H F G D format result.
  assert (result
          = ParserManager.handleFormatted addGrammars buildFormatRules rule element
              property (tvalue fieldName) s) as E.
  { subst result.
    assert (handleBinding build templateModel rule element s
            = ParserManager.handleFormatted addGrammars buildFormatRules rule element
                property (tvalue fieldName) s) as HB.
    { unfold ParserManager.handleBinding, getProperty. rewrite F, G, D.
      cbn [String.eqb Ascii.eqb Bool.eqb]. now rewrite Bool.orb_true_r. }
    destruct element; try discriminate; exact HB. }
  rewrite E. unfold ParserManager.handleFormatted, chooseFormat. rewrite D.
  cbn [String.eqb Ascii.eqb Bool.eqb]. fold format.
  set (s1 := setGrammars (addGrammars DateTimeFormatParser (grammars (parts s))) s).
  destruct (buildFormatRules DateTimeFormatParser format) as [x|formatRules].
  - split; [reflexivity|]. split; [reflexivity|]. split.
    + intros e X. now inversion X.
    + intros formatRules X. discriminate.
  - pose proof (pushFormatRules_type (tvalue fieldName) format formatRules "DateTime" s1)
      as Ty.
    pose proof (Grows_pushFormatRules (tvalue fieldName) format formatRules "DateTime" s1)
      as [[moreT MT] [moreM MM]].
    pose proof (format_rules_text (tvalue fieldName) format formatRules "DateTime" s1)
      as Tx.
    destruct (pushFormatRules _ _ _ _ s1) as [t s2]. cbn [fst snd] in *.
    cbn [finishBinding n_element n_state n_thrown].
    split; [reflexivity|]. split; [exact Tx|]. split; [discriminate|].
    intros rules X. inversion X. subst rules. split; [reflexivity|].
    exists moreM. unfold pushModelRule. cbn [parts modelRules].
    rewrite MM. cbn [parts modelRules setGrammars s1]. rewrite <- app_assoc.
    f_equal. f_equal. unfold bindingRule. rewrite Ty.
    destruct (isListBinding element); reflexivity.
Qed.

(** *** Templates without nested templates *)

Lemma compilesAlone_compileNode build m r e s :
  compilesAlone m e = true ->
  n_thrown (compileNode build m r e s) = None
  /\ n_element (compileNode build m r e s) = e
  /\ textRules (parts (n_state (compileNode build m r e s))) = textRules (parts s)
  /\ grammars (parts (n_state (compileNode build m r e s))) = grammars (parts s)
  /\ uuids (n_state (compileNode build m r e s)) = uuids s
  /\ exists symbol,
       modelRules (parts (n_state (compileNode build m r e s)))
       = modelRules (parts s) ++ [mkModelRule r [symbol]].
Proof.
  destruct e as [v|v|f fm|f fm|f si|f si se|f t|f t|f t|f t|f sep t|v|ty f v];
    cbn [compilesAlone]; try discriminate; cbn [ParserManager.compileNode].
  - intros _. repeat split. now eexists.
  - intros _. repeat split. now eexists.
  - unfold ParserManager.handleBinding, getProperty. cbn [fieldNameOf].
    destruct (Concerto.getProperty m (tvalue f)) as [p|]; [|discriminate].
    intros D. apply Bool.negb_true_iff in D.
    cbn [typeOf String.eqb Ascii.eqb Bool.eqb orb isListBinding]. rewrite D.
    repeat split. now eexists.
  - unfold getProperty. cbn [fieldNameOf].
    destruct (Concerto.getProperty m (tvalue f)) as [p|]; [|discriminate].
    intros B. rewrite B. cbn [negb]. repeat split. now eexists.
  - unfold getProperty. cbn [fieldNameOf].
    destruct (Concerto.getProperty m (tvalue f)) as [p|]; [|discriminate].
    intros B. rewrite B. cbn [negb]. repeat split. now eexists.
  - intros _. repeat split. now eexists.
Qed.

Lemma flat_compileRules build m prefix :
  forall data i s,
    flat m data = true ->
    let o := compileRules (compileNode build m) i prefix data s in
    o_thrown o = None
    /\ o_ast o = data
    /\ textRules (parts (o_state o)) = textRules (parts s)
    /\ grammars (parts (o_state o)) = grammars (parts s)
    /\ uuids (o_state o) = uuids s
    /\ exists rules,
         modelRules (parts (o_state o)) = modelRules (parts s) ++ rules
         /\ map mr_prefix rules = symbolsFrom i prefix data
         /\ Forall (fun rule => List.length (mr_symbols rule) = 1) rules.
Proof.
  induction data as [|[e|] rest IH]; intros i s Fl; cbv zeta; cbn [compileRules].
  - repeat split. exists []. now rewrite app_nil_r.
  - cbn [flat forallb] in Fl. apply andb_true_iff in Fl. destruct Fl as [Fe Fr].
    cbn [symbolsFrom]. destruct (hasRule (Some e)).
    + destruct (compilesAlone_compileNode build m (prefix +:+ showNat i) e s Fe)
        as (T & E & X & Gr & U & symbol & M).
      rewrite T.
      destruct (IH (S i) (n_state (compileNode build m (prefix +:+ showNat i) e s)) Fr)
        as (T' & E' & X' & Gr' & U' & rules & M' & P' & O').
      cbn [o_thrown o_ast o_state]. rewrite E, E'.
      split; [exact T'|]. split; [reflexivity|]. split; [congruence|].
      split; [congruence|]. split; [congruence|].
      exists (mkModelRule (prefix +:+ showNat i) [symbol] :: rules).
      split; [rewrite M', M, <- app_assoc; reflexivity|].
      split; [cbn; now rewrite P'|]. now constructor.
    + destruct (IH (S i) s Fr) as (T' & E' & X' & Gr' & U' & rules & M' & P' & O').
      cbn [o_thrown o_ast o_state]. rewrite E'.
      split; [exact T'|]. split; [reflexivity|]. split; [exact X'|].
      split; [exact Gr'|]. split; [exact U'|]. now exists rules.
  - cbn [flat forallb andb] in Fl.
    destruct (IH (S i) s Fl) as (T' & E' & X' & Gr' & U' & rules & M' & P' & O').
    cbn [o_thrown o_ast o_state symbolsFrom hasRule]. rewrite E'.
    split; [exact T'|]. split; [reflexivity|]. split; [exact X'|].
    split; [exact Gr'|]. split; [exact U'|]. now exists rules.
Qed.

(** X18. A template made of text, expressions, variables on declared
    properties that are no [DateTime], and conditionals on declared
    Boolean properties always compiles.  It is left as it was; its
    container rule is the one text rule pushed; and one model rule of one
    symbol is pushed for each symbol of the container rule, under that
    name and in that order.  The grammars are not touched, and a uuid is
    drawn exactly when the model has an identifier. *)
Theorem flat_template_compiles
    (data : ast) (templateModel : ClassDeclaration) (prefix : string) (s : State) :
  flat templateModel data = true ->
  let compiled := buildGrammarRules data templateModel prefix s in
  let rule := containerRule uuid_v4 data templateModel prefix s in
  o_thrown compiled = None
  /\ o_ast compiled = data
  /\ textRules (parts (o_state compiled)) = textRules (parts s) ++ [rule]
  /\ (exists rules,
         modelRules (parts (o_state compiled)) = modelRules (parts s) ++ rules
         /\ map mr_prefix rules = tr_symbols rule
         /\ Forall (fun rule => List.length (mr_symbols rule) = 1) rules)
  /\ grammars (parts (o_state compiled)) = grammars (parts s)
  /\ uuids (o_state compiled)
     = (match getIdentifierFieldName templateModel with
        | Some _ => S (uuids s)
        | None => uuids s
        end).
Proof.
  intros Fl. cbv zeta. rewrite buildGrammarRules_unfold.
  destruct (flat_compileRules buildGrammarRules templateModel prefix data 0
              (enterLevel uuid_v4 data templateModel prefix s) Fl)
    as (T & E & X & Gr & U & rules & M & P & O).
  split; [exact T|]. split; [exact E|]. rewrite X, Gr, U, M.
  unfold enterLevel.
  destruct (getIdentifierFieldName templateModel); cbn; repeat split;
    exists rules; auto.
Qed.

End Externals.

End NodeFacts.

(** ** The manager after [setGrammar] and [buildGrammar] *)

Module ManagerStateFacts.

Import JS Concerto Tdl Exn ParserManager Notions Observed.
Import ManagerFacts BlockFacts.

Section Externals.

Variable Compiled : Type.
Variable GrammarAst : Type.
Variable GrammarInfo : Type.
Variable feedNearley : string -> exn + list GrammarAst.
Variable compile : option GrammarAst -> exn + GrammarInfo.
Variable generate : GrammarInfo -> string.
Variable evalModule : string -> exn + Compiled.
Variable roundtripMarkdown : string -> exn + string.
Variable feedTemplateGrammar : string -> exn + list ast.
Variable getTemplateModel : ClassDeclaration.
Variable visitModelManager : exn + list ModelRule.
Variable render : Parts -> exn + string.
Variable uuid_v4 : nat -> string.
Variable getClassDeclaration : string -> exn + ClassDeclaration.
Variable addGrammars : FormatParser -> list string -> list string.
Variable buildFormatRules : FormatParser -> string -> exn + list FormatRule.

#[local] Abbreviation Manager := (ParserManager.Manager Compiled).
#[local] Abbreviation compileGrammar :=
  (ParserManager.compileGrammar Compiled GrammarAst GrammarInfo feedNearley compile
     generate evalModule).
#[local] Abbreviation setGrammar :=
  (ParserManager.setGrammar Compiled GrammarAst GrammarInfo feedNearley compile
     generate evalModule).
#[local] Abbreviation buildGrammar :=
  (ParserManager.buildGrammar Compiled GrammarAst GrammarInfo feedNearley compile
     generate evalModule roundtripMarkdown feedTemplateGrammar getTemplateModel
     visitModelManager render uuid_v4 getClassDeclaration addGrammars
     buildFormatRules).
#[local] Abbreviation buildGrammarRules :=
  (ParserManager.buildGrammarRules uuid_v4 getClassDeclaration addGrammars
     buildFormatRules).
#[local] Abbreviation getParser := (ParserManager.getParser Compiled).
#[local] Abbreviation getTemplateAst := (ParserManager.getTemplateAst Compiled).

(** X19. [setGrammar] replaces the grammar or leaves the manager with the one
    it had.  When the grammar text does not compile, the exception of the
    engine is thrown as it is and the grammar text, the compiled grammar,
    the template AST and the templatized grammar are those of before.
    When it compiles, the manager holds the text and its compiled form,
    [getParser] returns a parser of it, and [getTemplateAst] returns the
    template AST of before, null on a manager that never built one,
    without throwing. *)
Theorem setGrammar_replaces_or_keeps (text : string) (m : Manager) :
  let m' := snd (setGrammar text m) in
  templateAst Compiled m' = templateAst Compiled m
  /\ templatizedGrammar Compiled m' = templatizedGrammar Compiled m
  /\ m_ergoExpression Compiled m' = m_ergoExpression Compiled m
  /\ match compileGrammar text with
     | inl e =>
         fst (setGrammar text m) = Some e
         /\ grammar Compiled m' = grammar Compiled m
         /\ grammarAst Compiled m' = grammarAst Compiled m
     | inr g =>
         fst (setGrammar text m) = None
         /\ grammar Compiled m' = Some text
         /\ grammarAst Compiled m' = Some g
         /\ (exists p, fst (getParser m') = inr p /\ p_grammar Compiled p = g)
         /\ getTemplateAst m' = inr (templateAst Compiled m)
     end.
Proof.
  cbv zeta. unfold ParserManager.setGrammar.
  destruct (compileGrammar text) as [e|g]; cbn; repeat split.
  unfold ParserManager.getParser. cbn. eexists. split; reflexivity.
Qed.

(** X20. When every step of [buildGrammar] succeeds, the manager holds: as
    its grammar the text nunjucks rendered, from the text rules and the
    model rules of the template followed by the rules of the model; as
    compiled grammar the compiled form of that text; as templatized
    grammar the template text as the markdown round trip returned it, not
    as it was passed; as template AST the AST as the compilation left it;
    and as [ergoExpression] flag the flag of that compilation alone, which
    started from a lowered flag: on a template without an [Expr] node the
    flag is down whatever it was before. *)
Theorem buildGrammar_installs_the_grammar
    (text normalized combined : string) (ast : ast) (rules : list ModelRule)
    (g : Compiled) (m : Manager) :
  roundtripMarkdown text = inr normalized ->
  feedTemplateGrammar normalized = inr [ast] ->
  let compiled :=
    buildGrammarRules ast getTemplateModel "rule"
      (mkState (mkParts [] [] ["base"]) false (m_uuids Compiled m)) in
  o_thrown compiled = None ->
  visitModelManager = inr rules ->
  render (mkParts (textRules (parts (o_state compiled)))
                  (modelRules (parts (o_state compiled)) ++ rules)
                  (grammars (parts (o_state compiled))))
  = inr combined ->
  compileGrammar combined = inr g ->
  let m' := snd (buildGrammar text m) in
  fst (buildGrammar text m) = None
  /\ grammar Compiled m' = Some combined
  /\ grammarAst Compiled m' = Some g
  /\ templatizedGrammar Compiled m' = Some normalized
  /\ templateAst Compiled m' = Some (o_ast compiled)
  /\ getTemplateAst m' = inr (Some (o_ast compiled))
  /\ m_ergoExpression Compiled m' = ergoExpression (o_state compiled)
  /\ (usesExprAst ast = false -> m_ergoExpression Compiled m' = false).
Proof.
  intros R F compiled T V N C. cbv zeta.
  assert (usesExprAst ast = false -> ergoExpression (o_state compiled) = false) as Flag.
  { intros U.
    now destruct (quiet_buildGrammarRules uuid_v4 getClassDeclaration addGrammars
                    buildFormatRules ast getTemplateModel "rule"
                    (mkState (mkParts [] [] ["base"]) false (m_uuids Compiled m)) U). }
  unfold ParserManager.buildGrammar. rewrite R, F.
  cbn [List.length Nat.eqb negb nth_error allocate m_ergoExpression m_uuids
       grammar grammarAst templatizedGrammar templateAst m_allocated].
  fold compiled. rewrite T, V, N. unfold ParserManager.setGrammar. rewrite C.
  cbn. unfold ParserManager.getTemplateAst. cbn. repeat split. exact Flag.
Qed.

(** X21. A [buildGrammar] that throws leaves the grammar text, the compiled
    grammar and the templatized grammar of the manager as they were, so
    [getParser] goes on serving the grammar of before.  But when it is the
    compilation of the parsed template that throws, the manager already
    holds the AST of that template, as the compilation left it, and
    [getTemplateAst] returns it beside the grammar of before. *)
Theorem buildGrammar_failure_keeps_the_grammar (text : string) (m : Manager) :
  fst (buildGrammar text m) <> None ->
  let m' := snd (buildGrammar text m) in
  grammar Compiled m' = grammar Compiled m
  /\ grammarAst Compiled m' = grammarAst Compiled m
  /\ templatizedGrammar Compiled m' = templatizedGrammar Compiled m
  /\ (forall g, grammarAst Compiled m = Some g ->
        exists p, fst (getParser m') = inr p /\ p_grammar Compiled p = g)
  /\ (forall normalized ast e,
         roundtripMarkdown text = inr normalized ->
         feedTemplateGrammar normalized = inr [ast] ->
         let compiled :=
           buildGrammarRules ast getTemplateModel "rule"
             (mkState (mkParts [] [] ["base"]) false (m_uuids Compiled m)) in
         o_thrown compiled = Some e ->
         fst (buildGrammar text m) = Some e
         /\ templateAst Compiled m' = Some (o_ast compiled)
         /\ (forall g, grammarAst Compiled m = Some g ->
               getTemplateAst m' = inr (Some (o_ast compiled)))).
Proof.
  intros Failed. cbv zeta.
  assert (grammar Compiled (snd (buildGrammar text m)) = grammar Compiled m
          /\ grammarAst Compiled (snd (buildGrammar text m)) = grammarAst Compiled m
          /\ templatizedGrammar Compiled (snd (buildGrammar text m))
             = templatizedGrammar Compiled m) as (G & A & Z).
  { revert Failed. unfold ParserManager.buildGrammar.
    destruct (roundtripMarkdown text) as [e|text']; [now cbn|].
    destruct (feedTemplateGrammar text') as [e|results]; [now cbn|].
    destruct (negb _); [now cbn|].
    destruct (nth_error results 0) as [a|]; [|now cbn].
    destruct (o_thrown _); [now cbn|].
    destruct visitModelManager as [e|rules]; [now cbn|].
    destruct (render _) as [e|combined]; [now cbn|].
    unfold ParserManager.setGrammar.
    destruct (compileGrammar combined) as [e|g]; [now cbn|].
    cbn. congruence. }
  split; [exact G|]. split; [exact A|]. split; [exact Z|]. split.
  - intros g Ag. unfold ParserManager.getParser. rewrite A, Ag. cbn.
    eexists. split; reflexivity.
  - intros normalized ast e R F T.
    assert (fst (buildGrammar text m) = Some e
            /\ templateAst Compiled (snd (buildGrammar text m))
               = Some (o_ast (buildGrammarRules ast getTemplateModel "rule"
                                (mkState (mkParts [] [] ["base"]) false
                                         (m_uuids Compiled m))))) as [E TA].
    { unfold ParserManager.buildGrammar. rewrite R, F.
      cbn [List.length Nat.eqb negb nth_error allocate m_ergoExpression m_uuids].
      rewrite T. cbn. now split. }
    split; [exact E|]. split; [exact TA|].
    intros g Ag. unfold ParserManager.getTemplateAst. now rewrite A, Ag, TA.
Qed.

End Externals.

End ManagerStateFacts.

(** ** The data of an instance over its calls *)

Module InstanceStateFacts.

Import JS Exn Notions InstanceFacts.

Section Externals.

Variable Data : Type.
Variable Resource : Type.
Variable CiceroMark : Type.
Variable Slate : Type.
Variable ParserManager : Type.
Variable templateIdentifier : string.
Variable templateModelName : string.
Variable templateType : Z.
Variable parserManager : ParserManager.
Variable fromJSON : Data -> exn + Resource.
Variable validate : Resource -> option exn.
Variable classOf : Data -> prim.
Variable stringify : Data -> string.
Variable sha256Hex : string -> string.
Variable fromMarkdownCicero : string -> exn + CiceroMark.
Variable dataFromCiceroMark :
  option string -> CiceroMark -> ParserManager -> string -> exn + Data.
Variable draftCiceroMark : option Data -> ParserManager -> string -> exn + CiceroMark.
Variable unquote : CiceroMark -> exn + CiceroMark.
Variable toCiceroMarkUnwrapped : CiceroMark -> exn + CiceroMark.
Variable toMarkdownCicero : CiceroMark -> exn + string.
Variable toHtml : CiceroMark -> exn + string.
Variable slateFromCiceroMark : CiceroMark -> exn + Slate.

#[local] Abbreviation Instance := (TemplateInstance.Instance Data Resource).
#[local] Abbreviation newInstance := (TemplateInstance.newInstance Data Resource).
#[local] Abbreviation setData :=
  (TemplateInstance.setData Data Resource templateModelName fromJSON validate
     classOf stringify).
#[local] Abbreviation formatCiceroMark :=
  (TemplateInstance.formatCiceroMark CiceroMark Slate unquote toCiceroMarkUnwrapped
     toMarkdownCicero toHtml slateFromCiceroMark).
#[local] Abbreviation draft :=
  (TemplateInstance.draft Data Resource CiceroMark Slate ParserManager templateType
     parserManager draftCiceroMark unquote toCiceroMarkUnwrapped toMarkdownCicero
     toHtml slateFromCiceroMark).
#[local] Abbreviation getIdentifier :=
  (TemplateInstance.getIdentifier Data Resource templateIdentifier stringify
     sha256Hex).
#[local] Abbreviation templateKind := (TemplateInstance.templateKind templateType).
#[local] Abbreviation perform :=
  (InstanceCalls.perform Data Resource CiceroMark ParserManager templateModelName
     templateType parserManager fromJSON validate classOf stringify
     fromMarkdownCicero dataFromCiceroMark).
#[local] Abbreviation performAll :=
  (InstanceCalls.performAll Data Resource CiceroMark ParserManager templateModelName
     templateType parserManager fromJSON validate classOf stringify
     fromMarkdownCicero dataFromCiceroMark).
#[local] Abbreviation toJSON :=
  (InstanceCalls.toJSON Data Resource templateIdentifier).

(** The data an instance holds was accepted: its class is the model of
    the template, and the resource beside it is what the serializer made
    of it and validated. *)
#[local] Abbreviation Accepted i :=
  (match TemplateInstance.data Data Resource i,
         TemplateInstance.concertoData Data Resource i with
   | None, None => True
   | Some d, Some resource =>
       classOf d = PStr templateModelName
       /\ fromJSON d = inr resource
       /\ validate resource = None
   | _, _ => False
   end).

Lemma append_empty (a : string) : a +:+ "" = a.
Proof. induction a as [|c a IH]; cbn; congruence. Qed.

Lemma isStr_eq (lit : string) (p : prim) : isStr lit p = true -> p = PStr lit.
Proof.
  destruct p; cbn; try discriminate. intros E. apply String.eqb_eq in E. now subst.
Qed.

Lemma setData_outcome (d : Data) (i : Instance) :
  (fst (setData d i) <> None /\ snd (setData d i) = i)
  \/ (fst (setData d i) = None
      /\ exists resource,
           classOf d = PStr templateModelName
           /\ fromJSON d = inr resource
           /\ validate resource = None
           /\ snd (setData d i)
              = TemplateInstance.mkInstance Data Resource (Some d) (Some resource)).
Proof.
  unfold TemplateInstance.setData.
  destruct (isStr templateModelName (classOf d)) eqn:C; cbn [negb];
    [|left; split; [discriminate|reflexivity]].
  destruct (fromJSON d) as [e|resource]; [left; split; [discriminate|reflexivity]|].
  destruct (validate resource) eqn:V; [left; split; [discriminate|reflexivity]|].
  right. split; [reflexivity|]. exists resource. apply isStr_eq in C. auto.
Qed.

Lemma perform_outcome (c : InstanceCalls.Call Data) (i : Instance) :
  (fst (perform c i) <> None /\ snd (perform c i) = i)
  \/ (fst (perform c i) = None
      /\ exists d resource,
           classOf d = PStr templateModelName
           /\ fromJSON d = inr resource
           /\ validate resource = None
           /\ snd (perform c i)
              = TemplateInstance.mkInstance Data Resource (Some d) (Some resource)
           /\ match c with
              | InstanceCalls.CallSetData _ d' => d = d'
              | InstanceCalls.CallParse _ input fileName =>
                  exists inputCiceroMark,
                    fromMarkdownCicero input = inr inputCiceroMark
                    /\ dataFromCiceroMark fileName inputCiceroMark parserManager
                         templateKind = inr d
              end).
Proof.
  destruct c as [d|input fileName]; cbn [InstanceCalls.perform].
  - destruct (setData_outcome d i) as [L|(T & r & C & J & V & E)]; [now left|].
    right. split; [exact T|]. exists d, r. auto.
  - unfold TemplateInstance.parse.
    destruct (fromMarkdownCicero input) as [e|cm] eqn:M;
      [left; split; [discriminate|reflexivity]|].
    destruct (dataFromCiceroMark fileName cm parserManager _) as [e|d] eqn:P;
      [left; split; [discriminate|reflexivity]|].
    destruct (setData_outcome d i) as [L|(T & r & C & J & V & E)]; [now left|].
    right. split; [exact T|]. exists d, r. repeat split; auto. now exists cm.
Qed.

(** X22. A call of [setData] or [parse] that throws leaves the instance as it
    was, with the data of before; one that returns has set the data and,
    beside it, the resource the serializer made of the data and
    validated.  For [setData] the data is the argument, for [parse] it is
    what the transformer read from the text.  Data whose class is not the
    model of the template is refused with the error that names the model
    and shows the data. *)
Theorem call_sets_data_or_leaves_it (c : InstanceCalls.Call Data) (i : Instance) :
  (fst (perform c i) <> None -> snd (perform c i) = i)
  /\ (fst (perform c i) = None ->
      exists d resource,
        snd (perform c i)
        = TemplateInstance.mkInstance Data Resource (Some d) (Some resource)
        /\ classOf d = PStr templateModelName
        /\ fromJSON d = inr resource
        /\ validate resource = None
        /\ match c with
           | InstanceCalls.CallSetData _ d' => d = d'
           | InstanceCalls.CallParse _ input fileName =>
               exists inputCiceroMark,
                 fromMarkdownCicero input = inr inputCiceroMark
                 /\ dataFromCiceroMark fileName inputCiceroMark parserManager
                      templateKind = inr d
           end)
  /\ (forall d, classOf d <> PStr templateModelName ->
        setData d i
        = (Some (Error ("Invalid data, must be a valid instance of the template model "
                        +:+ templateModelName +:+ " but got: " +:+ stringify d
                        +:+ " ")), i)).
Proof.
  split; [|split].
  - intros T. destruct (perform_outcome c i) as [[_ E]|[T' _]]; [exact E|].
    now destruct T.
  - intros T. destruct (perform_outcome c i) as [[T' _]|[_ (d & r & C & J & V & E & K)]];
      [now destruct T'|].
    exists d, r. auto.
  - intros d C. unfold TemplateInstance.setData.
    destruct (isStr templateModelName (classOf d)) eqn:S; [|reflexivity].
    apply isStr_eq in S. now destruct C.
Qed.

Lemma Accepted_performAll (calls : list (InstanceCalls.Call Data)) :
  forall i, Accepted i -> Accepted (performAll calls i).
Proof.
  induction calls as [|c calls IH]; intros i A; [exact A|].
  cbn [InstanceCalls.performAll]. apply IH.
  destruct (perform_outcome c i) as [[_ E]|[_ (d & r & C & J & V & E & _)]];
    rewrite E; [exact A|]. cbn. auto.
Qed.

(** X23. Whatever calls of [setData] and [parse] were made on an instance,
    and whichever of them threw, its two fields go together: either both
    are null, and then [draft] throws that the data has not been set and
    the identifier is the one of the template; or it holds data whose
    class is the model of the template together with the validated
    resource of that data, and then [draft] drafts that data and the
    identifier carries its digest.  [toJSON] gives the identifier of the
    template with the data. *)
Theorem instance_holds_validated_data
    (calls : list (InstanceCalls.Call Data))
    (options : option TemplateInstance.Options) :
  let i := performAll calls newInstance in
  (TemplateInstance.data Data Resource i = None
   /\ TemplateInstance.concertoData Data Resource i = None
   /\ draft options i
      = inl (Error "Data has not been set. Call setData or parse before calling this method.")
   /\ getIdentifier i = templateIdentifier
   /\ toJSON i = (templateIdentifier, None))
  \/ (exists d resource,
         TemplateInstance.data Data Resource i = Some d
         /\ TemplateInstance.concertoData Data Resource i = Some resource
         /\ classOf d = PStr templateModelName
         /\ fromJSON d = inr resource
         /\ validate resource = None
         /\ draft options i
            = andThen (draftCiceroMark (Some d) parserManager templateKind)
                (fun ciceroMark => formatCiceroMark ciceroMark options)
         /\ getIdentifier i
            = templateIdentifier +:+ "-" +:+ sha256Hex (stringify d)
         /\ toJSON i = (templateIdentifier, Some d)).
Proof.
  cbv zeta.
  pose proof (Accepted_performAll calls newInstance I) as A.
  destruct (performAll calls newInstance) as [[d|] [r|]]; cbn in A.
  - right. exists d, r. destruct A as (C & J & V). repeat split; auto.
  - destruct A.
  - destruct A.
  - left. repeat split. apply append_empty.
Qed.

End Externals.

End InstanceStateFacts.

(** ** Scripts *)

Module ScriptFacts.

Import JS Exn Script.

Section Externals.

Variable ModelManager : Type.
Variable FunctionDeclaration : Type.
Variable Token : Type.

#[local] Abbreviation newScript :=
  (Script.newScript ModelManager FunctionDeclaration Token).

(** X24. A script is constructed exactly when its contents are truthy:
    undefined, null and the empty string are refused with the error of
    empty script contents.  A constructed script returns the identifier,
    the language, the contents and the contract name it was given, its
    contents are not empty, and it has no function declarations and no
    tokens. *)
Theorem script_has_contents
    (modelManager : ModelManager) (identifier language : string)
    (contents : prim) (contractName : option string) :
  (truthy contents = false <->
   newScript modelManager identifier language contents contractName
   = inl (Error "Empty script contents"))
  /\ (forall script,
         newScript modelManager identifier language contents contractName
         = inr script ->
         truthy (getContents _ _ _ script) = true
         /\ getIdentifier _ _ _ script = identifier
         /\ getLanguage _ _ _ script = language
         /\ getContents _ _ _ script = contents
         /\ getContractName _ _ _ script = contractName
         /\ getFunctionDeclarations _ _ _ script = []
         /\ getTokens _ _ _ script = [])
  /\ (forall refused,
         In refused [PUndefined; PNull; PStr ""] ->
         newScript modelManager identifier language refused contractName
         = inl (Error "Empty script contents")).
Proof.
  unfold Script.newScript. split; [|split].
  - destruct (truthy contents); cbn; split; intros H; try reflexivity; discriminate.
  - intros script. destruct (truthy contents) eqn:T; cbn; intros H; [|discriminate].
    inversion H. cbn. now repeat split.
  - intros refused [<-|[<-|[<-|[]]]]; reflexivity.
Qed.

End Externals.

End ScriptFacts.

(** ** The further properties on the order and its templates *)

Module FurtherRuns.

Import JS Concerto Tdl Exn ParserManager Nearley Notions Observed Examples.
Import LiteralFacts AccumulatorFacts FailureFacts BlockFacts NodeFacts.
Import ManagerStateFacts.

(** A text with a quotation and a line feed. *)
Lemma cleanChunk_read_back_witness :
  allPlain ("He said " +:+ String dquote ("yes" +:+ String dquote (String newline "")))
  = true
  /\ readLiteral
       (cleanChunk
          ("He said " +:+ String dquote ("yes" +:+ String dquote (String newline ""))))
     = Some ("He said " +:+ String dquote ("yes" +:+ String dquote (String newline ""))).
Proof.
  split; [reflexivity|].
  apply (proj1 (cleanChunk_read_back
                  ("He said " +:+ String dquote ("yes" +:+ String dquote (String newline "")))
                  eq_refl)).
Defined.

(** The buyer after a chunk of text: the second symbol has its rule. *)
Lemma container_rule_symbols_are_defined_witness :
  o_thrown (Examples.buildGrammarRules
              [Some (Chunk "Sold to "); Some (Binding (at_ "buyer" 1 9) None)]
              order "rule" start) = None
  /\ exists rule,
       In rule (modelRules (parts (o_state
                  (Examples.buildGrammarRules
                     [Some (Chunk "Sold to "); Some (Binding (at_ "buyer" 1 9) None)]
                     order "rule" start))))
       /\ mr_prefix rule = "rule1".
Proof.
  split; [reflexivity|].
  apply (proj1 (container_rule_symbols_are_defined
                  Examples.uuid_v4 Examples.getClassDeclaration
                  Examples.addGrammars Examples.buildFormatRules
                  [Some (Chunk "Sold to "); Some (Binding (at_ "buyer" 1 9) None)]
                  order "rule" start eq_refl) "rule1").
  right. left. reflexivity.
Defined.

(** A binding to [currency], which the order does not declare: the
    exception is of the first kind. *)
Lemma buildGrammarRules_throws_one_of_five_witness :
  o_thrown (Examples.buildGrammarRules
              [Some (Binding (at_ "currency" 3 8) None)] order "rule" start)
  = Some (undeclaredProperty order (at_ "currency" 3 8))
  /\ ((exists message location,
          undeclaredProperty order (at_ "currency" 3 8)
          = TemplateException message location "text/grammar.tem.md" "cicero-core"
          /\ startLine location = endLine location
          /\ startColumn location < endColumn location)
      \/ undeclaredProperty order (at_ "currency" 3 8)
         = Error "List block in template should contain text"
      \/ undeclaredProperty order (at_ "currency" 3 8)
         = TypeError "Cannot read properties of undefined (reading 'col')"
      \/ (exists name,
             Examples.getClassDeclaration name
             = inl (undeclaredProperty order (at_ "currency" 3 8)))
      \/ (exists parser format,
             Examples.buildFormatRules parser format
             = inl (undeclaredProperty order (at_ "currency" 3 8)))).
Proof.
  split; [reflexivity|].
  apply (buildGrammarRules_throws_one_of_five
           Examples.uuid_v4 Examples.getClassDeclaration
           Examples.addGrammars Examples.buildFormatRules
           [Some (Binding (at_ "currency" 3 8) None)] order "rule" start
           (undeclaredProperty order (at_ "currency" 3 8)) eq_refl).
Defined.


(** The buyer, a string, with a number format. *)
Lemma formatted_binding_needs_supported_type_witness :
  Concerto.getProperty order "buyer"
  = Some (mkProperty "buyer" "String" "String" false false false)
  /\ o_thrown (Examples.buildGrammarRules
                 [Some (Chunk "Sold to ");
                  Some (FormattedBinding (at_ "buyer" 1 9) (at_ "0,0.00" 1 18))]
                 order "rule" start)
     = Some (TemplateException
               "Formatted types are not currently supported for String properties."
               (mkFileLocation 1 9 1 10) "text/grammar.tem.md" "cicero-core").
Proof.
  split; [reflexivity|].
  apply (proj2 (proj2 (formatted_binding_needs_supported_type
                         Examples.uuid_v4 Examples.getClassDeclaration
                         Examples.addGrammars Examples.buildFormatRules
                         order (at_ "buyer" 1 9) (at_ "0,0.00" 1 18)
                         (mkProperty "buyer" "String" "String" false false false)
                         eq_refl ltac:(discriminate) ltac:(discriminate)
                         ltac:(discriminate)))
           [Some (Chunk "Sold to ")] [] "rule" start).
  reflexivity.
Defined.

(** A table, which the compiler has no case for. *)
Lemma unrecognised_node_is_rejected_witness :
  ~ In "TableBinding" knownTypes
  /\ Examples.compileNode order "rule0"
       (Other "TableBinding" (Some (at_ "rows" 5 2)) (Some "rows")) start
     = mkNodeOutcome
         (Other "TableBinding" (Some (at_ "rows" 5 2)) (Some "rows")) start
         (Some (TemplateException "Unrecognized type TableBinding"
                  (mkFileLocation 5 2 5 6) "text/grammar.tem.md" "cicero-core")).
Proof.
  assert (~ In "TableBinding" knownTypes) as N.
  { cbn. intros H. repeat (destruct H as [H|H]; [discriminate H|]). exact H. }
  split; [exact N|].
  apply (proj1 (unrecognised_node_is_rejected
                  Examples.uuid_v4 Examples.getClassDeclaration
                  Examples.addGrammars Examples.buildFormatRules
                  order "TableBinding" (at_ "rows" 5 2) (Some "rows") N)
           Examples.buildGrammarRules "rule0" start).
Defined.

(** The items of the order as a variable: an array. *)
Lemma variable_binding_rule_witness :
  Concerto.getProperty order "items"
  = Some (mkProperty "items" "Item" "org.acme.Item" true false false)
  /\ Examples.compileNode order "rule2" (Binding (at_ "items" 2 10) None) start
     = mkNodeOutcome (Binding (at_ "items" 2 10) None)
         (pushModelRule (mkModelRule "rule2" ["Item:* {% id %} # items"]) start)
         None.
Proof.
  split; [reflexivity|].
  apply (proj1 (variable_binding_rule
                  Examples.getClassDeclaration
                  Examples.addGrammars Examples.buildFormatRules
                  order "rule2" (at_ "items" 2 10) None
                  (mkProperty "items" "Item" "org.acme.Item" true false false)
                  start eq_refl ltac:(discriminate))
           Examples.buildGrammarRules).
Defined.

(** The items of the order as a clause. *)
Lemma nested_binding_compiles_its_template_witness :
  Examples.getClassDeclaration "org.acme.Item" = inr item
  /\ n_thrown (Examples.compileNode order "rule3"
                 (ClauseBinding (at_ "items" 2 10)
                    [Some (Chunk "item "); Some (Binding (at_ "name" 2 22) None)])
                 start)
     = o_thrown (Examples.buildGrammarRules
                   [Some (Chunk "item "); Some (Binding (at_ "name" 2 22) None)]
                   item "items" start).
Proof.
  split; [reflexivity|].
  apply (proj2 (nested_binding_compiles_its_template
                  Examples.uuid_v4 Examples.getClassDeclaration
                  Examples.addGrammars Examples.buildFormatRules
                  order "rule3"
                  (ClauseBinding (at_ "items" 2 10)
                     [Some (Chunk "item "); Some (Binding (at_ "name" 2 22) None)])
                  (at_ "items" 2 10)
                  [Some (Chunk "item "); Some (Binding (at_ "name" 2 22) None)]
                  (mkProperty "items" "Item" "org.acme.Item" true false false)
                  start (or_introl eq_refl) eq_refl ltac:(discriminate))
           item eq_refl).
Defined.

(** The dates of shipping as a join: the block is not compiled. *)
Lemma date_time_binding_is_formatted_witness :
  Concerto.getProperty order "shipped"
  = Some (mkProperty "shipped" "DateTime" "DateTime" true false false)
  /\ n_element (Examples.compileNode order "rule1"
                  (JoinBinding (at_ "shipped" 4 9) ", " [Some (Chunk "on ")]) start)
     = JoinBinding (at_ "shipped" 4 9) ", " [Some (Chunk "on ")]
  /\ textRules (parts (n_state
                  (Examples.compileNode order "rule1"
                     (JoinBinding (at_ "shipped" 4 9) ", " [Some (Chunk "on ")]) start)))
     = textRules (parts start).
Proof.
  split; [reflexivity|].
  destruct (date_time_binding_is_formatted
              Examples.getClassDeclaration
              Examples.addGrammars Examples.buildFormatRules
              order "rule1"
              (JoinBinding (at_ "shipped" 4 9) ", " [Some (Chunk "on ")])
              (at_ "shipped" 4 9)
              (mkProperty "shipped" "DateTime" "DateTime" true false false)
              start Examples.buildGrammarRules
              eq_refl eq_refl eq_refl eq_refl) as (E & T & _).
  split; [exact E|exact T].
Defined.

(** Text, a conditional and a variable of the order. *)
Lemma flat_template_compiles_witness :
  flat order
    [Some (Chunk "Sold"); Some (IfBinding (at_ "express" 1 6) (at_ " by express" 1 15));
     Some (Chunk " to "); Some (Binding (at_ "buyer" 1 30) None); None]
  = true
  /\ o_thrown (Examples.buildGrammarRules
                 [Some (Chunk "Sold");
                  Some (IfBinding (at_ "express" 1 6) (at_ " by express" 1 15));
                  Some (Chunk " to "); Some (Binding (at_ "buyer" 1 30) None); None]
                 order "rule" start) = None.
Proof.
  split; [reflexivity|].
  apply (proj1 (flat_template_compiles
                  Examples.uuid_v4 Examples.getClassDeclaration
                  Examples.addGrammars Examples.buildFormatRules
                  [Some (Chunk "Sold");
                   Some (IfBinding (at_ "express" 1 6) (at_ " by express" 1 15));
                   Some (Chunk " to "); Some (Binding (at_ "buyer" 1 30) None); None]
                  order "rule" start eq_refl)).
Defined.

(** Building the grammar of a template of one chunk. *)
Lemma buildGrammar_installs_the_grammar_witness :
  Examples.feedTemplateGrammar "Hello" = inr [[Some (Chunk "Hello")]]
  /\ fst (Examples.buildGrammar "Hello" built) = None
  /\ templatizedGrammar string (snd (Examples.buildGrammar "Hello" built)) = Some "Hello"
  /\ templateAst string (snd (Examples.buildGrammar "Hello" built))
     = Some [Some (Chunk "Hello")].
Proof.
  split; [reflexivity|].
  destruct (buildGrammar_installs_the_grammar
              string string string Examples.feedNearley Examples.compile
              Examples.generate Examples.evalModule Examples.roundtripMarkdown
              Examples.feedTemplateGrammar order (inr []) Examples.render
              Examples.uuid_v4 Examples.getClassDeclaration Examples.addGrammars
              Examples.buildFormatRules
              "Hello" "Hello" "main -> rule" [Some (Chunk "Hello")] [] "main -> rule"
              built eq_refl eq_refl eq_refl eq_refl eq_refl eq_refl)
    as (T & _ & _ & Z & A & _).
  split; [exact T|]. split; [exact Z|exact A].
Defined.

(** Building from a text that has no parse, on a manager that has a
    grammar. *)
Lemma buildGrammar_failure_keeps_the_grammar_witness :
  fst (Examples.buildGrammar "" built) <> None
  /\ grammar string (snd (Examples.buildGrammar "" built)) = Some "main -> rule"
  /\ grammarAst string (snd (Examples.buildGrammar "" built)) = Some "main -> rule".
Proof.
  assert (fst (Examples.buildGrammar "" built) <> None) as Failed
    by discriminate.
  split; [exact Failed|].
  destruct (buildGrammar_failure_keeps_the_grammar
              string string string Examples.feedNearley Examples.compile
              Examples.generate Examples.evalModule Examples.roundtripMarkdown
              Examples.feedTemplateGrammar order (inr []) Examples.render
              Examples.uuid_v4 Examples.getClassDeclaration Examples.addGrammars
              Examples.buildFormatRules "" built Failed) as (G & A & _).
  split; [exact G|exact A].
Defined.

End FurtherRuns.
